(** * Stripe B2B payments API: a shallow embedding of the service layer

    The development follows the layout of the application:
    - [PyDict]: the insertion-ordered dictionaries that back the three
      in-memory stores and the keyword arguments sent to the provider;
    - [Decimal]: the fragment of Python's [decimal] arithmetic the services
      use ([amount * 100], [int(...)], truthiness);
    - the models of [app/models], the constants of [app/constants.py];
    - the effects of the services (the stores, [uuid.uuid4()],
      [datetime.utcnow()], the calls to the provider) as a state and
      exception monad over an explicit environment;
    - [app/services] and [app/api], function by function;
    - the properties of the specification, proved against these. *)

From Stdlib Require Import ZArith QArith Qround Qabs List String Ascii Bool Lia.
From Stdlib Require Import Permutation Sorted.
Import ListNotations.

Local Open Scope string_scope.
Local Open Scope Z_scope.

(* ================================================================== *)
(** ** Python values *)

(** The keyword arguments handed to the provider SDK ([**intent_data]). *)
#[local] Set Warnings "-register-all".
Inductive PyVal : Type :=
| VNone
| VBool (b : bool)
| VInt (z : Z)
| VStr (s : string)
| VDict (items : list (string * PyVal))
| VList (items : list PyVal).

(** [if s:] on an [Optional[str]]: [None] and the empty string are falsy. *)
Definition truthy_str (o : option string) : bool :=
  match o with
  | Some s => negb (String.eqb s "")
  | None => false
  end.

(** [if n:] on an [Optional[int]]: [None] and [0] are falsy. *)
Definition truthy_int (o : option Z) : bool :=
  match o with
  | Some n => negb (n =? 0)
  | None => false
  end.

(** [if d:] on an [Optional[dict]]: [None] and the empty dict are falsy. *)
Definition truthy_dict {V : Type} (o : option (list (string * V))) : bool :=
  match o with
  | Some (_ :: _) => true
  | _ => false
  end.

(** [l[start:end]] with Python's treatment of negative and out-of-range
    indices (step 1). *)
Definition slice_index (n i : Z) : Z :=
  if i <? 0 then Z.max (i + n) 0 else Z.min i n.

Definition py_slice {A : Type} (l : list A) (start stop : Z) : list A :=
  let n := Z.of_nat (List.length l) in
  let lo := slice_index n start in
  let hi := slice_index n stop in
  if lo <? hi then firstn (Z.to_nat (hi - lo)) (skipn (Z.to_nat lo) l) else [].

(** [l.sort(key=key, reverse=True)]: a stable sort, descending in [key];
    records with equal keys keep their relative order.  Written as the
    insertion sort that scans the list front to back. *)
Section SortDesc.
Context {A : Type} (key : A -> Z).

Fixpoint insert_desc (x : A) (l : list A) : list A :=
  match l with
  | [] => [x]
  | y :: l' => if key y <? key x then x :: y :: l' else y :: insert_desc x l'
  end.

Definition sort_desc (l : list A) : list A :=
  fold_left (fun acc x => insert_desc x acc) l [].

(** [a] may come before [b] in a list sorted newest first. *)
Definition desc (a b : A) : Prop := key b <= key a.
End SortDesc.

(* ================================================================== *)
(** ** Insertion-ordered dictionaries *)

Module PyDict.
Section Dict.
Context {V : Type}.

Definition t : Type := list (string * V).

Definition empty : t := [].

(** [d.get(k)] *)
Fixpoint get (d : t) (k : string) : option V :=
  match d with
  | [] => None
  | (k', v) :: d' => if String.eqb k k' then Some v else get d' k
  end.

(** [d[k] = v]: an existing key keeps its position, a new key goes last. *)
Fixpoint set (d : t) (k : string) (v : V) : t :=
  match d with
  | [] => [(k, v)]
  | (k', v') :: d' =>
      if String.eqb k k' then (k', v) :: d' else (k', v') :: set d' k v
  end.

(** [list(d.values())], [list(d.keys())], [len(d)], [k in d] *)
Definition values (d : t) : list V := map snd d.
Definition keys (d : t) : list string := map fst d.
Definition len (d : t) : Z := Z.of_nat (List.length d).
Definition contains (d : t) (k : string) : bool :=
  match get d k with Some _ => true | None => false end.
End Dict.
Arguments t : clear implicits.
End PyDict.

(* ================================================================== *)
(** ** Decimal arithmetic

    A finite [decimal.Decimal] is a signed coefficient and an exponent; its
    value is [coeff * 10 ^ expo].  Arithmetic rounds to the default
    context: 28 significant digits, ties to even.  The exponent limits of
    the context (about [10 ^ 6] in magnitude) are far outside any amount
    and are not modelled. *)

Module Decimal.

Record t : Type := mk { coeff : Z; expo : Z }.

Definition prec : Z := 28.

(** The number a decimal denotes. *)
Definition value (d : t) : Q :=
  if 0 <=? expo d
  then inject_Z (coeff d * 10 ^ expo d)
  else Qmake (coeff d) (Z.to_pos (10 ^ (- expo d))).

Fixpoint ndigits_aux (fuel : nat) (n : Z) : Z :=
  match fuel with
  | O => 0
  | S fuel' => if n <? 10 then 1 else 1 + ndigits_aux fuel' (n / 10)
  end.

(** Number of decimal digits of a positive integer. *)
Definition ndigits (n : Z) : Z :=
  ndigits_aux (S (Z.to_nat (Z.log2 n))) n.

(** [n / 10 ^ k] rounded to the nearest integer, ties to even
    ([n >= 0], [k > 0]). *)
Definition div_pow10_half_even (n k : Z) : Z :=
  let q := n / 10 ^ k in
  let r := n mod 10 ^ k in
  let half := 5 * 10 ^ (k - 1) in
  if (half <? r) || ((r =? half) && Z.odd q) then q + 1 else q.

(** Rounding of a result to the precision of the context. *)
Definition fix_prec (d : t) : t :=
  let a := Z.abs (coeff d) in
  if a <? 10 ^ prec then d
  else
    let k := ndigits a - prec in
    let q := div_pow10_half_even a k in
    if q =? 10 ^ prec
    then mk (Z.sgn (coeff d) * 10 ^ (prec - 1)) (expo d + k + 1)
    else mk (Z.sgn (coeff d) * q) (expo d + k).

(** [d * n] for an [int] [n] *)
Definition mul_int (d : t) (n : Z) : t :=
  fix_prec (mk (coeff d * n) (expo d)).

(** [int(d)]: truncation toward zero *)
Definition to_int (d : t) : Z :=
  if 0 <=? expo d
  then coeff d * 10 ^ expo d
  else Z.quot (coeff d) (10 ^ (- expo d)).

(** [Decimal(n) / 100] for an [int] [n]: the exact quotient, written with
    the exponent closest to zero that represents it. *)
Definition of_cents (n : Z) : t :=
  if n mod 100 =? 0 then fix_prec (mk (n / 100) 0)
  else if n mod 10 =? 0 then fix_prec (mk (n / 10) (-1))
  else fix_prec (mk n (-2)).

(** [bool(d)]: a decimal is falsy exactly when it is zero. *)
Definition truthy (d : t) : bool := negb (coeff d =? 0).

(** [d > 0], the constraint [gt=0] of the request models. *)
Definition gt0 (d : t) : bool := 0 <? coeff d.

End Decimal.

(** Python's built-in [round] to an integer (ties to even), on the exact
    value: the rounding the specification speaks of. *)
Definition round_half_even (q : Q) : Z :=
  let f := Qfloor q in
  let r := (q - inject_Z f)%Q in
  match (r ?= 1 # 2)%Q with
  | Lt => f
  | Gt => f + 1
  | Eq => if Z.even f then f else f + 1
  end.

(* ================================================================== *)
(** ** [app/constants.py] *)

Module constants.

Definition DEFAULT_PAGE_SIZE : Z := 10.
Definition MAX_PAGE_SIZE : Z := 100.

Definition STRIPE_CURRENCY_USD : string := "usd".
Definition STRIPE_TEST_PAYMENT_METHOD : string := "pm_card_visa".
Definition STRIPE_RETURN_URL : string := "https://example.com/return".

Inductive PaymentStatus : Type :=
| PENDING | SUCCEEDED | FAILED | PAYMENT_CANCELED
| REQUIRES_PAYMENT_METHOD | REQUIRES_CONFIRMATION | REQUIRES_ACTION
| PROCESSING.

Inductive RefundReason : Type :=
| REQUESTED_BY_CUSTOMER | DUPLICATE | FRAUDULENT.

Inductive SubscriptionStatus : Type :=
| ACTIVE | CANCELED | INCOMPLETE | INCOMPLETE_EXPIRED | PAST_DUE
| TRIALING | UNPAID.

Module ErrorMessages.
Definition PAYMENT_NOT_FOUND := "Payment not found".
Definition INVALID_PAYMENT_INTENT := "Payment has no Stripe Payment Intent ID".
Definition FAILED_TO_CREATE_PAYMENT := "Failed to create payment".
Definition FAILED_TO_CREATE_REFUND := "Failed to create refund".
Definition FAILED_TO_CREATE_SUBSCRIPTION := "Failed to create subscription".
Definition FAILED_TO_GET_PAYMENT_STATUS := "Failed to get payment status".
Definition FAILED_TO_LIST_PAYMENTS := "Failed to list payments".
Definition FAILED_TO_LIST_SUBSCRIPTIONS := "Failed to list subscriptions".
End ErrorMessages.

Module SuccessMessages.
Definition PAYMENT_CREATED := "Payment created successfully".
Definition REFUND_CREATED := "Refund created successfully".
Definition SUBSCRIPTION_CREATED := "Subscription created successfully".
End SuccessMessages.

End constants.
Import constants.

(* ================================================================== *)
(** ** [app/models]

    Timestamps: a [datetime] is the number of microseconds since the
    epoch, a provider timestamp is a number of seconds. *)

Definition datetime : Type := Z.
Definition metadata_t : Type := option (PyDict.t PyVal).

Module PaymentCreateRequest.
Record t : Type := mk {
  amount : Decimal.t;
  currency : string;
  description : option string;
  customer_id : option string;
  metadata : metadata_t }.
End PaymentCreateRequest.

Module PaymentResponse.
Record t : Type := mk {
  id : string;
  amount : Decimal.t;
  currency : string;
  status : PaymentStatus;
  description : option string;
  created_at : datetime;
  updated_at : datetime;
  stripe_payment_intent_id : option string;
  customer_id : option string;
  metadata : metadata_t }.
End PaymentResponse.

Module PaymentListResponse.
Record t : Type := mk {
  payments : list PaymentResponse.t;
  total : Z;
  page : Z;
  per_page : Z }.
End PaymentListResponse.

Module RefundCreateRequest.
Record t : Type := mk {
  payment_intent_id : string;
  amount : option Decimal.t;
  reason : option RefundReason }.
End RefundCreateRequest.

Module RefundResponse.
Record t : Type := mk {
  id : string;
  payment_intent_id : string;
  amount : Decimal.t;
  currency : string;
  status : string;
  reason : option RefundReason;
  created_at : Z }.
End RefundResponse.

Module RefundListResponse.
Record t : Type := mk {
  refunds : list RefundResponse.t;
  total : Z;
  has_more : bool }.
End RefundListResponse.

Module SubscriptionCreateRequest.
Record t : Type := mk {
  customer_id : string;
  price_id : string;
  quantity : Z;
  trial_period_days : option Z;
  metadata : metadata_t }.
End SubscriptionCreateRequest.

Module SubscriptionResponse.
Record t : Type := mk {
  id : string;
  customer_id : string;
  status : SubscriptionStatus;
  current_period_start : datetime;
  current_period_end : datetime;
  trial_start : option datetime;
  trial_end : option datetime;
  cancel_at_period_end : bool;
  canceled_at : option datetime;
  stripe_subscription_id : option string;
  metadata : metadata_t;
  created_at : datetime;
  updated_at : datetime }.
End SubscriptionResponse.

Module SubscriptionListResponse.
Record t : Type := mk {
  subscriptions : list SubscriptionResponse.t;
  total : Z;
  page : Z;
  per_page : Z }.
End SubscriptionListResponse.

(* ================================================================== *)
(** ** The provider

    The objects the provider SDK returns, with the attributes the services
    read, and the calls that reach it. *)

Module stripe.

Record PaymentIntent : Type := mkPaymentIntent {
  pi_id : string;
  pi_client_secret : option string;
  pi_status : string }.

Record Refund : Type := mkRefund {
  re_id : string;
  re_payment_intent : string;
  re_amount : Z;
  re_currency : string;
  re_status : string;
  re_created : Z }.

Record Subscription : Type := mkSubscription {
  sub_id : string;
  sub_status : string;
  sub_current_period_start : Z;
  sub_current_period_end : Z;
  sub_trial_start : option Z;
  sub_trial_end : option Z;
  sub_cancel_at_period_end : bool;
  sub_canceled_at : option Z }.

(** One outbound call: the SDK entry point and its keyword arguments. *)
Inductive Call : Type :=
| PaymentIntent_create (kwargs : PyDict.t PyVal)
| Refund_create (kwargs : PyDict.t PyVal)
| Subscription_create (kwargs : PyDict.t PyVal)
| Subscription_modify (subscription_id : option string) (kwargs : PyDict.t PyVal).

Definition kwargs_of (c : Call) : PyDict.t PyVal :=
  match c with
  | PaymentIntent_create k | Refund_create k | Subscription_create k
  | Subscription_modify _ k => k
  end.

End stripe.

(* ================================================================== *)
(** ** Exceptions, environment and state *)

Inductive PyExc : Type :=
| NameError (name : string)
| HTTPException (status_code : Z) (detail : string)
| StripeError (message : string)
| ValueError (message : string)
| ResponseValidationError.

(** [str(e)] *)
Definition exc_str (e : PyExc) : string :=
  match e with
  | NameError n => "name '" ++ n ++ "' is not defined"
  | HTTPException _ d => d
  | StripeError m => m
  | ValueError m => m
  | ResponseValidationError => "response validation error"
  end.

(** What the program does not decide: the values [uuid.uuid4()] and
    [datetime.utcnow()] return at their n-th call, the answer of the
    provider to a call, given the calls made before, and the platform's
    conversion of epoch seconds to local time, which yields a [datetime]
    or, for seconds outside the range the platform and [datetime]
    support, the message of the error it raises. *)
Record Env : Type := mkEnv {
  uuid_of : nat -> string;
  time_of : nat -> datetime;
  fromtimestamp_result : Z -> string + datetime;
  PaymentIntent_create_result :
    list stripe.Call -> PyDict.t PyVal -> PyExc + stripe.PaymentIntent;
  Refund_create_result :
    list stripe.Call -> PyDict.t PyVal -> PyExc + stripe.Refund;
  Subscription_create_result :
    list stripe.Call -> PyDict.t PyVal -> PyExc + stripe.Subscription;
  Subscription_modify_result :
    list stripe.Call -> option string -> PyDict.t PyVal ->
    PyExc + stripe.Subscription }.

(** The process state: the stores of the three singleton services, the
    calls sent to the provider so far (oldest first) and how many times
    the two generators were read. *)
Record World : Type := mkWorld {
  _payments : PyDict.t PaymentResponse.t;
  _refunds : PyDict.t RefundResponse.t;
  _subscriptions : PyDict.t SubscriptionResponse.t;
  stripe_calls : list stripe.Call;
  uuids_drawn : nat;
  clock_reads : nat }.

Definition initial_world : World := mkWorld [] [] [] [] 0 0.

Definition with_payments (w : World) d : World :=
  mkWorld d (_refunds w) (_subscriptions w) (stripe_calls w)
          (uuids_drawn w) (clock_reads w).
Definition with_refunds (w : World) d : World :=
  mkWorld (_payments w) d (_subscriptions w) (stripe_calls w)
          (uuids_drawn w) (clock_reads w).
Definition with_subscriptions (w : World) d : World :=
  mkWorld (_payments w) (_refunds w) d (stripe_calls w)
          (uuids_drawn w) (clock_reads w).
Definition with_stripe_calls (w : World) l : World :=
  mkWorld (_payments w) (_refunds w) (_subscriptions w) l
          (uuids_drawn w) (clock_reads w).
Definition with_uuids_drawn (w : World) n : World :=
  mkWorld (_payments w) (_refunds w) (_subscriptions w) (stripe_calls w)
          n (clock_reads w).
Definition with_clock_reads (w : World) n : World :=
  mkWorld (_payments w) (_refunds w) (_subscriptions w) (stripe_calls w)
          (uuids_drawn w) n.

(** Computations that read the environment, change the state and may
    raise.  A raised exception keeps the state changes made before it. *)
Definition M (A : Type) : Type := Env -> World -> (PyExc + A) * World.

Definition ret {A} (a : A) : M A := fun _ w => (inr a, w).

Definition bind {A B} (m : M A) (k : A -> M B) : M B :=
  fun env w =>
    match m env w with
    | (inr a, w') => k a env w'
    | (inl e, w') => (inl e, w')
    end.

Definition raise {A} (e : PyExc) : M A := fun _ w => (inl e, w).

(** [try: body  except ...: handler] *)
Definition try_except {A} (body : M A) (handler : PyExc -> M A) : M A :=
  fun env w =>
    match body env w with
    | (inr a, w') => (inr a, w')
    | (inl e, w') => handler e env w'
    end.

Definition get_world : M World := fun _ w => (inr w, w).
Definition put_world (w : World) : M unit := fun _ _ => (inr tt, w).

Notation "x <- c ;; k" := (bind c (fun x => k))
  (at level 61, c at next level, right associativity).
Notation "c ;;; k" := (bind c (fun _ => k))
  (at level 61, right associativity).

(** [str(uuid.uuid4())] *)
Definition uuid4 : M string :=
  fun env w => (inr (uuid_of env (uuids_drawn w)),
                with_uuids_drawn w (S (uuids_drawn w))).

(** [datetime.utcnow()] *)
Definition utcnow : M datetime :=
  fun env w => (inr (time_of env (clock_reads w)),
                with_clock_reads w (S (clock_reads w))).

(** [datetime.fromtimestamp(seconds)]: it raises for seconds out of
    range ([ValueError]; on some platforms [OverflowError] or [OSError],
    which no caller tells apart). *)
Definition fromtimestamp (seconds : Z) : M datetime :=
  fun env w =>
    match fromtimestamp_result env seconds with
    | inr d => (inr d, w)
    | inl message => (inl (ValueError message), w)
    end.

(* ================================================================== *)
(** ** [app/services/stripe_service.py]: the provider gateway *)

Module stripe_service.

(** Send one call: it is recorded, and the provider answers or fails. *)
Definition send {A} (c : stripe.Call)
    (answer : Env -> list stripe.Call -> PyExc + A) : M A :=
  fun env w =>
    (answer env (stripe_calls w),
     with_stripe_calls w (stripe_calls w ++ [c])).

Definition opt_str (o : option string) : PyVal :=
  match o with Some s => VStr s | None => VNone end.
Definition opt_int (o : option Z) : PyVal :=
  match o with Some n => VInt n | None => VNone end.
Definition opt_dict (o : metadata_t) : PyVal :=
  match o with Some d => VDict d | None => VNone end.

Definition create_payment_intent (amount : Z) (currency : string)
    (customer_id : option string) (metadata : metadata_t)
  : M stripe.PaymentIntent :=
  let intent_data : PyDict.t PyVal :=
    [ ("amount", VInt amount);
      ("currency", VStr currency);
      ("automatic_payment_methods", VDict [("enabled", VBool true)]) ] in
  let intent_data :=
    if truthy_str customer_id
    then PyDict.set intent_data "customer" (opt_str customer_id)
    else intent_data in
  let intent_data :=
    if truthy_dict metadata
    then PyDict.set intent_data "metadata" (opt_dict metadata)
    else intent_data in
  send (stripe.PaymentIntent_create intent_data)
       (fun env h => PaymentIntent_create_result env h intent_data).

Definition create_test_payment_intent (amount : Z) (currency : string)
    (customer_id : option string) (metadata : metadata_t)
  : M stripe.PaymentIntent :=
  let intent_data : PyDict.t PyVal :=
    [ ("amount", VInt amount);
      ("currency", VStr currency);
      ("automatic_payment_methods", VDict [("enabled", VBool true)]);
      ("confirm", VBool true);
      ("payment_method", VStr STRIPE_TEST_PAYMENT_METHOD);
      ("return_url", VStr STRIPE_RETURN_URL) ] in
  let intent_data :=
    if truthy_str customer_id
    then PyDict.set intent_data "customer" (opt_str customer_id)
    else intent_data in
  let intent_data :=
    if truthy_dict metadata
    then PyDict.set intent_data "metadata" (opt_dict metadata)
    else intent_data in
  send (stripe.PaymentIntent_create intent_data)
       (fun env h => PaymentIntent_create_result env h intent_data).

(** [reason] is accepted and not forwarded. *)
Definition create_refund (payment_intent_id : string) (amount : option Z)
    (reason : option RefundReason) : M stripe.Refund :=
  let refund_data : PyDict.t PyVal :=
    [ ("payment_intent", VStr payment_intent_id) ] in
  let refund_data :=
    if truthy_int amount
    then PyDict.set refund_data "amount" (opt_int amount)
    else refund_data in
  send (stripe.Refund_create refund_data)
       (fun env h => Refund_create_result env h refund_data).

Definition create_subscription (customer_id price_id : string)
    (trial_period_days : option Z) (metadata : metadata_t)
  : M stripe.Subscription :=
  let subscription_data : PyDict.t PyVal :=
    [ ("customer", VStr customer_id);
      ("items", VList [VDict [("price", VStr price_id)]]) ] in
  let subscription_data :=
    if truthy_int trial_period_days
    then PyDict.set subscription_data "trial_period_days"
                    (opt_int trial_period_days)
    else subscription_data in
  let subscription_data :=
    if truthy_dict metadata
    then PyDict.set subscription_data "metadata" (opt_dict metadata)
    else subscription_data in
  send (stripe.Subscription_create subscription_data)
       (fun env h => Subscription_create_result env h subscription_data).

Definition cancel_subscription (subscription_id : option string)
  : M stripe.Subscription :=
  let kwargs : PyDict.t PyVal := [ ("cancel_at_period_end", VBool true) ] in
  send (stripe.Subscription_modify subscription_id kwargs)
       (fun env h => Subscription_modify_result env h subscription_id kwargs).

End stripe_service.

(** [a == b] between an [Optional[str]] attribute and a [str] filter *)
Definition opt_str_eqb (a b : option string) : bool :=
  match a, b with
  | Some x, Some y => String.eqb x y
  | None, None => true
  | _, _ => false
  end.

(* ================================================================== *)
(** ** [app/services/payment_service.py] *)

Module payment_service.

Definition create_payment (request : PaymentCreateRequest.t)
    (test_mode : bool) : M PaymentResponse.t :=
  let amount_cents :=
    Decimal.to_int (Decimal.mul_int (PaymentCreateRequest.amount request) 100) in
  stripe_intent <-
    (if test_mode
     then stripe_service.create_test_payment_intent amount_cents
            (PaymentCreateRequest.currency request)
            (PaymentCreateRequest.customer_id request)
            (PaymentCreateRequest.metadata request)
     else stripe_service.create_payment_intent amount_cents
            (PaymentCreateRequest.currency request)
            (PaymentCreateRequest.customer_id request)
            (PaymentCreateRequest.metadata request)) ;;
  payment_id <- uuid4 ;;
  now <- utcnow ;;
  let payment :=
    PaymentResponse.mk payment_id
      (PaymentCreateRequest.amount request)
      (PaymentCreateRequest.currency request)
      PENDING
      (PaymentCreateRequest.description request)
      now now
      (Some (stripe.pi_id stripe_intent))
      (PaymentCreateRequest.customer_id request)
      (PaymentCreateRequest.metadata request) in
  w <- get_world ;;
  put_world (with_payments w (PyDict.set (_payments w) payment_id payment)) ;;;
  ret payment.

Definition get_payment (payment_id : string) : M (option PaymentResponse.t) :=
  w <- get_world ;;
  ret (PyDict.get (_payments w) payment_id).

Definition get_payments (customer_id : option string) (page per_page : Z)
  : M (list PaymentResponse.t) :=
  w <- get_world ;;
  let payments := PyDict.values (_payments w) in
  let payments :=
    if truthy_str customer_id
    then filter (fun p => opt_str_eqb (PaymentResponse.customer_id p)
                                      customer_id) payments
    else payments in
  let payments := sort_desc PaymentResponse.created_at payments in
  let start := (page - 1) * per_page in
  let stop := start + per_page in
  ret (py_slice payments start stop).

Definition set_status (p : PaymentResponse.t) (s : PaymentStatus)
    (now : datetime) : PaymentResponse.t :=
  PaymentResponse.mk (PaymentResponse.id p) (PaymentResponse.amount p)
    (PaymentResponse.currency p) s (PaymentResponse.description p)
    (PaymentResponse.created_at p) now
    (PaymentResponse.stripe_payment_intent_id p)
    (PaymentResponse.customer_id p) (PaymentResponse.metadata p).

Definition update_payment_status (payment_id : string)
    (status : PaymentStatus) : M (option PaymentResponse.t) :=
  w <- get_world ;;
  match PyDict.get (_payments w) payment_id with
  | Some payment =>
      now <- utcnow ;;
      let payment := set_status payment status now in
      w <- get_world ;;
      put_world (with_payments w (PyDict.set (_payments w) payment_id payment)) ;;;
      ret (Some payment)
  | None => ret None
  end.

End payment_service.

(* ================================================================== *)
(** ** [app/services/refund_service.py] *)

Module refund_service.

Definition create_refund (payment_intent_id : string)
    (amount : option Decimal.t) (reason : option RefundReason)
  : M RefundResponse.t :=
  let amount_cents : option Z :=
    match amount with
    | Some a =>
        if Decimal.truthy a
        then Some (Decimal.to_int (Decimal.mul_int a 100))
        else None
    | None => None
    end in
  stripe_refund <-
    stripe_service.create_refund payment_intent_id amount_cents reason ;;
  let refund :=
    RefundResponse.mk (stripe.re_id stripe_refund)
      (stripe.re_payment_intent stripe_refund)
      (Decimal.of_cents (stripe.re_amount stripe_refund))
      (stripe.re_currency stripe_refund)
      (stripe.re_status stripe_refund)
      reason
      (stripe.re_created stripe_refund) in
  w <- get_world ;;
  put_world (with_refunds w
    (PyDict.set (_refunds w) (RefundResponse.id refund) refund)) ;;;
  ret refund.

Definition get_refund (refund_id : string) : M (option RefundResponse.t) :=
  w <- get_world ;;
  ret (PyDict.get (_refunds w) refund_id).

Definition list_refunds (payment_intent_id : option string) (limit : Z)
  : M (list RefundResponse.t) :=
  w <- get_world ;;
  let refunds := PyDict.values (_refunds w) in
  let refunds :=
    if truthy_str payment_intent_id
    then filter (fun r => opt_str_eqb
                            (Some (RefundResponse.payment_intent_id r))
                            payment_intent_id) refunds
    else refunds in
  let refunds := sort_desc RefundResponse.created_at refunds in
  ret (py_slice refunds 0 limit).

End refund_service.

(* ================================================================== *)
(** ** [app/services/subscription_service.py] *)

Module subscription_service.

(** [datetime.fromtimestamp(x) if x else None] *)
Definition opt_fromtimestamp (x : option Z) : M (option datetime) :=
  match x with
  | Some seconds =>
      if truthy_int x
      then d <- fromtimestamp seconds ;; ret (Some d)
      else ret None
  | None => ret None
  end.

(** The arguments of [SubscriptionResponse(...)] are evaluated in the
    order they are written, after the id and the time were taken. *)
Definition create_subscription (request : SubscriptionCreateRequest.t)
  : M SubscriptionResponse.t :=
  stripe_subscription <-
    stripe_service.create_subscription
      (SubscriptionCreateRequest.customer_id request)
      (SubscriptionCreateRequest.price_id request)
      (SubscriptionCreateRequest.trial_period_days request)
      (SubscriptionCreateRequest.metadata request) ;;
  subscription_id <- uuid4 ;;
  now <- utcnow ;;
  current_period_start <-
    fromtimestamp (stripe.sub_current_period_start stripe_subscription) ;;
  current_period_end <-
    fromtimestamp (stripe.sub_current_period_end stripe_subscription) ;;
  trial_start <- opt_fromtimestamp (stripe.sub_trial_start stripe_subscription) ;;
  trial_end <- opt_fromtimestamp (stripe.sub_trial_end stripe_subscription) ;;
  canceled_at <- opt_fromtimestamp (stripe.sub_canceled_at stripe_subscription) ;;
  let subscription :=
    SubscriptionResponse.mk subscription_id
      (SubscriptionCreateRequest.customer_id request)
      (if negb (truthy_int (SubscriptionCreateRequest.trial_period_days request))
       then ACTIVE else TRIALING)
      current_period_start
      current_period_end
      trial_start
      trial_end
      (stripe.sub_cancel_at_period_end stripe_subscription)
      canceled_at
      (Some (stripe.sub_id stripe_subscription))
      (SubscriptionCreateRequest.metadata request)
      now now in
  w <- get_world ;;
  put_world (with_subscriptions w
    (PyDict.set (_subscriptions w) subscription_id subscription)) ;;;
  ret subscription.

Definition get_subscription (subscription_id : string)
  : M (option SubscriptionResponse.t) :=
  w <- get_world ;;
  ret (PyDict.get (_subscriptions w) subscription_id).

Definition get_subscriptions (customer_id : option string) (page per_page : Z)
  : M (list SubscriptionResponse.t) :=
  w <- get_world ;;
  let subscriptions := PyDict.values (_subscriptions w) in
  let subscriptions :=
    if truthy_str customer_id
    then filter (fun s => opt_str_eqb
                            (Some (SubscriptionResponse.customer_id s))
                            customer_id) subscriptions
    else subscriptions in
  let subscriptions := sort_desc SubscriptionResponse.created_at subscriptions in
  let start := (page - 1) * per_page in
  let stop := start + per_page in
  ret (py_slice subscriptions start stop).

(** [subscription.status = ...; subscription.cancel_at_period_end = ...]
    on a stored record. *)
Definition mark_canceled (s : SubscriptionResponse.t)
    (cancel_at_period_end : bool) : SubscriptionResponse.t :=
  SubscriptionResponse.mk
    (SubscriptionResponse.id s) (SubscriptionResponse.customer_id s)
    CANCELED
    (SubscriptionResponse.current_period_start s)
    (SubscriptionResponse.current_period_end s)
    (SubscriptionResponse.trial_start s) (SubscriptionResponse.trial_end s)
    cancel_at_period_end
    (SubscriptionResponse.canceled_at s)
    (SubscriptionResponse.stripe_subscription_id s)
    (SubscriptionResponse.metadata s)
    (SubscriptionResponse.created_at s) (SubscriptionResponse.updated_at s).

(** [subscription.canceled_at = ...; subscription.updated_at = ...] *)
Definition stamp_canceled (s : SubscriptionResponse.t)
    (canceled_at : option datetime) (now : datetime)
  : SubscriptionResponse.t :=
  SubscriptionResponse.mk
    (SubscriptionResponse.id s) (SubscriptionResponse.customer_id s)
    (SubscriptionResponse.status s)
    (SubscriptionResponse.current_period_start s)
    (SubscriptionResponse.current_period_end s)
    (SubscriptionResponse.trial_start s) (SubscriptionResponse.trial_end s)
    (SubscriptionResponse.cancel_at_period_end s)
    canceled_at
    (SubscriptionResponse.stripe_subscription_id s)
    (SubscriptionResponse.metadata s)
    (SubscriptionResponse.created_at s) now.

(** The record fetched from the store is the stored object itself, so
    the assignments to its attributes show in the store as they are made:
    the first two are in place before the timestamp is converted, which
    can raise. *)
Definition cancel_subscription (subscription_id : string)
  : M (option SubscriptionResponse.t) :=
  w <- get_world ;;
  match PyDict.get (_subscriptions w) subscription_id with
  | None => ret None
  | Some subscription =>
      stripe_subscription <-
        stripe_service.cancel_subscription
          (SubscriptionResponse.stripe_subscription_id subscription) ;;
      let subscription :=
        mark_canceled subscription
          (stripe.sub_cancel_at_period_end stripe_subscription) in
      w <- get_world ;;
      put_world (with_subscriptions w
        (PyDict.set (_subscriptions w) subscription_id subscription)) ;;;
      canceled_at <-
        opt_fromtimestamp (stripe.sub_canceled_at stripe_subscription) ;;
      now <- utcnow ;;
      let subscription := stamp_canceled subscription canceled_at now in
      w <- get_world ;;
      put_world (with_subscriptions w
        (PyDict.set (_subscriptions w) subscription_id subscription)) ;;;
      ret (Some subscription)
  end.

End subscription_service.

(* ================================================================== *)
(** ** The HTTP layer: [app/main.py] and the framework around a route *)

(** What a response carries. *)
Inductive Content : Type :=
| PaymentCreated (message : string) (payment : PaymentResponse.t)
                 (client_secret : option string)
| PaymentBody (payment : PaymentResponse.t)
| PaymentList (body : PaymentListResponse.t)
| RefundCreated (message : string) (refund : RefundResponse.t)
| RefundBody (refund : RefundResponse.t)
| RefundList (body : RefundListResponse.t)
| SubscriptionCreated (message : string) (subscription : SubscriptionResponse.t)
| SubscriptionBody (subscription : SubscriptionResponse.t)
| SubscriptionCancelled (message : string) (subscription : SubscriptionResponse.t)
| SubscriptionList (body : SubscriptionListResponse.t)
| Detail (detail : string)
| ErrorBody (error message path : string)
| ValidationErrors.

Record Response : Type := mkResponse {
  status_code : Z;
  content : Content }.

(** A query parameter as it arrives. *)
Inductive QueryParam (A : Type) : Type :=
| q_absent
| q_value (a : A)
| q_malformed.
Arguments q_absent {A}.
Arguments q_value {A} a.
Arguments q_malformed {A}.

(** [Query(default, ge=lo, le=hi)] on an [int]: the accepted value, or
    nothing when the parameter does not parse or breaks a bound. *)
Definition Query_int (default : Z) (ge le : option Z) (q : QueryParam Z)
  : option Z :=
  match q with
  | q_absent => Some default
  | q_malformed => None
  | q_value v =>
      if match ge with Some lo => lo <=? v | None => true end
         && match le with Some hi => v <=? hi | None => true end
      then Some v else None
  end.

Module main.

(** [@app.exception_handler(404)] *)
Definition not_found_handler (path : string) : Response :=
  mkResponse 404
    (ErrorBody "Not Found" "The requested resource was not found" path).

(** [@app.exception_handler(500)] *)
Definition internal_error_handler (path : string) : Response :=
  mkResponse 500
    (ErrorBody "Internal Server Error" "An unexpected error occurred" path).

(** The framework's answer to a request that fails the declared
    constraints: the application registers handlers for 404 and 500 only,
    so the built-in handler of request-validation errors answers. *)
Definition HTTP_422_UNPROCESSABLE_ENTITY : Z := 422.

Definition request_validation_error : Response :=
  mkResponse HTTP_422_UNPROCESSABLE_ENTITY ValidationErrors.

(** How an exception leaving a route becomes a response: an
    [HTTPException] keeps its status (the 404 handler of the application
    rewrites the body), anything else is a server error. *)
Definition response_of_exception (path : string) (e : PyExc) : Response :=
  match e with
  | HTTPException code detail =>
      if code =? 404 then not_found_handler path
      else mkResponse code (Detail detail)
  | _ => internal_error_handler path
  end.

(** The return type a route function declares, which the framework
    takes as the model of the response. *)
Inductive ReturnType : Type :=
| Returns_dict
| Returns_PaymentListResponse
| Returns_SubscriptionListResponse.

(** Validation of the value a route function returned against its
    declared return type: the envelopes the routes build are dicts, a
    model instance passes as its own class and is not a dict. *)
Definition conforms (t : ReturnType) (c : Content) : bool :=
  match t, c with
  | Returns_dict, PaymentCreated _ _ _ => true
  | Returns_dict, RefundCreated _ _ => true
  | Returns_dict, SubscriptionCreated _ _ => true
  | Returns_dict, SubscriptionCancelled _ _ => true
  | Returns_PaymentListResponse, PaymentList _ => true
  | Returns_SubscriptionListResponse, SubscriptionList _ => true
  | _, _ => false
  end.

(** A route function with a declared return type: a returned value that
    fails the validation raises, and no handler of the application
    catches that error. *)
Definition returning (t : ReturnType) (handler : M Content) : M Content :=
  c <- handler ;;
  if conforms t c then ret c else raise ResponseValidationError.

(** Running a route whose parameters passed validation. *)
Definition serve (path : string) (success_code : Z) (handler : M Content)
    (env : Env) (w : World) : Response * World :=
  match handler env w with
  | (inr c, w') => (mkResponse success_code c, w')
  | (inl e, w') => (response_of_exception path e, w')
  end.

(** Running a route from its raw parameters: [None] stands for
    parameters that failed validation, and the route body is not run. *)
Definition dispatch (path : string) (success_code : Z)
    (handler : option (M Content)) (env : Env) (w : World)
  : Response * World :=
  match handler with
  | Some h => serve path success_code h env w
  | None => (request_validation_error, w)
  end.

End main.

(** Reading a module-level name that the module may not bind. *)
Definition load_global (globals : list string) (name : string) : M unit :=
  if existsb (String.eqb name) globals then ret tt else raise (NameError name).

Definition Query_bool (default : bool) (q : QueryParam bool) : option bool :=
  match q with
  | q_absent => Some default
  | q_value b => Some b
  | q_malformed => None
  end.

(* ================================================================== *)
(** ** [app/api/payments.py] *)

Module api_payments.

(** The constraints of [PaymentCreateRequest]; a body of another shape
    arrives as [None]. *)
Definition validate_body (body : option PaymentCreateRequest.t)
  : option PaymentCreateRequest.t :=
  match body with
  | Some r => if Decimal.gt0 (PaymentCreateRequest.amount r) then Some r else None
  | None => None
  end.

Definition create_payment (request : PaymentCreateRequest.t)
    (test_mode : bool) : M Content :=
  try_except
    (payment <- payment_service.create_payment request test_mode ;;
     ret (PaymentCreated SuccessMessages.PAYMENT_CREATED payment
            (PaymentResponse.stripe_payment_intent_id payment)))
    (fun e => raise (HTTPException 500
       (ErrorMessages.FAILED_TO_CREATE_PAYMENT ++ ": " ++ exc_str e))).

Definition get_payment (payment_id : string) : M Content :=
  payment <- payment_service.get_payment payment_id ;;
  match payment with
  | None => raise (HTTPException 404 ErrorMessages.PAYMENT_NOT_FOUND)
  | Some p => ret (PaymentBody p)
  end.

Definition list_payments (customer_id : option string) (page per_page : Z)
  : M Content :=
  try_except
    (payments <- payment_service.get_payments customer_id page per_page ;;
     w <- get_world ;;
     let total := PyDict.len (_payments w) in
     ret (PaymentList (PaymentListResponse.mk payments total page per_page)))
    (fun e => raise (HTTPException 500
       (ErrorMessages.FAILED_TO_LIST_PAYMENTS ++ ": " ++ exc_str e))).

(** [POST /payments/create] *)
Definition POST_create (body : option PaymentCreateRequest.t)
    (test_mode : QueryParam bool) : Env -> World -> Response * World :=
  main.dispatch "/api/v1/payments/create" 201
    match validate_body body, Query_bool false test_mode with
    | Some request, Some tm =>
        Some (main.returning main.Returns_dict (create_payment request tm))
    | _, _ => None
    end.

(** [GET /payments/{payment_id}]: the function is declared [-> dict] and
    returns the stored model. *)
Definition GET_payment (payment_id : string)
  : Env -> World -> Response * World :=
  main.dispatch ("/api/v1/payments/" ++ payment_id) 200
    (Some (main.returning main.Returns_dict (get_payment payment_id))).

(** [GET /payments/] *)
Definition GET_list (customer_id : option string) (page per_page : QueryParam Z)
  : Env -> World -> Response * World :=
  main.dispatch "/api/v1/payments/" 200
    match Query_int 1 (Some 1) None page,
          Query_int DEFAULT_PAGE_SIZE (Some 1) (Some MAX_PAGE_SIZE) per_page with
    | Some p, Some pp =>
        Some (main.returning main.Returns_PaymentListResponse
                (list_payments customer_id p pp))
    | _, _ => None
    end.

End api_payments.

(* ================================================================== *)
(** ** [app/api/refunds.py] *)

Module api_refunds.

Definition validate_body (body : option RefundCreateRequest.t)
  : option RefundCreateRequest.t :=
  match body with
  | Some r =>
      match RefundCreateRequest.amount r with
      | Some a => if Decimal.gt0 a then Some r else None
      | None => Some r
      end
  | None => None
  end.

Definition create_refund (request : RefundCreateRequest.t) : M Content :=
  try_except
    (refund <- refund_service.create_refund
                 (RefundCreateRequest.payment_intent_id request)
                 (RefundCreateRequest.amount request)
                 (RefundCreateRequest.reason request) ;;
     ret (RefundCreated SuccessMessages.REFUND_CREATED refund))
    (fun e => raise (HTTPException 500
       (ErrorMessages.FAILED_TO_CREATE_REFUND ++ ": " ++ exc_str e))).

Definition get_refund (refund_id : string) : M Content :=
  try_except
    (refund <- refund_service.get_refund refund_id ;;
     match refund with
     | None => raise (HTTPException 404 "Refund not found")
     | Some r => ret (RefundBody r)
     end)
    (fun e =>
       match e with
       | HTTPException _ _ => raise e
       | _ => raise (HTTPException 404 ("Refund not found: " ++ exc_str e))
       end).

Definition list_refunds (payment_intent_id : option string) (limit : Z)
  : M Content :=
  try_except
    (refunds <- refund_service.list_refunds payment_intent_id limit ;;
     ret (RefundList (RefundListResponse.mk refunds
            (Z.of_nat (List.length refunds)) false)))
    (fun e => raise (HTTPException 500
       ("Failed to list refunds: " ++ exc_str e))).

(** [POST /refunds/create] *)
Definition POST_create (body : option RefundCreateRequest.t)
  : Env -> World -> Response * World :=
  main.dispatch "/api/v1/refunds/create" 201
    (option_map (fun request =>
                   main.returning main.Returns_dict (create_refund request))
                (validate_body body)).

(** [GET /refunds/{refund_id}]; no return type is declared. *)
Definition GET_refund (refund_id : string)
  : Env -> World -> Response * World :=
  main.dispatch ("/api/v1/refunds/" ++ refund_id) 200
    (Some (get_refund refund_id)).

(** [GET /refunds/]: [limit] has an upper bound only. *)
Definition GET_list (payment_intent_id : option string) (limit : QueryParam Z)
  : Env -> World -> Response * World :=
  main.dispatch "/api/v1/refunds/" 200
    (option_map (list_refunds payment_intent_id)
       (Query_int DEFAULT_PAGE_SIZE None (Some 100) limit)).

End api_refunds.

(* ================================================================== *)
(** ** [app/api/subscriptions.py] *)

Module api_subscriptions.

(** The names the module binds at its top level: its imports, [router]
    and the four route functions. *)
Definition module_globals : list string :=
  [ "Optional"; "APIRouter"; "Depends"; "HTTPException"; "Query"; "status";
    "SubscriptionCreateRequest"; "SubscriptionListResponse";
    "get_subscription_service"; "SubscriptionService";
    "ErrorMessages"; "SuccessMessages"; "DEFAULT_PAGE_SIZE"; "MAX_PAGE_SIZE";
    "router"; "create_subscription"; "get_subscription";
    "cancel_subscription"; "list_subscriptions" ].

Definition validate_body (body : option SubscriptionCreateRequest.t)
  : option SubscriptionCreateRequest.t :=
  match body with
  | Some r =>
      if (0 <? SubscriptionCreateRequest.quantity r)
         && match SubscriptionCreateRequest.trial_period_days r with
            | Some d => 0 <=? d
            | None => true
            end
      then Some r else None
  | None => None
  end.

(** The service arrives as the parameter [subscription_service]. *)
Definition create_subscription (request : SubscriptionCreateRequest.t)
  : M Content :=
  try_except
    (subscription <- subscription_service.create_subscription request ;;
     ret (SubscriptionCreated SuccessMessages.SUBSCRIPTION_CREATED subscription))
    (fun e => raise (HTTPException 500
       (ErrorMessages.FAILED_TO_CREATE_SUBSCRIPTION ++ ": " ++ exc_str e))).

(** No parameter and no local is named [subscription_service]: the body
    reads the module-level name. *)
Definition get_subscription (subscription_id : string) : M Content :=
  load_global module_globals "subscription_service" ;;;
  subscription <- subscription_service.get_subscription subscription_id ;;
  match subscription with
  | None => raise (HTTPException 404 "Subscription not found")
  | Some s => ret (SubscriptionBody s)
  end.

(** As in [get_subscription], the service is read from the module. *)
Definition cancel_subscription (subscription_id : string) : M Content :=
  try_except
    (load_global module_globals "subscription_service" ;;;
     subscription <- subscription_service.cancel_subscription subscription_id ;;
     match subscription with
     | None => raise (HTTPException 404 "Subscription not found")
     | Some s => ret (SubscriptionCancelled
                        "Subscription cancelled successfully" s)
     end)
    (fun e =>
       match e with
       | HTTPException _ _ => raise e
       | _ => raise (HTTPException 500
                ("Failed to cancel subscription: " ++ exc_str e))
       end).

Definition list_subscriptions (customer_id : option string) (page per_page : Z)
  : M Content :=
  try_except
    (subscriptions <-
       subscription_service.get_subscriptions customer_id page per_page ;;
     w <- get_world ;;
     let total := PyDict.len (_subscriptions w) in
     ret (SubscriptionList
            (SubscriptionListResponse.mk subscriptions total page per_page)))
    (fun e => raise (HTTPException 500
       (ErrorMessages.FAILED_TO_LIST_SUBSCRIPTIONS ++ ": " ++ exc_str e))).

(** [POST /subscriptions/create] *)
Definition POST_create (body : option SubscriptionCreateRequest.t)
  : Env -> World -> Response * World :=
  main.dispatch "/api/v1/subscriptions/create" 201
    (option_map (fun request =>
                   main.returning main.Returns_dict
                     (create_subscription request))
                (validate_body body)).

(** [GET /subscriptions/{subscription_id}] *)
Definition GET_subscription (subscription_id : string)
  : Env -> World -> Response * World :=
  main.dispatch ("/api/v1/subscriptions/" ++ subscription_id) 200
    (Some (get_subscription subscription_id)).

(** [POST /subscriptions/{subscription_id}/cancel] *)
Definition POST_cancel (subscription_id : string)
  : Env -> World -> Response * World :=
  main.dispatch ("/api/v1/subscriptions/" ++ subscription_id ++ "/cancel") 200
    (Some (cancel_subscription subscription_id)).

(** [GET /subscriptions/] *)
Definition GET_list (customer_id : option string) (page per_page : QueryParam Z)
  : Env -> World -> Response * World :=
  main.dispatch "/api/v1/subscriptions/" 200
    match Query_int 1 (Some 1) None page,
          Query_int DEFAULT_PAGE_SIZE (Some 1) (Some MAX_PAGE_SIZE) per_page with
    | Some p, Some pp =>
        Some (main.returning main.Returns_SubscriptionListResponse
                (list_subscriptions customer_id p pp))
    | _, _ => None
    end.

End api_subscriptions.

(* ================================================================== *)
(** ** The running application

    The requests the routers above answer, and the states the process
    can be in: it starts with empty stores and moves only by answering
    requests. *)

Inductive Request : Type :=
| POST_payments_create (body : option PaymentCreateRequest.t)
                       (test_mode : QueryParam bool)
| GET_payments_id (payment_id : string)
| GET_payments (customer_id : option string) (page per_page : QueryParam Z)
| POST_refunds_create (body : option RefundCreateRequest.t)
| GET_refunds_id (refund_id : string)
| GET_refunds (payment_intent_id : option string) (limit : QueryParam Z)
| POST_subscriptions_create (body : option SubscriptionCreateRequest.t)
| GET_subscriptions_id (subscription_id : string)
| POST_subscriptions_cancel (subscription_id : string)
| GET_subscriptions (customer_id : option string) (page per_page : QueryParam Z).

Definition app (r : Request) : Env -> World -> Response * World :=
  match r with
  | POST_payments_create body tm => api_payments.POST_create body tm
  | GET_payments_id i => api_payments.GET_payment i
  | GET_payments c p pp => api_payments.GET_list c p pp
  | POST_refunds_create body => api_refunds.POST_create body
  | GET_refunds_id i => api_refunds.GET_refund i
  | GET_refunds p l => api_refunds.GET_list p l
  | POST_subscriptions_create body => api_subscriptions.POST_create body
  | GET_subscriptions_id i => api_subscriptions.GET_subscription i
  | POST_subscriptions_cancel i => api_subscriptions.POST_cancel i
  | GET_subscriptions c p pp => api_subscriptions.GET_list c p pp
  end.

Inductive reachable (env : Env) : World -> Prop :=
| reachable_initial : reachable env initial_world
| reachable_request w r :
    reachable env w -> reachable env (snd (app r env w)).

(** [uuid.uuid4()] never returns the same value twice. *)
Definition uuid4_unique (env : Env) : Prop :=
  forall m n : nat, uuid_of env m = uuid_of env n -> m = n.

(** Every payment id in the store is a value [uuid4] already returned. *)
Definition payment_ids_drawn (env : Env) (w : World) : Prop :=
  forall k, In k (PyDict.keys (_payments w)) ->
            exists n, (n < uuids_drawn w)%nat /\ k = uuid_of env n.

(** The record [create_payment] builds from the request, the provider's
    answer and the values of the two generators. *)
Definition new_payment (env : Env) (w : World) (req : PaymentCreateRequest.t)
    (pi : stripe.PaymentIntent) : PaymentResponse.t :=
  PaymentResponse.mk (uuid_of env (uuids_drawn w))
    (PaymentCreateRequest.amount req) (PaymentCreateRequest.currency req)
    PENDING (PaymentCreateRequest.description req)
    (time_of env (clock_reads w)) (time_of env (clock_reads w))
    (Some (stripe.pi_id pi))
    (PaymentCreateRequest.customer_id req) (PaymentCreateRequest.metadata req).

(** The keyword argument [name] of a call to the provider, if sent. *)
Definition kwarg (c : stripe.Call) (name : string) : option PyVal :=
  PyDict.get (stripe.kwargs_of c) name.

(** What "the records matching the customer filter" means for an
    optional filter: every record when there is none, the records of
    that customer otherwise. *)
Definition matches_customer (customer_id : option string)
    (p : PaymentResponse.t) : bool :=
  match customer_id with
  | None => true
  | Some c => opt_str_eqb (PaymentResponse.customer_id p) (Some c)
  end.

Definition has_more_field (r : Response) : option bool :=
  match content r with
  | RefundList b => Some (RefundListResponse.has_more b)
  | _ => None
  end.

(** A request that fails a declared constraint, read off the request
    models and the [Query] declarations of the routes: a body of the
    wrong shape; [amount] with [gt=0] in a payment and, when given, in a
    refund; [quantity] with [gt=0] and [trial_period_days] with [ge=0]
    in a subscription; a query value that does not parse as the declared
    type; [page] with [ge=1] and [per_page] with [ge=1, le=100] on the
    two paginated lists; [limit] with [le=100] on the refund list.  The
    routes that take only an id declare no constraint. *)
Inductive fails_validation : Request -> Prop :=
| fv_payment_body test_mode :
    fails_validation (POST_payments_create None test_mode)
| fv_payment_amount r test_mode :
    Decimal.coeff (PaymentCreateRequest.amount r) <= 0 ->
    fails_validation (POST_payments_create (Some r) test_mode)
| fv_payment_test_mode body :
    fails_validation (POST_payments_create body q_malformed)
| fv_payments_page_type customer_id per_page :
    fails_validation (GET_payments customer_id q_malformed per_page)
| fv_payments_page customer_id page per_page :
    page < 1 ->
    fails_validation (GET_payments customer_id (q_value page) per_page)
| fv_payments_per_page_type customer_id page :
    fails_validation (GET_payments customer_id page q_malformed)
| fv_payments_per_page customer_id page per_page :
    per_page < 1 \/ 100 < per_page ->
    fails_validation (GET_payments customer_id page (q_value per_page))
| fv_refund_body :
    fails_validation (POST_refunds_create None)
| fv_refund_amount r a :
    RefundCreateRequest.amount r = Some a -> Decimal.coeff a <= 0 ->
    fails_validation (POST_refunds_create (Some r))
| fv_refunds_limit_type payment_intent_id :
    fails_validation (GET_refunds payment_intent_id q_malformed)
| fv_refunds_limit payment_intent_id limit :
    100 < limit ->
    fails_validation (GET_refunds payment_intent_id (q_value limit))
| fv_subscription_body :
    fails_validation (POST_subscriptions_create None)
| fv_subscription_quantity r :
    SubscriptionCreateRequest.quantity r <= 0 ->
    fails_validation (POST_subscriptions_create (Some r))
| fv_subscription_trial r d :
    SubscriptionCreateRequest.trial_period_days r = Some d -> d < 0 ->
    fails_validation (POST_subscriptions_create (Some r))
| fv_subscriptions_page_type customer_id per_page :
    fails_validation (GET_subscriptions customer_id q_malformed per_page)
| fv_subscriptions_page customer_id page per_page :
    page < 1 ->
    fails_validation (GET_subscriptions customer_id (q_value page) per_page)
| fv_subscriptions_per_page_type customer_id page :
    fails_validation (GET_subscriptions customer_id page q_malformed)
| fv_subscriptions_per_page customer_id page per_page :
    per_page < 1 \/ 100 < per_page ->
    fails_validation (GET_subscriptions customer_id page (q_value per_page)).

(* ================================================================== *)
(** ** Sample environments and states *)

Module examples.

Fixpoint tally (n : nat) : string :=
  match n with
  | O => ""
  | S n' => String "1"%char (tally n')
  end.

Definition uuid_sample (n : nat) : string := "uuid-" ++ tally n.

Definition intent : stripe.PaymentIntent :=
  stripe.mkPaymentIntent "pi_3Nabc" (Some "pi_3Nabc_secret_xyz")
                         "requires_payment_method".

Definition refund (kwargs : PyDict.t PyVal) : stripe.Refund :=
  stripe.mkRefund "re_1" "pi_3Nabc" 2000 "usd" "succeeded" 1700000000.

(** A provider that reports every new subscription as [incomplete]. *)
Definition subscription : stripe.Subscription :=
  stripe.mkSubscription "sub_1" "incomplete" 1700000000 1702592000
                        None None false None.

(** A provider that accepts every call. *)
Definition env : Env :=
  mkEnv uuid_sample (fun n => 1700000000000000 + Z.of_nat n)
        (fun seconds => inr (seconds * 1000000))
        (fun _ _ => inr intent)
        (fun _ k => inr (refund k))
        (fun _ _ => inr subscription)
        (fun _ _ _ => inr subscription).

(** 10.019 and 20.00 *)
Definition amount_10_019 : Decimal.t := Decimal.mk 10019 (-3).
Definition amount_20_00 : Decimal.t := Decimal.mk 2000 (-2).

Definition payment_request (a : Decimal.t) (customer : option string)
  : PaymentCreateRequest.t :=
  PaymentCreateRequest.mk a "usd" (Some "order") customer None.

Definition payment (i : string) (customer : option string) (created : Z)
  : PaymentResponse.t :=
  PaymentResponse.mk i amount_20_00 "usd" PENDING None created created
                     (Some "pi_3Nabc") customer None.

Definition refund_record (i pi : string) (created : Z) : RefundResponse.t :=
  RefundResponse.mk i pi amount_20_00 "usd" "succeeded" None created.

Definition subscription_record (i customer : string) (created : Z)
  : SubscriptionResponse.t :=
  SubscriptionResponse.mk i customer ACTIVE 0 0 None None false None
                          (Some "sub_1") None created created.

(** Two payments of two customers. *)
Definition two_payments : World :=
  with_payments initial_world
    [ ("p1", payment "p1" (Some "cus_A") 1);
      ("p2", payment "p2" (Some "cus_B") 2) ].

(** Five payments, stored in an order that is not their creation order. *)
Definition five_payments : World :=
  with_payments initial_world
    [ ("a", payment "a" (Some "cus_A") 30);
      ("b", payment "b" (Some "cus_B") 10);
      ("c", payment "c" (Some "cus_A") 50);
      ("d", payment "d" None 20);
      ("e", payment "e" (Some "cus_A") 40) ].

Definition two_subscriptions : World :=
  with_subscriptions initial_world
    [ ("s1", subscription_record "s1" "cus_A" 1);
      ("s2", subscription_record "s2" "cus_B" 2) ].

(** Three refunds of one payment intent. *)
Definition three_refunds : World :=
  with_refunds initial_world
    [ ("re_1", refund_record "re_1" "pi_3Nabc" 1);
      ("re_2", refund_record "re_2" "pi_3Nabc" 2);
      ("re_3", refund_record "re_3" "pi_3Nabc" 3) ].

Definition subscription_request (trial : option Z)
  : SubscriptionCreateRequest.t :=
  SubscriptionCreateRequest.mk "cus_A" "price_1" 1 trial None.

(** A provider that refuses every call. *)
Definition failing_env : Env :=
  mkEnv uuid_sample (fun n => 1700000000000000 + Z.of_nat n)
        (fun seconds => inr (seconds * 1000000))
        (fun _ _ => inl (StripeError "card_declined"))
        (fun _ _ => inl (StripeError "charge_already_refunded"))
        (fun _ _ => inl (StripeError "resource_missing"))
        (fun _ _ _ => inl (StripeError "resource_missing")).

(** A provider that accepts every call and answers with a cancellation
    time past the year 9999, which [datetime.fromtimestamp] refuses. *)
Definition late_subscription : stripe.Subscription :=
  stripe.mkSubscription "sub_1" "active" 1700000000 1702592000
                        None None true (Some 99999999999999).

Definition bounded_env : Env :=
  mkEnv uuid_sample (fun n => 1700000000000000 + Z.of_nat n)
        (fun seconds =>
           if (0 <=? seconds) && (seconds <=? 253402300799)
           then inr (seconds * 1000000)
           else inl "year 3170843 is out of range")
        (fun _ _ => inr intent)
        (fun _ k => inr (refund k))
        (fun _ _ => inr late_subscription)
        (fun _ _ _ => inr late_subscription).

(** 0.005: positive, and less than one minor unit. *)
Definition amount_0_005 : Decimal.t := Decimal.mk 5 (-3).

(** A provider event about the payment intent [i]. *)
Definition event (type i : string) : PyDict.t PyVal :=
  [ ("id", VStr "evt_1");
    ("type", VStr type);
    ("data", VDict [ ("object", VDict [ ("id", VStr i);
                                        ("object", VStr "payment_intent") ]) ]) ].

(** Two payments that carry the same payment intent, and a third. *)
Definition payment_of_intent (i pi : string) (created : Z)
  : PaymentResponse.t :=
  PaymentResponse.mk i amount_20_00 "usd" PENDING None created created
                     (Some pi) None None.

Definition three_intents : World :=
  with_payments initial_world
    [ ("p1", payment_of_intent "p1" "pi_A" 1);
      ("p2", payment_of_intent "p2" "pi_B" 2);
      ("p3", payment_of_intent "p3" "pi_B" 3) ].

End examples.

(* ================================================================== *)
(** ** [app/services/subscription_service.py], continued *)

Module subscription_status.

Definition set_status (s : SubscriptionResponse.t) (st : SubscriptionStatus)
    (now : datetime) : SubscriptionResponse.t :=
  SubscriptionResponse.mk
    (SubscriptionResponse.id s) (SubscriptionResponse.customer_id s) st
    (SubscriptionResponse.current_period_start s)
    (SubscriptionResponse.current_period_end s)
    (SubscriptionResponse.trial_start s) (SubscriptionResponse.trial_end s)
    (SubscriptionResponse.cancel_at_period_end s)
    (SubscriptionResponse.canceled_at s)
    (SubscriptionResponse.stripe_subscription_id s)
    (SubscriptionResponse.metadata s)
    (SubscriptionResponse.created_at s) now.

Definition update_subscription_status (subscription_id : string)
    (status : SubscriptionStatus) : M (option SubscriptionResponse.t) :=
  w <- get_world ;;
  match PyDict.get (_subscriptions w) subscription_id with
  | Some subscription =>
      now <- utcnow ;;
      let subscription := set_status subscription status now in
      w <- get_world ;;
      put_world (with_subscriptions w
        (PyDict.set (_subscriptions w) subscription_id subscription)) ;;;
      ret (Some subscription)
  | None => ret None
  end.

End subscription_status.

(* ================================================================== *)
(** ** [app/services/payment_service.py], the webhook methods

    An event is the parsed JSON document.  Reading a missing key or
    indexing something that is not a dict raises, and these methods catch
    nothing. *)

Module payment_webhook.

Inductive Exc : Type :=
| KeyError (key : string)
| TypeError
| Raised (e : PyExc).

Definition W (A : Type) : Type := Env -> World -> (Exc + A) * World.

(** [v[key]] for a string key *)
Definition subscript (v : PyVal) (key : string) : Exc + PyVal :=
  match v with
  | VDict items =>
      match PyDict.get items key with
      | Some x => inr x
      | None => inl (KeyError key)
      end
  | _ => inl TypeError
  end.

(** [event_type == s] where [event_type] came from [dict.get] *)
Definition val_is (v : option PyVal) (s : string) : bool :=
  match v with
  | Some (VStr x) => String.eqb x s
  | _ => false
  end.

(** [payment.stripe_payment_intent_id == v] *)
Definition intent_id_eqb (a : option string) (v : PyVal) : bool :=
  match a, v with
  | Some x, VStr y => String.eqb x y
  | None, VNone => true
  | _, _ => false
  end.

(** Calling a service method from a webhook method. *)
Definition call {A} (m : M A) : W A :=
  fun env w =>
    match m env w with
    | (inr a, w') => (inr a, w')
    | (inl e, w') => (inl (Raised e), w')
    end.

Definition _handle_payment_succeeded (payment_intent : PyVal) : W unit :=
  fun env w =>
    match subscript payment_intent "id" with
    | inl e => (inl e, w)
    | inr stripe_payment_intent_id =>
        match find (fun payment =>
                      intent_id_eqb
                        (PaymentResponse.stripe_payment_intent_id payment)
                        stripe_payment_intent_id)
                   (PyDict.values (_payments w)) with
        | Some payment =>
            match call (payment_service.update_payment_status
                          (PaymentResponse.id payment) SUCCEEDED) env w with
            | (inr _, w') => (inr tt, w')
            | (inl e, w') => (inl e, w')
            end
        | None => (inr tt, w)
        end
    end.

Definition _handle_payment_failed (payment_intent : PyVal) : W unit :=
  fun env w =>
    match subscript payment_intent "id" with
    | inl e => (inl e, w)
    | inr stripe_payment_intent_id =>
        match find (fun payment =>
                      intent_id_eqb
                        (PaymentResponse.stripe_payment_intent_id payment)
                        stripe_payment_intent_id)
                   (PyDict.values (_payments w)) with
        | Some payment =>
            match call (payment_service.update_payment_status
                          (PaymentResponse.id payment) FAILED) env w with
            | (inr _, w') => (inr tt, w')
            | (inl e, w') => (inl e, w')
            end
        | None => (inr tt, w)
        end
    end.

Definition process_webhook (event_data : PyDict.t PyVal) : W unit :=
  fun env w =>
    let event_type := PyDict.get event_data "type" in
    if val_is event_type "payment_intent.succeeded" then
      match subscript (VDict event_data) "data" with
      | inl e => (inl e, w)
      | inr data =>
          match subscript data "object" with
          | inl e => (inl e, w)
          | inr object => _handle_payment_succeeded object env w
          end
      end
    else if val_is event_type "payment_intent.payment_failed" then
      match subscript (VDict event_data) "data" with
      | inl e => (inl e, w)
      | inr data =>
          match subscript data "object" with
          | inl e => (inl e, w)
          | inr object => _handle_payment_failed object env w
          end
      end
    else (inr tt, w).

End payment_webhook.

(* ================================================================== *)
(** ** [GET /payments/{payment_id}/status]

    The status is retrieved from the provider.  A retrieval creates and
    changes nothing there; its answer is the parameter [retrieve], and it
    is not entered in [stripe_calls]. *)

Module payment_status.

(** [StripeService.get_payment_intent_status] *)
Definition get_payment_intent_status
    (retrieve : option string -> PyExc + stripe.PaymentIntent)
    (payment_intent_id : option string) : M string :=
  fun _ w =>
    match retrieve payment_intent_id with
    | inr payment_intent => (inr (stripe.pi_status payment_intent), w)
    | inl e => (inl e, w)
    end.

(** The route body of [app/api/payments.py]; it returns the dict
    [{"payment_id": ..., "status": ...}]. *)
Definition get_payment_status
    (retrieve : option string -> PyExc + stripe.PaymentIntent)
    (payment_id : string) : M (PyDict.t PyVal) :=
  try_except
    (payment <- payment_service.get_payment payment_id ;;
     match payment with
     | None => raise (HTTPException 404 ErrorMessages.PAYMENT_NOT_FOUND)
     | Some payment =>
         if negb (truthy_str (PaymentResponse.stripe_payment_intent_id payment))
         then raise (HTTPException 400 ErrorMessages.INVALID_PAYMENT_INTENT)
         else
           stripe_status <-
             get_payment_intent_status retrieve
               (PaymentResponse.stripe_payment_intent_id payment) ;;
           ret [ ("payment_id", VStr payment_id);
                 ("status", VStr stripe_status) ]
     end)
    (fun e =>
       match e with
       | HTTPException _ _ => raise e
       | _ => raise (HTTPException 500
                (ErrorMessages.FAILED_TO_GET_PAYMENT_STATUS ++ ": "
                 ++ exc_str e))
       end).

End payment_status.

(* ================================================================== *)
(** ** [app/api/auth.py]: the OAuth callback *)

Module api_auth.

(** [params] is [dict(request.query_params)]. *)
Definition oauth_callback (params : PyDict.t string) : M (PyDict.t PyVal) :=
  try_except
    (if opt_str_eqb (PyDict.get params "refresh") (Some "true") then
       ret [ ("message", VStr "OAuth refresh completed");
             ("status", VStr "success") ]
     else if PyDict.contains params "code" then
       ret [ ("message", VStr "OAuth completed successfully");
             ("status", VStr "success");
             ("account_id", stripe_service.opt_str (PyDict.get params "code")) ]
     else if PyDict.contains params "error" then
       ret [ ("message", VStr "OAuth failed");
             ("status", VStr "error");
             ("error", stripe_service.opt_str (PyDict.get params "error"));
             ("error_description",
              stripe_service.opt_str (PyDict.get params "error_description")) ]
     else
       ret [ ("message", VStr "OAuth callback received");
             ("status", VStr "unknown") ])
    (fun e => raise (HTTPException 500
       ("Failed to handle OAuth callback: " ++ exc_str e))).

End api_auth.

(* ================================================================== *)
(** ** Notions used to state the properties of the stores *)

(** Every key of the store is the id of the record it holds, and no key
    occurs twice. *)
Definition keyed_by {V : Type} (ident : V -> string) (d : PyDict.t V) : Prop :=
  NoDup (PyDict.keys d) /\ forall k v, In (k, v) d -> ident v = k.

(** The list a listing returned. *)
Definition returned {A : Type} (r : PyExc + list A) : list A :=
  match r with
  | inr l => l
  | inl _ => []
  end.

(** The records a subscription or refund filter selects. *)
Definition matches_subscription_customer (customer_id : option string)
    (s : SubscriptionResponse.t) : bool :=
  match customer_id with
  | None => true
  | Some c => String.eqb (SubscriptionResponse.customer_id s) c
  end.

Definition matches_payment_intent (payment_intent_id : option string)
    (r : RefundResponse.t) : bool :=
  match payment_intent_id with
  | None => true
  | Some i => String.eqb (RefundResponse.payment_intent_id r) i
  end.

(** One request leaves a store as it is or assigns one record under its
    own id. *)
Definition store_step {V : Type} (ident : V -> string) (d d' : PyDict.t V)
  : Prop :=
  d' = d \/ exists v, d' = PyDict.set d (ident v) v.

Definition with_quantity (r : SubscriptionCreateRequest.t) (q : Z)
  : SubscriptionCreateRequest.t :=
  SubscriptionCreateRequest.mk
    (SubscriptionCreateRequest.customer_id r)
    (SubscriptionCreateRequest.price_id r) q
    (SubscriptionCreateRequest.trial_period_days r)
    (SubscriptionCreateRequest.metadata r).

(* ================================================================== *)
(** * Properties *)

(** Unfolding of the plumbing around a route body. *)
Ltac run_route :=
  unfold main.dispatch, main.serve, main.returning, try_except, bind, ret, raise,
    get_world, put_world, uuid4, utcnow, load_global, stripe_service.send;
  simpl.


(** ** Dictionaries *)

Section PyDictFacts.
Context {V : Type}.
Implicit Types (d : PyDict.t V) (k : string) (v : V).

Lemma get_set_same d k v : PyDict.get (PyDict.set d k v) k = Some v.
Proof.
  induction d as [|[k' v'] d IH]; simpl.
  - now rewrite String.eqb_refl.
  - destruct (String.eqb k k') eqn:E; simpl; rewrite E; auto.
Qed.

Lemma get_set_other d k k' v :
  k <> k' -> PyDict.get (PyDict.set d k v) k' = PyDict.get d k'.
Proof.
  intros Hne. induction d as [|[k0 v0] d IH]; simpl.
  - destruct (String.eqb k' k) eqn:E; auto.
    apply String.eqb_eq in E. congruence.
  - destruct (String.eqb k k0) eqn:E; simpl.
    + apply String.eqb_eq in E. subst k0.
      destruct (String.eqb k' k) eqn:E'; auto.
      apply String.eqb_eq in E'. congruence.
    + now rewrite IH.
Qed.

Lemma get_None_not_key d k :
  PyDict.get d k = None <-> ~ In k (PyDict.keys d).
Proof.
  induction d as [|[k' v'] d IH]; simpl.
  - intuition.
  - destruct (String.eqb k k') eqn:E.
    + apply String.eqb_eq in E. subst. split; [discriminate | tauto].
    + apply String.eqb_neq in E. rewrite IH. intuition congruence.
Qed.

Lemma keys_set d k v k' :
  In k' (PyDict.keys (PyDict.set d k v)) <-> k' = k \/ In k' (PyDict.keys d).
Proof.
  induction d as [|[k0 v0] d IH]; simpl.
  - intuition.
  - destruct (String.eqb k k0) eqn:E; simpl.
    + apply String.eqb_eq in E. subst. intuition.
    + rewrite IH. intuition.
Qed.

Lemma len_values d : Z.of_nat (List.length (PyDict.values d)) = PyDict.len d.
Proof. unfold PyDict.values, PyDict.len. now rewrite length_map. Qed.
End PyDictFacts.

(** ** Sorting and slicing *)

Section SortFacts.
Context {A : Type} (key : A -> Z).

Lemma insert_desc_perm x l : Permutation (insert_desc key x l) (x :: l).
Proof.
  induction l as [|y l IH]; simpl; auto.
  destruct (key y <? key x); auto.
  rewrite IH. apply perm_swap.
Qed.

Lemma fold_insert_perm l acc :
  Permutation (fold_left (fun acc x => insert_desc key x acc) l acc)
              (acc ++ l).
Proof.
  revert acc. induction l as [|x l IH]; intro acc; simpl.
  - now rewrite app_nil_r.
  - rewrite IH, insert_desc_perm. apply Permutation_middle.
Qed.

Lemma sort_desc_perm l : Permutation (sort_desc key l) l.
Proof. unfold sort_desc. now rewrite fold_insert_perm. Qed.

Lemma insert_desc_sorted x l :
  StronglySorted (desc key) l -> StronglySorted (desc key) (insert_desc key x l).
Proof.
  induction 1 as [|y l Hs IH Hy]; simpl.
  - repeat constructor.
  - destruct (key y <? key x) eqn:E.
    + apply Z.ltb_lt in E. constructor; [now constructor|].
      constructor; [unfold desc; lia|].
      eapply Forall_impl; [|exact Hy]. unfold desc. intros; lia.
    + apply Z.ltb_ge in E. constructor; [exact IH|].
      eapply Permutation_Forall.
      * symmetry. apply insert_desc_perm.
      * constructor; [exact E | exact Hy].
Qed.

Lemma fold_insert_sorted l acc :
  StronglySorted (desc key) acc ->
  StronglySorted (desc key) (fold_left (fun acc x => insert_desc key x acc) l acc).
Proof.
  revert acc. induction l as [|x l IH]; intros acc H; simpl; auto.
  apply IH, insert_desc_sorted, H.
Qed.

Lemma sort_desc_sorted l : StronglySorted (desc key) (sort_desc key l).
Proof. apply fold_insert_sorted. constructor. Qed.
End SortFacts.

Lemma firstn_min_length {A} (n : nat) (l : list A) :
  firstn (Nat.min n (List.length l)) l = firstn n l.
Proof.
  destruct (Nat.le_ge_cases n (List.length l)) as [H|H].
  - now rewrite Nat.min_l.
  - rewrite Nat.min_r by assumption.
    now rewrite firstn_all, firstn_all2.
Qed.

(** A slice that starts at a natural offset and has a natural length is
    "skip the offset, then take the length". *)
Lemma py_slice_offset {A} (l : list A) (start n : Z) :
  0 <= start -> 0 <= n ->
  py_slice l start (start + n) =
  firstn (Z.to_nat n) (skipn (Z.to_nat start) l).
Proof.
  intros Hs Hn. unfold py_slice, slice_index.
  set (len := Z.of_nat (List.length l)).
  assert (Hlen : 0 <= len) by (unfold len; lia).
  destruct (start <? 0) eqn:E1; [apply Z.ltb_lt in E1; lia|].
  destruct (start + n <? 0) eqn:E2; [apply Z.ltb_lt in E2; lia|].
  destruct (Z.min start len <? Z.min (start + n) len) eqn:E3.
  - apply Z.ltb_lt in E3.
    assert (Hlt : start < len) by lia.
    rewrite (Z.min_l start len) by lia.
    rewrite <- (firstn_min_length (Z.to_nat n)).
    f_equal. rewrite length_skipn. unfold len in *. lia.
  - apply Z.ltb_ge in E3.
    destruct (Z.le_gt_cases len start) as [H|H].
    + rewrite skipn_all2 by (unfold len in H; lia). now rewrite firstn_nil.
    + assert (n = 0) by lia. subst n. reflexivity.
Qed.

(** ** Decimal amounts *)

Lemma pow10_pos (k : Z) : 0 < 10 ^ k \/ (k < 0 /\ 10 ^ k = 0).
Proof.
  destruct (Z.le_gt_cases 0 k) as [H|H].
  - left. apply Z.pow_pos_nonneg; lia.
  - right. split; [lia|]. now apply Z.pow_neg_r.
Qed.

(** Within the precision of the context, [d * 100] is exact. *)
Lemma mul_int_exact (d : Decimal.t) (n : Z) :
  Z.abs (Decimal.coeff d * n) < 10 ^ Decimal.prec ->
  Decimal.mul_int d n = Decimal.mk (Decimal.coeff d * n) (Decimal.expo d).
Proof.
  intros H. unfold Decimal.mul_int, Decimal.fix_prec. simpl Decimal.coeff.
  apply Z.ltb_lt in H. now rewrite H.
Qed.

(** [int(d * 100)] is the floor of the exact product for a positive
    amount whose product fits the precision. *)
Lemma to_int_mul100_floor (d : Decimal.t) :
  0 < Decimal.coeff d ->
  Decimal.coeff d * 100 < 10 ^ Decimal.prec ->
  Decimal.to_int (Decimal.mul_int d 100) =
  Qfloor (Decimal.value d * inject_Z 100).
Proof.
  intros Hpos Hfit.
  rewrite mul_int_exact by (rewrite Z.abs_eq; lia).
  destruct d as [c e]. simpl in *.
  unfold Decimal.to_int, Decimal.value. simpl.
  destruct (0 <=? e) eqn:E.
  - simpl. rewrite Z.div_1_r. ring.
  - apply Z.leb_gt in E.
    assert (Hp : 0 < 10 ^ (- e)) by (apply Z.pow_pos_nonneg; lia).
    simpl. rewrite Pos.mul_1_r, Z2Pos.id by exact Hp.
    apply Z.quot_div_nonneg; lia.
Qed.

(** With at most two decimal places, nothing is cut off. *)
Lemma to_int_mul100_exact (d : Decimal.t) :
  Z.abs (Decimal.coeff d * 100) < 10 ^ Decimal.prec ->
  -2 <= Decimal.expo d ->
  (inject_Z (Decimal.to_int (Decimal.mul_int d 100)) ==
   Decimal.value d * inject_Z 100)%Q.
Proof.
  intros Hfit He.
  rewrite mul_int_exact by exact Hfit.
  destruct d as [c e]. simpl in *.
  unfold Decimal.to_int, Decimal.value. simpl.
  destruct (0 <=? e) eqn:E.
  - unfold Qeq. simpl. ring.
  - apply Z.leb_gt in E.
    assert (Hcase : e = -2 \/ e = -1) by lia.
    destruct Hcase; subst e; unfold Qeq; simpl.
    + change (Z.pow_pos 10 2) with 100. rewrite Z.quot_mul by lia. ring.
    + change (Z.pow_pos 10 1) with 10.
      replace (c * 100) with (c * 10 * 10) by ring.
      rewrite Z.quot_mul by lia. ring.
Qed.

Lemma round_half_even_integer (q : Q) (n : Z) :
  (q == inject_Z n)%Q -> round_half_even q = n.
Proof.
  intros H. unfold round_half_even.
  assert (Hf : Qfloor q = n) by (rewrite H; apply Qfloor_Z).
  rewrite Hf.
  assert (Hlt : (q - inject_Z n < 1 # 2)%Q).
  { rewrite H. unfold Qminus. rewrite Qplus_opp_r. reflexivity. }
  rewrite Qlt_alt in Hlt. now rewrite Hlt.
Qed.

(** ** Creating a payment *)

(** One run of [create_payment]: exactly one call goes to the provider,
    carrying [int(amount * 100)]; on its failure nothing is stored, on its
    success the new record is stored under the drawn id and returned. *)
Lemma create_payment_run env w req tm :
  exists kwargs,
    PyDict.get kwargs "amount" =
      Some (VInt (Decimal.to_int
                    (Decimal.mul_int (PaymentCreateRequest.amount req) 100))) /\
    payment_service.create_payment req tm env w =
    match PaymentIntent_create_result env (stripe_calls w) kwargs with
    | inl e =>
        (inl e, with_stripe_calls w
                  (stripe_calls w ++ [stripe.PaymentIntent_create kwargs]))
    | inr pi =>
        let p := new_payment env w req pi in
        (inr p,
         mkWorld (PyDict.set (_payments w) (PaymentResponse.id p) p)
                 (_refunds w) (_subscriptions w)
                 (stripe_calls w ++ [stripe.PaymentIntent_create kwargs])
                 (S (uuids_drawn w)) (S (clock_reads w)))
    end.
Proof.
  unfold payment_service.create_payment,
    stripe_service.create_test_payment_intent,
    stripe_service.create_payment_intent, stripe_service.send, bind.
  destruct tm;
    destruct (truthy_str (PaymentCreateRequest.customer_id req));
    destruct (truthy_dict (PaymentCreateRequest.metadata req));
    match goal with
    | |- context [PaymentIntent_create_result env ?h ?k] =>
        exists k; split; [reflexivity|];
        destruct (PaymentIntent_create_result env h k); reflexivity
    end.
Qed.

Lemma create_payment_success env w req tm p w' :
  payment_service.create_payment req tm env w = (inr p, w') ->
  exists kwargs pi,
    PyDict.get kwargs "amount" =
      Some (VInt (Decimal.to_int
                    (Decimal.mul_int (PaymentCreateRequest.amount req) 100))) /\
    PaymentIntent_create_result env (stripe_calls w) kwargs = inr pi /\
    p = new_payment env w req pi /\
    w' = mkWorld (PyDict.set (_payments w) (PaymentResponse.id p) p)
                 (_refunds w) (_subscriptions w)
                 (stripe_calls w ++ [stripe.PaymentIntent_create kwargs])
                 (S (uuids_drawn w)) (S (clock_reads w)).
Proof.
  intros H. destruct (create_payment_run env w req tm) as (kwargs & Ha & Hrun).
  rewrite Hrun in H.
  destruct (PaymentIntent_create_result env (stripe_calls w) kwargs)
    as [e|pi] eqn:E; [discriminate|].
  simpl in H. injection H as Hp Hw.
  exists kwargs, pi. subst p. repeat split; auto.
Qed.

(** ** Creating a subscription *)

(** A conversion yields a time or raises, and leaves the state alone. *)
Lemma fromtimestamp_run seconds env w :
  (exists d, fromtimestamp seconds env w = (inr d, w)) \/
  (exists m, fromtimestamp seconds env w = (inl (ValueError m), w)).
Proof.
  unfold fromtimestamp.
  destruct (fromtimestamp_result env seconds) as [m|d];
    [right | left]; eexists; reflexivity.
Qed.

Lemma opt_fromtimestamp_run x env w :
  (exists d, subscription_service.opt_fromtimestamp x env w = (inr d, w)) \/
  (exists m, subscription_service.opt_fromtimestamp x env w
             = (inl (ValueError m), w)).
Proof.
  unfold subscription_service.opt_fromtimestamp, bind, ret.
  destruct x as [seconds|]; [|left; eexists; reflexivity].
  destruct (truthy_int (Some seconds)); [|left; eexists; reflexivity].
  destruct (fromtimestamp_run seconds env w) as [[d ->]|[m ->]];
    [left | right]; eexists; reflexivity.
Qed.

(** Taking the next conversion in a run apart. *)
Ltac convert_timestamp :=
  cbv beta iota zeta;
  first
    [ match goal with
      | |- context [fromtimestamp ?s ?e ?w] =>
          destruct (fromtimestamp_run s e w) as [[? ->]|[? ->]]
      end
    | match goal with
      | |- context [subscription_service.opt_fromtimestamp ?s ?e ?w] =>
          destruct (opt_fromtimestamp_run s e w) as [[? ->]|[? ->]]
      end ];
  cbv beta iota zeta.

(** One run of [create_subscription]: one call goes to the provider; when
    it is refused nothing else happens; when it is accepted an id is
    drawn and the clock read, and then either a timestamp of the answer
    cannot be converted, and nothing is stored, or the record is stored
    under the drawn id and returned. *)
Lemma create_subscription_run env w req :
  exists kwargs,
    match Subscription_create_result env (stripe_calls w) kwargs with
    | inl e =>
        subscription_service.create_subscription req env w =
        (inl e, with_stripe_calls w
                  (stripe_calls w ++ [stripe.Subscription_create kwargs]))
    | inr sub =>
        (exists m,
           subscription_service.create_subscription req env w =
           (inl (ValueError m),
            mkWorld (_payments w) (_refunds w) (_subscriptions w)
                    (stripe_calls w ++ [stripe.Subscription_create kwargs])
                    (S (uuids_drawn w)) (S (clock_reads w)))) \/
        (exists s,
           subscription_service.create_subscription req env w =
           (inr s,
            mkWorld (_payments w) (_refunds w)
                    (PyDict.set (_subscriptions w)
                                (SubscriptionResponse.id s) s)
                    (stripe_calls w ++ [stripe.Subscription_create kwargs])
                    (S (uuids_drawn w)) (S (clock_reads w))) /\
           SubscriptionResponse.id s = uuid_of env (uuids_drawn w) /\
           SubscriptionResponse.status s =
             (if negb (truthy_int
                         (SubscriptionCreateRequest.trial_period_days req))
              then ACTIVE else TRIALING) /\
           SubscriptionResponse.stripe_subscription_id s
             = Some (stripe.sub_id sub))
    end.
Proof.
  unfold subscription_service.create_subscription,
    stripe_service.create_subscription, stripe_service.send, bind, uuid4,
    utcnow, get_world, put_world, ret.
  match goal with
  | |- context [stripe.Subscription_create ?k] => exists k
  end.
  cbv beta iota zeta.
  match goal with
  | |- context [Subscription_create_result env ?h ?k] =>
      destruct (Subscription_create_result env h k) as [e|sub];
      [reflexivity|]
  end.
  do 5 (convert_timestamp; [|left; eexists; reflexivity]).
  right.
  match goal with
  | |- context [@inr PyExc SubscriptionResponse.t ?r] => exists r
  end.
  split; [reflexivity|]. repeat split; reflexivity.
Qed.

(** [POST /subscriptions/create] with a body that passes validation. *)
Lemma POST_create_subscription_run env w body req :
  api_subscriptions.validate_body body = Some req ->
  exists kwargs,
    match Subscription_create_result env (stripe_calls w) kwargs with
    | inl e =>
        api_subscriptions.POST_create body env w =
        (mkResponse 500
           (Detail ("Failed to create subscription: " ++ exc_str e)),
         with_stripe_calls w
           (stripe_calls w ++ [stripe.Subscription_create kwargs]))
    | inr sub =>
        (exists m,
           api_subscriptions.POST_create body env w =
           (mkResponse 500
              (Detail ("Failed to create subscription: " ++ m)),
            mkWorld (_payments w) (_refunds w) (_subscriptions w)
                    (stripe_calls w ++ [stripe.Subscription_create kwargs])
                    (S (uuids_drawn w)) (S (clock_reads w)))) \/
        (exists s,
           api_subscriptions.POST_create body env w =
           (mkResponse 201
              (SubscriptionCreated SuccessMessages.SUBSCRIPTION_CREATED s),
            mkWorld (_payments w) (_refunds w)
                    (PyDict.set (_subscriptions w)
                                (SubscriptionResponse.id s) s)
                    (stripe_calls w ++ [stripe.Subscription_create kwargs])
                    (S (uuids_drawn w)) (S (clock_reads w))))
    end.
Proof.
  intros Hb. unfold api_subscriptions.POST_create. rewrite Hb.
  simpl option_map.
  unfold main.dispatch, main.serve, main.returning,
    api_subscriptions.create_subscription, try_except, bind.
  destruct (create_subscription_run env w req) as (kwargs & Hrun).
  exists kwargs.
  destruct (Subscription_create_result env (stripe_calls w) kwargs)
    as [e|sub].
  - rewrite Hrun. reflexivity.
  - destruct Hrun as [[m ->]|(s & -> & _)].
    + left. exists m. reflexivity.
    + right. exists s. reflexivity.
Qed.

(** ** The ids in the payment store *)

Lemma app_payments_frame r env w :
  (uuids_drawn w <= uuids_drawn (snd (app r env w)))%nat /\
  (_payments (snd (app r env w)) = _payments w \/
   exists p, _payments (snd (app r env w)) =
             PyDict.set (_payments w) (uuid_of env (uuids_drawn w)) p /\
             uuids_drawn (snd (app r env w)) = S (uuids_drawn w)).
Proof.
  destruct r; simpl.
  - unfold api_payments.POST_create.
    destruct (api_payments.validate_body body) as [req|];
      [destruct (Query_bool false test_mode) as [tm|]|];
      try (simpl; auto).
    unfold main.dispatch, main.serve, main.returning, api_payments.create_payment, try_except, bind.
    destruct (create_payment_run env w req tm) as (kwargs & _ & Hrun).
    rewrite Hrun.
    destruct (PaymentIntent_create_result env (stripe_calls w) kwargs);
      simpl; [auto|].
    split; [lia|]. right. eexists. split; reflexivity.
  - unfold api_payments.GET_payment, api_payments.get_payment,
      payment_service.get_payment. run_route.
    destruct (PyDict.get (_payments w) payment_id); simpl; auto.
  - unfold api_payments.GET_list, api_payments.list_payments,
      payment_service.get_payments.
    destruct (Query_int 1 (Some 1) None page);
      [destruct (Query_int DEFAULT_PAGE_SIZE (Some 1) (Some MAX_PAGE_SIZE) per_page)|];
      run_route; auto.
  - unfold api_refunds.POST_create, api_refunds.create_refund,
      refund_service.create_refund, stripe_service.create_refund.
    destruct (api_refunds.validate_body body) as [req|]; run_route; auto.
    match goal with
    | |- context [Refund_create_result env ?h ?k] =>
        destruct (Refund_create_result env h k)
    end; simpl; auto.
  - unfold api_refunds.GET_refund, api_refunds.get_refund,
      refund_service.get_refund. run_route.
    destruct (PyDict.get (_refunds w) refund_id); simpl; auto.
  - unfold api_refunds.GET_list, api_refunds.list_refunds,
      refund_service.list_refunds.
    destruct (Query_int DEFAULT_PAGE_SIZE None (Some 100) limit);
      run_route; auto.
  - destruct (api_subscriptions.validate_body body) as [req|] eqn:Hb.
    + destruct (POST_create_subscription_run env w body req Hb)
        as (kwargs & Hrun).
      destruct (Subscription_create_result env (stripe_calls w) kwargs);
        [rewrite Hrun | destruct Hrun as [[m ->]|[sb ->]]];
        simpl; split; auto; lia.
    + unfold api_subscriptions.POST_create. rewrite Hb. simpl. auto.
  - unfold api_subscriptions.GET_subscription. run_route. auto.
  - unfold api_subscriptions.POST_cancel. run_route. auto.
  - unfold api_subscriptions.GET_list, api_subscriptions.list_subscriptions,
      subscription_service.get_subscriptions.
    destruct (Query_int 1 (Some 1) None page);
      [destruct (Query_int DEFAULT_PAGE_SIZE (Some 1) (Some MAX_PAGE_SIZE) per_page)|];
      run_route; auto.
Qed.

Lemma reachable_payment_ids env w :
  reachable env w -> payment_ids_drawn env w.
Proof.
  induction 1 as [|w r Hr IH].
  - intros k [].
  - destruct (app_payments_frame r env w) as [Hle [Hsame|(p & Hset & Hdrawn)]];
      intros k Hk.
    + rewrite Hsame in Hk. destruct (IH k Hk) as (n & Hn & ->).
      exists n. split; [lia | reflexivity].
    + rewrite Hset in Hk. apply keys_set in Hk. rewrite Hdrawn.
      destruct Hk as [->|Hk].
      * exists (uuids_drawn w). split; [lia | reflexivity].
      * destruct (IH k Hk) as (n & Hn & ->).
        exists n. split; [lia | reflexivity].
Qed.

Lemma tally_inj m n : examples.tally m = examples.tally n -> m = n.
Proof.
  revert n. induction m as [|m IH]; destruct n as [|n]; simpl;
    try discriminate; auto.
  intros H. injection H as H. f_equal. auto.
Qed.

Lemma examples_uuid4_unique : uuid4_unique examples.env.
Proof.
  intros m n H. simpl in H. unfold examples.uuid_sample in H.
  simpl in H. injection H as H. now apply tally_inj.
Qed.

(** ** The claims about payments *)

(** C1 (amended).  When [create_payment] succeeds for a positive amount
    [A] whose product [A * 100] fits the 28 digits of the decimal context,
    the returned record carries [A] unchanged and the one call made to the
    provider carries [int(A * 100)], that is [A * 100] cut down to an
    integer; the two agree with [round(A * 100)] when [A] has at most two
    decimal places. *)
Theorem create_payment_amount_truncated env w req tm p w' :
  payment_service.create_payment req tm env w = (inr p, w') ->
  0 < Decimal.coeff (PaymentCreateRequest.amount req) ->
  Decimal.coeff (PaymentCreateRequest.amount req) * 100 < 10 ^ Decimal.prec ->
  PaymentResponse.amount p = PaymentCreateRequest.amount req /\
  exists call,
    stripe_calls w' = (stripe_calls w ++ [call])%list /\
    kwarg call "amount" =
      Some (VInt (Qfloor (Decimal.value (PaymentCreateRequest.amount req)
                          * inject_Z 100))) /\
    (-2 <= Decimal.expo (PaymentCreateRequest.amount req) ->
     kwarg call "amount" =
       Some (VInt (round_half_even
                     (Decimal.value (PaymentCreateRequest.amount req)
                      * inject_Z 100)))).
Proof.
  intros Hrun Hpos Hfit.
  destruct (create_payment_success _ _ _ _ _ _ Hrun)
    as (kwargs & pi & Hamount & _ & -> & ->).
  split; [reflexivity|].
  exists (stripe.PaymentIntent_create kwargs).
  split; [reflexivity|]. unfold kwarg. simpl stripe.kwargs_of.
  rewrite Hamount. split.
  - now rewrite to_int_mul100_floor.
  - intros He. do 2 f_equal. symmetry.
    apply round_half_even_integer. symmetry.
    apply to_int_mul100_exact; [rewrite Z.abs_eq; lia | exact He].
Qed.

Lemma create_payment_amount_truncated_witness :
  let req := examples.payment_request examples.amount_20_00 (Some "cus_A") in
  let p := new_payment examples.env initial_world req examples.intent in
  PaymentResponse.amount p = examples.amount_20_00 /\
  exists call,
    stripe_calls
      (snd (payment_service.create_payment req false examples.env initial_world))
    = ([] ++ [call])%list /\
    kwarg call "amount" =
      Some (VInt (Qfloor (Decimal.value examples.amount_20_00 * inject_Z 100))) /\
    (-2 <= -2 ->
     kwarg call "amount" =
       Some (VInt (round_half_even
                     (Decimal.value examples.amount_20_00 * inject_Z 100)))).
Proof.
  intros req p.
  apply (create_payment_amount_truncated examples.env initial_world req false p
           (snd (payment_service.create_payment req false examples.env
                   initial_world))).
  - reflexivity.
  - simpl. lia.
  - simpl. lia.
Defined.

(** C1, as stated, fails: for the amount 10.019 the provider receives
    1001 minor units, while [round(10.019 * 100)] is 1002; 1001 is
    further than one half from 1001.9, so no rounding to the nearest
    integer yields it. *)
Lemma create_payment_amount_not_rounded :
  let req := examples.payment_request examples.amount_10_019 None in
  let run :=
    payment_service.create_payment req false examples.env initial_world in
  fst run = inr (new_payment examples.env initial_world req examples.intent) /\
  PaymentResponse.amount
    (new_payment examples.env initial_world req examples.intent)
    = examples.amount_10_019 /\
  map (fun call => kwarg call "amount") (stripe_calls (snd run))
    = [Some (VInt 1001)] /\
  round_half_even (Decimal.value examples.amount_10_019 * inject_Z 100)
    = 1002 /\
  (1 # 2 < Qabs (Decimal.value examples.amount_10_019 * inject_Z 100
                 - inject_Z 1001))%Q.
Proof.
  intros req run.
  split; [reflexivity|].
  split; [reflexivity|].
  split; [reflexivity|].
  split; reflexivity.
Qed.

(** C5.  In any state the application can reach, and with [uuid4] never
    repeating a value, a successful [create_payment] returns a record
    with status pending whose id is not yet a key of the store; the
    record is stored under that id, and [get_payment] with that id then
    returns the very same record. *)
Theorem create_then_get_payment env w req tm p w' :
  uuid4_unique env ->
  reachable env w ->
  payment_service.create_payment req tm env w = (inr p, w') ->
  PaymentResponse.status p = PENDING /\
  PaymentResponse.id p = uuid_of env (uuids_drawn w) /\
  ~ In (PaymentResponse.id p) (PyDict.keys (_payments w)) /\
  PyDict.get (_payments w') (PaymentResponse.id p) = Some p /\
  payment_service.get_payment (PaymentResponse.id p) env w'
    = (inr (Some p), w').
Proof.
  intros Huniq Hreach Hrun.
  destruct (create_payment_success _ _ _ _ _ _ Hrun)
    as (kwargs & pi & _ & _ & -> & ->).
  split; [reflexivity|]. split; [reflexivity|]. split.
  - intros Hin. apply (reachable_payment_ids _ _ Hreach) in Hin.
    destruct Hin as (n & Hn & Heq). simpl in Heq.
    apply Huniq in Heq. lia.
  - assert (Hget : PyDict.get
      (PyDict.set (_payments w)
         (PaymentResponse.id (new_payment env w req pi))
         (new_payment env w req pi))
      (PaymentResponse.id (new_payment env w req pi))
      = Some (new_payment env w req pi)) by apply get_set_same.
    split; [exact Hget|].
    unfold payment_service.get_payment, bind, get_world, ret.
    cbv beta iota. do 2 f_equal. exact Hget.
Qed.

Lemma create_then_get_payment_witness :
  let req := examples.payment_request examples.amount_20_00 (Some "cus_A") in
  let w := snd (app (POST_payments_create (Some req) q_absent) examples.env
                  initial_world) in
  let p := new_payment examples.env w req examples.intent in
  let w' := snd (payment_service.create_payment req true examples.env w) in
  PyDict.keys (_payments w) = ["uuid-"] /\
  PaymentResponse.status p = PENDING /\
  PaymentResponse.id p = "uuid-1" /\
  ~ In (PaymentResponse.id p) (PyDict.keys (_payments w)) /\
  PyDict.get (_payments w') (PaymentResponse.id p) = Some p /\
  payment_service.get_payment (PaymentResponse.id p) examples.env w'
    = (inr (Some p), w').
Proof.
  intros req w p w'. split; [reflexivity|].
  apply (create_then_get_payment examples.env w req true p w').
  - exact examples_uuid4_unique.
  - exact (reachable_request examples.env initial_world
             (POST_payments_create (Some req) q_absent)
             (reachable_initial examples.env)).
  - reflexivity.
Defined.

(** [POST /payments/create] with parameters that pass validation: the
    provider's failure is a 500, its success a 201 whose [client_secret]
    is the id of the provider's payment intent. *)
Lemma POST_create_payment_run env w body q req tm :
  api_payments.validate_body body = Some req ->
  Query_bool false q = Some tm ->
  exists kwargs,
    fst (api_payments.POST_create body q env w) =
    match PaymentIntent_create_result env (stripe_calls w) kwargs with
    | inl e =>
        mkResponse 500
          (Detail (ErrorMessages.FAILED_TO_CREATE_PAYMENT ++ ": " ++ exc_str e))
    | inr pi =>
        mkResponse 201
          (PaymentCreated SuccessMessages.PAYMENT_CREATED
             (new_payment env w req pi) (Some (stripe.pi_id pi)))
    end.
Proof.
  intros Hb Hq. unfold api_payments.POST_create. rewrite Hb, Hq.
  unfold main.dispatch, main.serve, main.returning, api_payments.create_payment,
    try_except, bind.
  destruct (create_payment_run env w req tm) as (kwargs & _ & Hrun).
  rewrite Hrun. exists kwargs.
  destruct (PaymentIntent_create_result env (stripe_calls w) kwargs);
    reflexivity.
Qed.

(** C10.  Whenever [POST /payments/create] answers 201, the
    [client_secret] of the response is the record's
    [stripe_payment_intent_id], which is the id of the payment intent the
    provider returned; the intent's own client secret is not used, so the
    two differ whenever the provider's secret is not that id. *)
Theorem create_payment_client_secret env w body q :
  status_code (fst (api_payments.POST_create body q env w)) = 201 ->
  exists p pi kwargs,
    PaymentIntent_create_result env (stripe_calls w) kwargs = inr pi /\
    content (fst (api_payments.POST_create body q env w)) =
      PaymentCreated SuccessMessages.PAYMENT_CREATED p
                     (PaymentResponse.stripe_payment_intent_id p) /\
    PaymentResponse.stripe_payment_intent_id p = Some (stripe.pi_id pi) /\
    (stripe.pi_client_secret pi <> Some (stripe.pi_id pi) ->
     PaymentResponse.stripe_payment_intent_id p <> stripe.pi_client_secret pi).
Proof.
  intros Hok.
  destruct (api_payments.validate_body body) as [req|] eqn:Hb;
    [destruct (Query_bool false q) as [tm|] eqn:Hq|].
  - destruct (POST_create_payment_run env w body q req tm Hb Hq)
      as (kwargs & Hrun).
    rewrite Hrun in Hok |- *.
    destruct (PaymentIntent_create_result env (stripe_calls w) kwargs)
      as [e|pi] eqn:E; [discriminate|].
    exists (new_payment env w req pi), pi, kwargs.
    split; [exact E|]. split; [reflexivity|]. split; [reflexivity|].
    simpl. congruence.
  - unfold api_payments.POST_create in Hok. rewrite Hb, Hq in Hok.
    discriminate.
  - unfold api_payments.POST_create in Hok. rewrite Hb in Hok.
    discriminate.
Qed.

Lemma create_payment_client_secret_witness :
  let body := Some (examples.payment_request examples.amount_20_00 None) in
  exists p pi kwargs,
    PaymentIntent_create_result examples.env [] kwargs = inr pi /\
    content (fst (api_payments.POST_create body q_absent examples.env
                    initial_world)) =
      PaymentCreated SuccessMessages.PAYMENT_CREATED p
                     (PaymentResponse.stripe_payment_intent_id p) /\
    PaymentResponse.stripe_payment_intent_id p = Some (stripe.pi_id pi) /\
    (stripe.pi_client_secret pi <> Some (stripe.pi_id pi) ->
     PaymentResponse.stripe_payment_intent_id p <> stripe.pi_client_secret pi).
Proof.
  intros body.
  apply (create_payment_client_secret examples.env initial_world body q_absent).
  reflexivity.
Defined.

(** ** The claims about subscriptions *)

(** C2 (the code's behaviour).  [GET /subscriptions/{id}] and
    [POST /subscriptions/{id}/cancel] read the name [subscription_service],
    which their module does not bind: for every id, stored or not, the
    first answers with the application's 500 page and the second with a
    500 carrying the [NameError] text.  Neither touches the state. *)
Theorem subscription_routes_name_error env w subscription_id :
  api_subscriptions.GET_subscription subscription_id env w =
    (main.internal_error_handler ("/api/v1/subscriptions/" ++ subscription_id),
     w) /\
  api_subscriptions.POST_cancel subscription_id env w =
    (mkResponse 500
       (Detail ("Failed to cancel subscription: "
                ++ "name 'subscription_service' is not defined")),
     w).
Proof. split; reflexivity. Qed.

(** The unknown id answers 500 where the routes document 404, and a
    stored id answers 500 where they document 200. *)
Lemma subscription_routes_never_200_404 :
  status_code (fst (api_subscriptions.GET_subscription "s1" examples.env
                      examples.two_subscriptions)) = 500 /\
  status_code (fst (api_subscriptions.GET_subscription "unknown" examples.env
                      examples.two_subscriptions)) = 500 /\
  status_code (fst (api_subscriptions.POST_cancel "unknown" examples.env
                      examples.two_subscriptions)) = 500 /\
  PyDict.contains (_subscriptions examples.two_subscriptions) "s1" = true /\
  PyDict.contains (_subscriptions examples.two_subscriptions) "unknown" = false.
Proof. repeat split; reflexivity. Qed.

(** With the service bound, the two route bodies would do what the
    routes document: the service finds a stored id and reports an
    unknown one as absent. *)
Lemma subscription_service_lookup env w subscription_id :
  subscription_service.get_subscription subscription_id env w =
    (inr (PyDict.get (_subscriptions w) subscription_id), w) /\
  (PyDict.get (_subscriptions w) subscription_id = None ->
   subscription_service.cancel_subscription subscription_id env w =
     (inr None, w)).
Proof.
  split; [reflexivity|]. intros H.
  unfold subscription_service.cancel_subscription, bind, get_world.
  cbv beta iota. now rewrite H.
Qed.

(** ** The claims about refunds *)

(** C3.  A refund created without an amount sends the provider exactly
    one call, whose only argument is the payment intent: it has no
    [amount] field.  The same holds through [POST /refunds/create] for a
    body without amount. *)
Theorem create_refund_without_amount env w payment_intent_id reason :
  let call := stripe.Refund_create
                [("payment_intent", VStr payment_intent_id)] in
  stripe_calls
    (snd (refund_service.create_refund payment_intent_id None reason env w))
    = (stripe_calls w ++ [call])%list /\
  stripe_calls
    (snd (api_refunds.POST_create
            (Some (RefundCreateRequest.mk payment_intent_id None reason))
            env w))
    = (stripe_calls w ++ [call])%list /\
  kwarg call "amount" = None.
Proof.
  unfold api_refunds.POST_create, api_refunds.create_refund,
    refund_service.create_refund, stripe_service.create_refund,
    stripe_service.send, main.dispatch, main.serve, main.returning,
    try_except, bind.
  simpl.
  destruct (Refund_create_result env (stripe_calls w)
              [("payment_intent", VStr payment_intent_id)]);
    repeat split; reflexivity.
Qed.

(** One run of [create_subscription]: one call to the provider; on its
    success the record is stored under the drawn id and returned, with a
    status computed from the request alone. *)
Lemma create_subscription_success env w req s w' :
  subscription_service.create_subscription req env w = (inr s, w') ->
  exists kwargs sub,
    Subscription_create_result env (stripe_calls w) kwargs = inr sub /\
    SubscriptionResponse.id s = uuid_of env (uuids_drawn w) /\
    SubscriptionResponse.status s =
      (if negb (truthy_int (SubscriptionCreateRequest.trial_period_days req))
       then ACTIVE else TRIALING) /\
    SubscriptionResponse.stripe_subscription_id s = Some (stripe.sub_id sub) /\
    _subscriptions w' =
      PyDict.set (_subscriptions w) (SubscriptionResponse.id s) s.
Proof.
  intros H.
  destruct (create_subscription_run env w req) as (kwargs & Hrun).
  destruct (Subscription_create_result env (stripe_calls w) kwargs)
    as [e|sub] eqn:E.
  - rewrite Hrun in H. discriminate.
  - destruct Hrun as [[m Hrun]|(s0 & Hrun & Hid & Hst & Hsid)];
      rewrite Hrun in H; [discriminate|].
    injection H as <- <-. exists kwargs, sub. repeat split; auto.
Qed.

(** C6 (amended).  When [create_subscription] succeeds, the stored
    status is trialing if [trial_period_days] is set to a non-zero number
    and active if it is unset or zero, whatever status the provider
    reported. *)
Theorem create_subscription_status env w req s w' :
  subscription_service.create_subscription req env w = (inr s, w') ->
  SubscriptionResponse.status s =
    match SubscriptionCreateRequest.trial_period_days req with
    | Some days => if days =? 0 then ACTIVE else TRIALING
    | None => ACTIVE
    end /\
  PyDict.get (_subscriptions w') (SubscriptionResponse.id s) = Some s.
Proof.
  intros Hrun.
  destruct (create_subscription_success _ _ _ _ _ Hrun)
    as (kwargs & sub & _ & _ & Hstatus & _ & Hstore).
  split.
  - rewrite Hstatus.
    destruct (SubscriptionCreateRequest.trial_period_days req) as [days|];
      simpl; [destruct (days =? 0)|]; reflexivity.
  - rewrite Hstore. apply get_set_same.
Qed.

Lemma create_subscription_status_witness :
  let req := examples.subscription_request (Some 7) in
  let run := subscription_service.create_subscription req examples.env
               initial_world in
  exists s,
    fst run = inr s /\
    stripe.sub_status examples.subscription = "incomplete" /\
    SubscriptionResponse.status s = TRIALING /\
    PyDict.get (_subscriptions (snd run)) (SubscriptionResponse.id s) = Some s.
Proof.
  intros req run. eexists.
  split; [cbv; reflexivity|]. split; [reflexivity|].
  apply (create_subscription_status examples.env initial_world req _ (snd run)).
  reflexivity.
Defined.

(** C6, as stated, fails when the trial length is set to zero, which the
    request model admits: the stored status is active, not trialing. *)
Lemma create_subscription_zero_day_trial :
  let req := examples.subscription_request (Some 0) in
  let run := subscription_service.create_subscription req examples.env
               initial_world in
  api_subscriptions.validate_body (Some req) = Some req /\
  SubscriptionCreateRequest.trial_period_days req = Some 0 /\
  option_map SubscriptionResponse.status
    (PyDict.get (_subscriptions (snd run)) "uuid-") = Some ACTIVE /\
  match fst run with
  | inr s => SubscriptionResponse.status s = ACTIVE /\
             SubscriptionResponse.status s <> TRIALING
  | inl _ => False
  end.
Proof. repeat split; try reflexivity. discriminate. Qed.

(** ** Request validation *)

(** What [Query_int] refuses: a value that does not parse, or one that
    breaks a bound. *)
Lemma Query_int_refuses default ge le q :
  Query_int default ge le q = None <->
  q = q_malformed \/
  exists v, q = q_value v /\
            ((exists lo, ge = Some lo /\ v < lo) \/
             (exists hi, le = Some hi /\ hi < v)).
Proof.
  unfold Query_int. split.
  - destruct q as [|v|]; [discriminate| |now left].
    intros H. right. exists v. split; [reflexivity|].
    destruct ge as [lo|], le as [hi|]; simpl in H.
    + destruct (lo <=? v) eqn:E1; simpl in H.
      * destruct (v <=? hi) eqn:E2; [discriminate|].
        right. exists hi. split; [reflexivity|]. now apply Z.leb_gt.
      * left. exists lo. split; [reflexivity|]. now apply Z.leb_gt.
    + destruct (lo <=? v) eqn:E1; [discriminate|].
      left. exists lo. split; [reflexivity|]. now apply Z.leb_gt.
    + destruct (v <=? hi) eqn:E2; [discriminate|].
      right. exists hi. split; [reflexivity|]. now apply Z.leb_gt.
    + discriminate.
  - intros [->|(v & -> & [(lo & -> & Hlo)|(hi & -> & Hhi)])];
      [reflexivity| |].
    + apply Z.leb_gt in Hlo. now rewrite Hlo.
    + apply Z.leb_gt in Hhi. rewrite Hhi. now rewrite andb_false_r.
Qed.

(** A route that runs answers with its success code or with the status
    of the [HTTPException] it raised, and with 500 otherwise. *)
Lemma serve_not_422 path code h env w :
  code <> 422 ->
  (forall c d, fst (h env w) = inl (HTTPException c d) -> c <> 422) ->
  status_code (fst (main.serve path code h env w)) <> 422.
Proof.
  intros Hcode Hexc. unfold main.serve.
  destruct (h env w) as [[e|x] w']; simpl; [|exact Hcode].
  destruct e as [n|c d|m|m|]; simpl; try discriminate.
  destruct (c =? 404) eqn:E; simpl; [discriminate|].
  now apply (Hexc c d).
Qed.

Lemma returning_raises t h env w c d :
  fst (main.returning t h env w) = inl (HTTPException c d) ->
  fst (h env w) = inl (HTTPException c d).
Proof.
  unfold main.returning, bind.
  destruct (h env w) as [[e|x] w']; simpl; [auto|].
  destruct (main.conforms t x); discriminate.
Qed.

(** A route body wrapped in [except Exception: raise HTTPException(500)]
    raises nothing else. *)
Lemma try_except_500 {A} (body : M A) (detail : PyExc -> string) env w c d :
  fst (try_except body (fun e => raise (HTTPException 500 (detail e))) env w)
    = inl (HTTPException c d) ->
  c = 500.
Proof.
  unfold try_except, raise.
  destruct (body env w) as [[e|x] w']; simpl; [|discriminate].
  intros H. now injection H as <- _.
Qed.

(** The routes that get past validation never answer 422. *)
Lemma POST_payments_create_runs r tm env w :
  status_code
    (fst (main.serve "/api/v1/payments/create" 201
            (main.returning main.Returns_dict
               (api_payments.create_payment r tm)) env w)) <> 422.
Proof.
  apply serve_not_422; [discriminate|]. intros c d H.
  apply returning_raises in H. unfold api_payments.create_payment in H.
  apply try_except_500 in H. subst c. discriminate.
Qed.

Lemma GET_payments_runs customer_id p pp env w :
  status_code
    (fst (main.serve "/api/v1/payments/" 200
            (main.returning main.Returns_PaymentListResponse
               (api_payments.list_payments customer_id p pp)) env w)) <> 422.
Proof.
  apply serve_not_422; [discriminate|]. intros c d H.
  apply returning_raises in H. unfold api_payments.list_payments in H.
  apply try_except_500 in H. subst c. discriminate.
Qed.

Lemma POST_refunds_create_runs r env w :
  status_code
    (fst (main.serve "/api/v1/refunds/create" 201
            (main.returning main.Returns_dict (api_refunds.create_refund r))
            env w)) <> 422.
Proof.
  apply serve_not_422; [discriminate|]. intros c d H.
  apply returning_raises in H. unfold api_refunds.create_refund in H.
  apply try_except_500 in H. subst c. discriminate.
Qed.

Lemma GET_refunds_runs payment_intent_id limit env w :
  status_code
    (fst (main.serve "/api/v1/refunds/" 200
            (api_refunds.list_refunds payment_intent_id limit) env w)) <> 422.
Proof.
  apply serve_not_422; [discriminate|]. intros c d H.
  unfold api_refunds.list_refunds in H.
  apply try_except_500 in H. subst c. discriminate.
Qed.

Lemma POST_subscriptions_create_runs r env w :
  status_code
    (fst (main.serve "/api/v1/subscriptions/create" 201
            (main.returning main.Returns_dict
               (api_subscriptions.create_subscription r)) env w)) <> 422.
Proof.
  apply serve_not_422; [discriminate|]. intros c d H.
  apply returning_raises in H.
  unfold api_subscriptions.create_subscription in H.
  apply try_except_500 in H. subst c. discriminate.
Qed.

Lemma GET_subscriptions_runs customer_id p pp env w :
  status_code
    (fst (main.serve "/api/v1/subscriptions/" 200
            (main.returning main.Returns_SubscriptionListResponse
               (api_subscriptions.list_subscriptions customer_id p pp))
            env w)) <> 422.
Proof.
  apply serve_not_422; [discriminate|]. intros c d H.
  apply returning_raises in H.
  unfold api_subscriptions.list_subscriptions in H.
  apply try_except_500 in H. subst c. discriminate.
Qed.

Lemma id_routes_run env w i :
  status_code (fst (api_payments.GET_payment i env w)) <> 422 /\
  status_code (fst (api_refunds.GET_refund i env w)) <> 422 /\
  status_code (fst (api_subscriptions.GET_subscription i env w)) <> 422 /\
  status_code (fst (api_subscriptions.POST_cancel i env w)) <> 422.
Proof.
  split; [|split; [|split]].
  - unfold api_payments.GET_payment, main.dispatch, main.serve,
      main.returning, api_payments.get_payment, payment_service.get_payment,
      bind, get_world, ret, raise.
    cbv beta iota. destruct (PyDict.get (_payments w) i); simpl; discriminate.
  - unfold api_refunds.GET_refund, main.dispatch, main.serve,
      api_refunds.get_refund, refund_service.get_refund, try_except,
      bind, get_world, ret, raise.
    cbv beta iota. destruct (PyDict.get (_refunds w) i); simpl; discriminate.
  - change (api_subscriptions.GET_subscription i env w)
      with (main.internal_error_handler ("/api/v1/subscriptions/" ++ i), w).
    discriminate.
  - change (api_subscriptions.POST_cancel i env w)
      with (mkResponse 500
              (Detail ("Failed to cancel subscription: "
                       ++ "name 'subscription_service' is not defined")), w).
    discriminate.
Qed.

(** The two paginated lists declare the same bounds. *)
Lemma page_bounds page per_page :
  match Query_int 1 (Some 1) None page,
        Query_int DEFAULT_PAGE_SIZE (Some 1) (Some MAX_PAGE_SIZE) per_page with
  | Some _, Some _ => True
  | _, _ =>
      page = q_malformed \/ (exists v, page = q_value v /\ v < 1) \/
      per_page = q_malformed \/
      (exists v, per_page = q_value v /\ (v < 1 \/ 100 < v))
  end.
Proof.
  destruct (Query_int 1 (Some 1) None page) eqn:Ep.
  - destruct (Query_int DEFAULT_PAGE_SIZE (Some 1) (Some MAX_PAGE_SIZE)
                per_page) eqn:Epp; [exact I|].
    apply Query_int_refuses in Epp.
    destruct Epp as [->|(v & -> & [(lo & Hlo & Hv)|(hi & Hhi & Hv)])].
    + now right; right; left.
    + injection Hlo as <-. right; right; right. exists v. split; [easy|lia].
    + injection Hhi as <-. unfold MAX_PAGE_SIZE in Hv.
      right; right; right. exists v. split; [easy|lia].
  - apply Query_int_refuses in Ep.
    destruct Ep as [->|(v & -> & [(lo & Hlo & Hv)|(hi & Hhi & _)])].
    + now left.
    + injection Hlo as <-. right; left. exists v. split; [easy|lia].
    + discriminate.
Qed.

(** C7 (amended).  A request fails the declared validation constraints
    exactly when it is answered with status 422: every request that
    breaks a constraint of its route (a body of the wrong shape, an
    amount, quantity or trial length out of range, a query value of the
    wrong type, [page] below 1, [per_page] outside 1..100, a refund
    [limit] above 100) gets the framework's validation answer, with
    status 422, and the route body is not run, so the state is
    unchanged; and no other request is answered 422. *)
Theorem validation_failure_status env w r :
  (fails_validation r ->
   app r env w = (main.request_validation_error, w) /\
   status_code (fst (app r env w)) = 422) /\
  (status_code (fst (app r env w)) = 422 -> fails_validation r).
Proof.
  split.
  - intros H.
    assert (Happ : app r env w = (main.request_validation_error, w)).
    { destruct H; unfold app.
      - reflexivity.
      - unfold api_payments.POST_create, api_payments.validate_body,
          Decimal.gt0.
        apply Z.ltb_ge in H. now rewrite H.
      - unfold api_payments.POST_create.
        destruct (api_payments.validate_body body); reflexivity.
      - reflexivity.
      - unfold api_payments.GET_list, Query_int at 1.
        apply Z.leb_gt in H. now rewrite H.
      - unfold api_payments.GET_list.
        destruct (Query_int 1 (Some 1) None page); reflexivity.
      - unfold api_payments.GET_list.
        replace (Query_int DEFAULT_PAGE_SIZE (Some 1) (Some MAX_PAGE_SIZE)
                   (q_value per_page)) with (@None Z).
        + destruct (Query_int 1 (Some 1) None page); reflexivity.
        + symmetry. apply Query_int_refuses. right. exists per_page.
          split; [reflexivity|].
          destruct H; [left; exists 1 | right; exists MAX_PAGE_SIZE];
            (split; [reflexivity|assumption]).
      - reflexivity.
      - unfold api_refunds.POST_create, api_refunds.validate_body,
          Decimal.gt0.
        rewrite H. apply Z.ltb_ge in H0. now rewrite H0.
      - reflexivity.
      - unfold api_refunds.GET_list.
        replace (Query_int DEFAULT_PAGE_SIZE None (Some 100) (q_value limit))
          with (@None Z); [reflexivity|].
        symmetry. apply Query_int_refuses. right. exists limit.
        split; [reflexivity|]. right. exists 100. now split.
      - reflexivity.
      - unfold api_subscriptions.POST_create, api_subscriptions.validate_body.
        apply Z.ltb_ge in H. now rewrite H.
      - unfold api_subscriptions.POST_create, api_subscriptions.validate_body.
        rewrite H. apply Z.leb_gt in H0. rewrite H0.
        now rewrite andb_false_r.
      - reflexivity.
      - unfold api_subscriptions.GET_list, Query_int at 1.
        apply Z.leb_gt in H. now rewrite H.
      - unfold api_subscriptions.GET_list.
        destruct (Query_int 1 (Some 1) None page); reflexivity.
      - unfold api_subscriptions.GET_list.
        replace (Query_int DEFAULT_PAGE_SIZE (Some 1) (Some MAX_PAGE_SIZE)
                   (q_value per_page)) with (@None Z).
        + destruct (Query_int 1 (Some 1) None page); reflexivity.
        + symmetry. apply Query_int_refuses. right. exists per_page.
          split; [reflexivity|].
          destruct H; [left; exists 1 | right; exists MAX_PAGE_SIZE];
            (split; [reflexivity|assumption]). }
    split; [exact Happ|]. now rewrite Happ.
  - destruct r as [body tm|i|c page per_page|body|i|p limit|body|i|i
                   |c page per_page]; unfold app; intros H.
    + destruct body as [r|]; [|constructor].
      destruct tm as [|b|]; [| |apply fv_payment_test_mode].
      * destruct (Z_le_gt_dec (Decimal.coeff (PaymentCreateRequest.amount r))
                    0) as [Hle|Hgt]; [now constructor|].
        exfalso. revert H.
        unfold api_payments.POST_create, api_payments.validate_body,
          Decimal.gt0.
        replace (0 <? Decimal.coeff (PaymentCreateRequest.amount r))
          with true by (symmetry; apply Z.ltb_lt; lia).
        apply POST_payments_create_runs.
      * destruct (Z_le_gt_dec (Decimal.coeff (PaymentCreateRequest.amount r))
                    0) as [Hle|Hgt]; [now constructor|].
        exfalso. revert H.
        unfold api_payments.POST_create, api_payments.validate_body,
          Decimal.gt0.
        replace (0 <? Decimal.coeff (PaymentCreateRequest.amount r))
          with true by (symmetry; apply Z.ltb_lt; lia).
        apply POST_payments_create_runs.
    + exfalso. revert H. apply id_routes_run.
    + pose proof (page_bounds page per_page) as Hb. revert H.
      unfold api_payments.GET_list.
      destruct (Query_int 1 (Some 1) None page) as [p|];
        [destruct (Query_int DEFAULT_PAGE_SIZE (Some 1) (Some MAX_PAGE_SIZE)
                     per_page) as [pp|]|].
      * intros H. exfalso. revert H. apply GET_payments_runs.
      * intros _.
        destruct Hb as [->|[(v & -> & Hv)|[->|(v & -> & Hv)]]];
          now constructor.
      * intros _.
        destruct Hb as [->|[(v & -> & Hv)|[->|(v & -> & Hv)]]];
          now constructor.
    + destruct body as [r|]; [|constructor].
      destruct (RefundCreateRequest.amount r) as [a|] eqn:Ea.
      * destruct (Z_le_gt_dec (Decimal.coeff a) 0) as [Hle|Hgt];
          [now apply (fv_refund_amount r a)|].
        exfalso. revert H.
        unfold api_refunds.POST_create, api_refunds.validate_body,
          Decimal.gt0.
        rewrite Ea.
        replace (0 <? Decimal.coeff a)
          with true by (symmetry; apply Z.ltb_lt; lia).
        apply POST_refunds_create_runs.
      * exfalso. revert H.
        unfold api_refunds.POST_create, api_refunds.validate_body.
        rewrite Ea. apply POST_refunds_create_runs.
    + exfalso. revert H. apply id_routes_run.
    + revert H. unfold api_refunds.GET_list.
      destruct (Query_int DEFAULT_PAGE_SIZE None (Some 100) limit) as [l|]
        eqn:El.
      * intros H. exfalso. revert H. apply GET_refunds_runs.
      * intros _. apply Query_int_refuses in El.
        destruct El as [->|(v & -> & [(lo & Hlo & _)|(hi & Hhi & Hv)])].
        -- constructor.
        -- discriminate.
        -- injection Hhi as <-. now constructor.
    + destruct body as [r|]; [|constructor].
      destruct (Z_le_gt_dec (SubscriptionCreateRequest.quantity r) 0)
        as [Hle|Hgt]; [now constructor|].
      destruct (SubscriptionCreateRequest.trial_period_days r) as [d|] eqn:Ed.
      * destruct (Z_lt_ge_dec d 0) as [Hlt|Hge];
          [now apply (fv_subscription_trial r d)|].
        exfalso. revert H.
        unfold api_subscriptions.POST_create, api_subscriptions.validate_body.
        rewrite Ed.
        replace (0 <? SubscriptionCreateRequest.quantity r)
          with true by (symmetry; apply Z.ltb_lt; lia).
        replace (0 <=? d) with true by (symmetry; apply Z.leb_le; lia).
        apply POST_subscriptions_create_runs.
      * exfalso. revert H.
        unfold api_subscriptions.POST_create, api_subscriptions.validate_body.
        rewrite Ed.
        replace (0 <? SubscriptionCreateRequest.quantity r)
          with true by (symmetry; apply Z.ltb_lt; lia).
        apply POST_subscriptions_create_runs.
    + exfalso. revert H. apply id_routes_run.
    + exfalso. revert H. apply id_routes_run.
    + pose proof (page_bounds page per_page) as Hb. revert H.
      unfold api_subscriptions.GET_list.
      destruct (Query_int 1 (Some 1) None page) as [p|];
        [destruct (Query_int DEFAULT_PAGE_SIZE (Some 1) (Some MAX_PAGE_SIZE)
                     per_page) as [pp|]|].
      * intros H. exfalso. revert H. apply GET_subscriptions_runs.
      * intros _.
        destruct Hb as [->|[(v & -> & Hv)|[->|(v & -> & Hv)]]];
          now constructor.
      * intros _.
        destruct Hb as [->|[(v & -> & Hv)|[->|(v & -> & Hv)]]];
          now constructor.
Qed.

Lemma validation_failure_status_witness :
  let zero_amount :=
    POST_payments_create
      (Some (examples.payment_request (Decimal.mk 0 0) None)) q_absent in
  let zero_quantity :=
    POST_subscriptions_create
      (Some (SubscriptionCreateRequest.mk "cus_A" "price_1" 0 None None)) in
  let page_zero := GET_payments None (q_value 0) q_absent in
  let long_page := GET_subscriptions None q_absent (q_value 101) in
  app zero_amount examples.env initial_world
    = (main.request_validation_error, initial_world) /\
  app zero_quantity examples.env initial_world
    = (main.request_validation_error, initial_world) /\
  app page_zero examples.env initial_world
    = (main.request_validation_error, initial_world) /\
  app long_page examples.env initial_world
    = (main.request_validation_error, initial_world).
Proof.
  intros zero_amount zero_quantity page_zero long_page.
  split; [|split; [|split]].
  - apply (validation_failure_status examples.env initial_world zero_amount).
    apply fv_payment_amount. simpl. lia.
  - apply (validation_failure_status examples.env initial_world zero_quantity).
    apply fv_subscription_quantity. simpl. lia.
  - apply (validation_failure_status examples.env initial_world page_zero).
    apply fv_payments_page. lia.
  - apply (validation_failure_status examples.env initial_world long_page).
    apply fv_subscriptions_per_page. lia.
Defined.

(** C7, as stated, fails: a payment with amount zero is answered 422,
    not 400. *)
Lemma validation_failure_not_400 :
  let r := fst (api_payments.POST_create
                  (Some (examples.payment_request (Decimal.mk 0 0) None))
                  q_absent examples.env initial_world) in
  status_code r = 422 /\ status_code r <> 400.
Proof. split; [reflexivity | discriminate]. Qed.

(** ** Listing *)

Lemma filter_all {A} (l : list A) : filter (fun _ => true) l = l.
Proof. induction l as [|x l IH]; simpl; congruence. Qed.

Lemma length_firstn_skipn_le {A} (n m : nat) (l : list A) :
  (List.length (firstn n (skipn m l)) <= List.length l)%nat /\
  (List.length (firstn n (skipn m l)) <= n)%nat.
Proof.
  rewrite length_firstn, length_skipn. lia.
Qed.

(** [get_payments] for a page and a page size of at least 1 and a filter
    that is absent or not empty: filter, sort newest first, skip
    [(page - 1) * per_page], take [per_page]. *)
Lemma get_payments_run env w c page per_page :
  1 <= page -> 1 <= per_page -> c <> Some "" ->
  payment_service.get_payments c page per_page env w =
  (inr (firstn (Z.to_nat per_page)
          (skipn (Z.to_nat ((page - 1) * per_page))
             (sort_desc PaymentResponse.created_at
                (filter (matches_customer c)
                        (PyDict.values (_payments w)))))), w).
Proof.
  intros Hp Hpp Hc.
  unfold payment_service.get_payments, bind, get_world, ret.
  cbv beta iota. rewrite py_slice_offset by nia.
  do 3 f_equal.
  destruct c as [s|]; simpl.
  - destruct (String.eqb s "") eqn:E.
    + apply String.eqb_eq in E. congruence.
    + reflexivity.
  - now rewrite filter_all.
Qed.

(** C4 (amended).  For a page and a page size of at least 1 and a
    customer filter that is absent or not the empty string, the listing is
    a page of the matching records sorted by creation time, newest first:
    the sorted sequence is a rearrangement of the matching records, it is
    descending in [created_at], the result skips its first
    [(page - 1) * per_page] records and holds at most [per_page]; when
    the sorted sequence has five records, page 2 of size 2 is its third
    and fourth. *)
Theorem get_payments_page env w c page per_page :
  1 <= page -> 1 <= per_page -> c <> Some "" ->
  let matching := filter (matches_customer c) (PyDict.values (_payments w)) in
  let sorted := sort_desc PaymentResponse.created_at matching in
  let result := firstn (Z.to_nat per_page)
                  (skipn (Z.to_nat ((page - 1) * per_page)) sorted) in
  Permutation sorted matching /\
  StronglySorted (desc PaymentResponse.created_at) sorted /\
  payment_service.get_payments c page per_page env w = (inr result, w) /\
  Z.of_nat (List.length result) <= per_page /\
  (forall r1 r2 r3 r4 r5,
     sorted = [r1; r2; r3; r4; r5] ->
     payment_service.get_payments c 2 2 env w = (inr [r3; r4], w)).
Proof.
  intros Hp Hpp Hc matching sorted result.
  split; [apply sort_desc_perm|].
  split; [apply sort_desc_sorted|].
  split; [now apply get_payments_run|].
  split.
  - pose proof (length_firstn_skipn_le (Z.to_nat per_page)
                  (Z.to_nat ((page - 1) * per_page)) sorted) as [_ H].
    fold result in H. lia.
  - intros r1 r2 r3 r4 r5 Hs.
    rewrite get_payments_run by (auto; lia).
    fold matching. fold sorted. rewrite Hs. reflexivity.
Qed.

Lemma get_payments_page_witness :
  let w := examples.two_payments in
  payment_service.get_payments None 2 1 examples.env w
    = (inr [examples.payment "p1" (Some "cus_A") 1], w).
Proof.
  intros w.
  assert (H1 : 1 <= 2) by lia.
  assert (H2 : 1 <= 1) by lia.
  assert (H3 : @None string <> Some "") by discriminate.
  exact (proj1 (proj2 (proj2
           (get_payments_page examples.env w None 2 1 H1 H2 H3)))).
Defined.

(** Five stored records, page 2 of size 2: the third and fourth newest. *)
Example get_payments_five_records :
  fst (payment_service.get_payments None 2 2 examples.env
         examples.five_payments)
  = inr [ examples.payment "a" (Some "cus_A") 30;
          examples.payment "d" None 20 ] /\
  fst (payment_service.get_payments (Some "cus_A") 1 2 examples.env
         examples.five_payments)
  = inr [ examples.payment "c" (Some "cus_A") 50;
          examples.payment "e" (Some "cus_A") 40 ].
Proof. split; reflexivity. Qed.

(** C4, as stated, fails for the empty-string filter: it is treated as
    no filter, so records of other customers are listed although none
    matches it. *)
Lemma get_payments_empty_filter :
  let w := examples.two_payments in
  fst (payment_service.get_payments (Some "") 1 10 examples.env w)
    = inr [ examples.payment "p2" (Some "cus_B") 2;
            examples.payment "p1" (Some "cus_A") 1 ] /\
  filter (matches_customer (Some "")) (PyDict.values (_payments w)) = [].
Proof. split; reflexivity. Qed.

(** C8.  The list of refunds always reports [has_more = false]: the
    route body does for every filter and every limit, so the route
    answers either 200 with [has_more = false] or, for a limit that is
    above 100 or not an integer, the validation error; this is so even
    when the listing was cut to the limit and more refunds match, as for
    three stored refunds and a limit of 2. *)
Theorem refund_list_has_more_false env w payment_intent_id :
  (forall limit, exists refunds,
     refund_service.list_refunds payment_intent_id limit env w
       = (inr refunds, w) /\
     api_refunds.list_refunds payment_intent_id limit env w
       = (inr (RefundList (RefundListResponse.mk refunds
                 (Z.of_nat (List.length refunds)) false)), w)) /\
  (forall q,
     let r := fst (api_refunds.GET_list payment_intent_id q env w) in
     (status_code r = 200 /\ has_more_field r = Some false) \/
     r = main.request_validation_error) /\
  (let r := fst (api_refunds.GET_list (Some "pi_3Nabc") (q_value 2) env
                   examples.three_refunds) in
   has_more_field r = Some false /\
   exists b, content r = RefundList b /\
     List.length (RefundListResponse.refunds b) = 2%nat /\
     List.length
       (filter (fun x => String.eqb (RefundResponse.payment_intent_id x)
                                    "pi_3Nabc")
               (PyDict.values (_refunds examples.three_refunds))) = 3%nat).
Proof.
  split; [|split].
  - intros limit.
    unfold api_refunds.list_refunds, refund_service.list_refunds,
      try_except, bind, get_world, ret.
    cbv beta iota zeta. eexists. split; reflexivity.
  - intros q. unfold api_refunds.GET_list.
    destruct (Query_int DEFAULT_PAGE_SIZE None (Some 100) q);
      simpl; [left; split; reflexivity | right; reflexivity].
  - split; [reflexivity|]. eexists. split; [reflexivity|].
    split; reflexivity.
Qed.

(** C9.  For accepted [page] and [per_page], both list routes answer 200
    with [total] equal to the size of the whole store, whatever the
    customer filter; the listing itself never holds more records than
    match the filter, so [total] can exceed what the filtered listing
    returns, as for two stored records of two customers. *)
Theorem list_total_counts_whole_store :
  (forall env w c page per_page,
     1 <= page -> 1 <= per_page <= 100 ->
     exists payments subscriptions,
       payment_service.get_payments c page per_page env w
         = (inr payments, w) /\
       api_payments.GET_list c (q_value page) (q_value per_page) env w
         = (mkResponse 200
              (PaymentList (PaymentListResponse.mk payments
                              (PyDict.len (_payments w)) page per_page)), w) /\
       subscription_service.get_subscriptions c page per_page env w
         = (inr subscriptions, w) /\
       api_subscriptions.GET_list c (q_value page) (q_value per_page) env w
         = (mkResponse 200
              (SubscriptionList (SubscriptionListResponse.mk subscriptions
                                   (PyDict.len (_subscriptions w))
                                   page per_page)), w) /\
       (c <> Some "" ->
        (List.length payments <=
         List.length (filter (matches_customer c)
                             (PyDict.values (_payments w))))%nat)) /\
  (PyDict.len (_payments examples.two_payments) = 2 /\
   List.length (filter (matches_customer (Some "cus_A"))
                  (PyDict.values (_payments examples.two_payments))) = 1%nat /\
   PyDict.len (_subscriptions examples.two_subscriptions) = 2 /\
   List.length (filter (fun s => String.eqb (SubscriptionResponse.customer_id s)
                                            "cus_A")
                  (PyDict.values (_subscriptions examples.two_subscriptions)))
     = 1%nat).
Proof.
  split; [|repeat split; reflexivity].
  intros env w c page per_page Hp [Hpp Hmax].
  assert (Hq1 : Query_int 1 (Some 1) None (q_value page) = Some page).
  { unfold Query_int. apply Z.leb_le in Hp. now rewrite Hp. }
  assert (Hq2 : Query_int DEFAULT_PAGE_SIZE (Some 1) (Some MAX_PAGE_SIZE)
                  (q_value per_page) = Some per_page).
  { unfold Query_int, MAX_PAGE_SIZE.
    apply Z.leb_le in Hpp, Hmax. now rewrite Hpp, Hmax. }
  unfold api_payments.GET_list, api_subscriptions.GET_list.
  rewrite Hq1, Hq2.
  unfold main.dispatch, main.serve, main.returning, api_payments.list_payments,
    api_subscriptions.list_subscriptions, try_except.
  destruct (payment_service.get_payments c page per_page env w)
    as [r1 w1] eqn:E1.
  destruct (subscription_service.get_subscriptions c page per_page env w)
    as [r2 w2] eqn:E2.
  unfold payment_service.get_payments, bind, get_world, ret in E1.
  unfold subscription_service.get_subscriptions, bind, get_world, ret in E2.
  cbv beta iota zeta in E1, E2.
  injection E1 as <- <-. injection E2 as <- <-.
  do 2 eexists.
  split; [reflexivity|]. split.
  { unfold bind, get_world, ret.
    unfold payment_service.get_payments, bind, get_world, ret.
    reflexivity. }
  split; [reflexivity|]. split.
  { unfold bind, get_world, ret.
    unfold subscription_service.get_subscriptions, bind, get_world, ret.
    reflexivity. }
  intros Hc.
  pose proof (get_payments_run env w c page per_page Hp Hpp Hc) as Hrun.
  unfold payment_service.get_payments, bind, get_world, ret in Hrun.
  cbv beta iota zeta in Hrun. injection Hrun as ->.
  eapply Nat.le_trans; [exact (proj1 (length_firstn_skipn_le _ _ _))|].
  now rewrite (Permutation_length (sort_desc_perm _ _)).
Qed.

Lemma list_total_counts_whole_store_witness :
  exists payments,
    payment_service.get_payments (Some "cus_A") 1 10 examples.env
      examples.two_payments = (inr payments, examples.two_payments) /\
    api_payments.GET_list (Some "cus_A") (q_value 1) (q_value 10) examples.env
      examples.two_payments
    = (mkResponse 200
         (PaymentList (PaymentListResponse.mk payments 2 1 10)),
       examples.two_payments) /\
    List.length payments = 1%nat.
Proof.
  assert (H1 : 1 <= 1) by lia.
  assert (H2 : 1 <= 10 <= 100) by lia.
  destruct (proj1 list_total_counts_whole_store examples.env
              examples.two_payments (Some "cus_A") 1 10 H1 H2)
    as (payments & subscriptions & Hget & Hroute & _).
  exists payments. split; [exact Hget|]. split; [exact Hroute|].
  injection Hget as <-. reflexivity.
Defined.

(* ================================================================== *)
(** * Further properties of the services *)

(** ** Stores keyed by record id *)

Section KeyedFacts.
Context {V : Type}.
Implicit Types (d : PyDict.t V) (k : string) (v : V).

Lemma keys_set_existing d k v v0 :
  PyDict.get d k = Some v0 -> PyDict.keys (PyDict.set d k v) = PyDict.keys d.
Proof.
  induction d as [|[k' v'] d IH]; simpl; [discriminate|].
  destruct (String.eqb k k') eqn:E; simpl; [reflexivity|].
  intros H. now rewrite IH.
Qed.

Lemma keys_set_new d k v :
  PyDict.get d k = None ->
  PyDict.keys (PyDict.set d k v) = (PyDict.keys d ++ [k])%list.
Proof.
  induction d as [|[k' v'] d IH]; simpl; [reflexivity|].
  destruct (String.eqb k k') eqn:E; simpl; [discriminate|].
  intros H. now rewrite IH.
Qed.

Lemma in_set d k v k' v' :
  In (k', v') (PyDict.set d k v) -> (k' = k /\ v' = v) \/ In (k', v') d.
Proof.
  induction d as [|[k0 v0] d IH]; simpl.
  - intros [H|[]]. injection H as <- <-. auto.
  - destruct (String.eqb k k0) eqn:E; simpl.
    + apply String.eqb_eq in E. subst k0.
      intros [H|H]; [injection H as <- <-; auto | auto].
    + intros [H|H]; [auto|]. destruct (IH H); auto.
Qed.

Lemma nodup_keys_set d k v :
  NoDup (PyDict.keys d) -> NoDup (PyDict.keys (PyDict.set d k v)).
Proof.
  intros Hnd. destruct (PyDict.get d k) as [v0|] eqn:E.
  - now rewrite (keys_set_existing d k v v0 E).
  - rewrite (keys_set_new d k v E).
    apply NoDup_app; [exact Hnd | repeat constructor; intros [] |].
    intros x Hx [<-|[]]. now apply get_None_not_key in E.
Qed.

Lemma len_set d k v :
  PyDict.len (PyDict.set d k v) =
  PyDict.len d + (if PyDict.contains d k then 0 else 1).
Proof.
  unfold PyDict.len, PyDict.contains.
  induction d as [|[k' v'] d IH]; simpl PyDict.set; simpl PyDict.get.
  - reflexivity.
  - destruct (String.eqb k k') eqn:E.
    + simpl. lia.
    + simpl List.length. rewrite !Nat2Z.inj_succ, IH.
      destruct (PyDict.get d k); lia.
Qed.

Variable ident : V -> string.

Lemma keyed_by_empty : keyed_by ident (@nil (string * V)).
Proof. split; [constructor | intros k v []]. Qed.

Lemma keyed_by_set d v :
  keyed_by ident d -> keyed_by ident (PyDict.set d (ident v) v).
Proof.
  intros [Hnd Hid]. split; [now apply nodup_keys_set|].
  intros k v' Hin. apply in_set in Hin.
  destruct Hin as [[-> ->]|Hin]; auto.
Qed.

Lemma keyed_by_get d k v :
  keyed_by ident d -> In (k, v) d -> PyDict.get d k = Some v.
Proof.
  intros [Hnd _]. induction d as [|[k' v'] d IH]; simpl; [intros []|].
  inversion Hnd as [|? ? Hnotin Hnd']; subst.
  intros [H|H].
  - injection H as -> ->. now rewrite String.eqb_refl.
  - destruct (String.eqb k k') eqn:E; [|auto].
    apply String.eqb_eq in E. subst k'. exfalso. apply Hnotin.
    change (In (fst (k, v)) (map fst d)). now apply in_map.
Qed.

Lemma get_in d k v : PyDict.get d k = Some v -> In (k, v) d.
Proof.
  induction d as [|[k' v'] d IH]; simpl; [discriminate|].
  destruct (String.eqb k k') eqn:E.
  - apply String.eqb_eq in E. intros H. injection H as ->. subst. auto.
  - auto.
Qed.

Lemma store_step_keyed d d' :
  store_step ident d d' -> keyed_by ident d -> keyed_by ident d'.
Proof.
  intros [->|[v ->]] H; [exact H | now apply keyed_by_set].
Qed.
End KeyedFacts.

(** ** Status updates *)

(** X1.  [update_payment_status] on an id that is not stored returns
    [None] and changes nothing, the clock is not even read.  On a stored
    id it returns the record with the new status and a new [updated_at],
    stores it in the place of the old one, and leaves every other field,
    every other record, the order of the store and the other stores as
    they were. *)
Theorem update_payment_status_effect env w payment_id status :
  match PyDict.get (_payments w) payment_id with
  | None =>
      payment_service.update_payment_status payment_id status env w
      = (inr None, w)
  | Some p =>
      let now := time_of env (clock_reads w) in
      let run := payment_service.update_payment_status payment_id status env w in
      let p' := payment_service.set_status p status now in
      fst run = inr (Some p') /\
      PyDict.get (_payments (snd run)) payment_id = Some p' /\
      PyDict.keys (_payments (snd run)) = PyDict.keys (_payments w) /\
      (forall k, k <> payment_id ->
         PyDict.get (_payments (snd run)) k = PyDict.get (_payments w) k) /\
      PaymentResponse.status p' = status /\
      PaymentResponse.updated_at p' = now /\
      PaymentResponse.id p' = PaymentResponse.id p /\
      PaymentResponse.amount p' = PaymentResponse.amount p /\
      PaymentResponse.created_at p' = PaymentResponse.created_at p /\
      PaymentResponse.stripe_payment_intent_id p'
        = PaymentResponse.stripe_payment_intent_id p /\
      _refunds (snd run) = _refunds w /\
      _subscriptions (snd run) = _subscriptions w /\
      stripe_calls (snd run) = stripe_calls w
  end.
Proof.
  unfold payment_service.update_payment_status, bind, get_world, put_world,
    utcnow, ret.
  cbv beta iota.
  destruct (PyDict.get (_payments w) payment_id) as [p|] eqn:E;
    [|reflexivity].
  cbv zeta. simpl fst. simpl snd. simpl _payments.
  split; [reflexivity|].
  split; [apply get_set_same|].
  split; [eapply keys_set_existing; exact E|].
  split; [intros k Hk; apply get_set_other; congruence|].
  repeat split; reflexivity.
Qed.

(** X2.  [update_subscription_status] behaves in the same way on the
    subscription store: nothing happens for an unknown id; for a stored
    id only [status] and [updated_at] change, in place, and no call goes
    to the provider. *)
Theorem update_subscription_status_effect env w subscription_id status :
  match PyDict.get (_subscriptions w) subscription_id with
  | None =>
      subscription_status.update_subscription_status subscription_id status
        env w = (inr None, w)
  | Some s =>
      let now := time_of env (clock_reads w) in
      let run := subscription_status.update_subscription_status
                   subscription_id status env w in
      let s' := subscription_status.set_status s status now in
      fst run = inr (Some s') /\
      PyDict.get (_subscriptions (snd run)) subscription_id = Some s' /\
      PyDict.keys (_subscriptions (snd run)) = PyDict.keys (_subscriptions w) /\
      (forall k, k <> subscription_id ->
         PyDict.get (_subscriptions (snd run)) k
         = PyDict.get (_subscriptions w) k) /\
      SubscriptionResponse.status s' = status /\
      SubscriptionResponse.updated_at s' = now /\
      SubscriptionResponse.id s' = SubscriptionResponse.id s /\
      SubscriptionResponse.cancel_at_period_end s'
        = SubscriptionResponse.cancel_at_period_end s /\
      SubscriptionResponse.canceled_at s' = SubscriptionResponse.canceled_at s /\
      _payments (snd run) = _payments w /\
      stripe_calls (snd run) = stripe_calls w
  end.
Proof.
  unfold subscription_status.update_subscription_status, bind, get_world,
    put_world, utcnow, ret.
  cbv beta iota.
  destruct (PyDict.get (_subscriptions w) subscription_id) as [s|] eqn:E;
    [|reflexivity].
  cbv zeta. simpl fst. simpl snd. simpl _subscriptions.
  split; [reflexivity|].
  split; [apply get_set_same|].
  split; [eapply keys_set_existing; exact E|].
  split; [intros k Hk; apply get_set_other; congruence|].
  repeat split; reflexivity.
Qed.

(** ** An invariant of the three stores *)

Lemma app_stores_step r env w :
  store_step PaymentResponse.id (_payments w) (_payments (snd (app r env w))) /\
  store_step RefundResponse.id (_refunds w) (_refunds (snd (app r env w))) /\
  store_step SubscriptionResponse.id (_subscriptions w)
             (_subscriptions (snd (app r env w))).
Proof.
  unfold store_step. destruct r; simpl.
  - unfold api_payments.POST_create.
    destruct (api_payments.validate_body body) as [req|];
      [destruct (Query_bool false test_mode) as [tm|]|];
      try (simpl; auto).
    unfold main.dispatch, main.serve, main.returning, api_payments.create_payment,
      try_except, bind.
    destruct (create_payment_run env w req tm) as (kwargs & _ & Hrun).
    rewrite Hrun.
    destruct (PaymentIntent_create_result env (stripe_calls w) kwargs);
      simpl; [auto|].
    split; [right; match goal with |- context [PyDict.set _ _ ?v] => exists v end; reflexivity | auto].
  - unfold api_payments.GET_payment, api_payments.get_payment,
      payment_service.get_payment. run_route.
    destruct (PyDict.get (_payments w) payment_id); simpl; auto.
  - unfold api_payments.GET_list, api_payments.list_payments,
      payment_service.get_payments.
    destruct (Query_int 1 (Some 1) None page);
      [destruct (Query_int DEFAULT_PAGE_SIZE (Some 1) (Some MAX_PAGE_SIZE)
                   per_page)|];
      run_route; auto.
  - unfold api_refunds.POST_create, api_refunds.create_refund,
      refund_service.create_refund, stripe_service.create_refund.
    destruct (api_refunds.validate_body body) as [req|]; run_route; auto.
    match goal with
    | |- context [Refund_create_result env ?h ?k] =>
        destruct (Refund_create_result env h k)
    end; simpl; [auto|].
    split; [auto|]. split; [right; match goal with |- context [PyDict.set _ _ ?v] => exists v end; reflexivity | auto].
  - unfold api_refunds.GET_refund, api_refunds.get_refund,
      refund_service.get_refund. run_route.
    destruct (PyDict.get (_refunds w) refund_id); simpl; auto.
  - unfold api_refunds.GET_list, api_refunds.list_refunds,
      refund_service.list_refunds.
    destruct (Query_int DEFAULT_PAGE_SIZE None (Some 100) limit);
      run_route; auto.
  - destruct (api_subscriptions.validate_body body) as [req|] eqn:Hb.
    + destruct (POST_create_subscription_run env w body req Hb)
        as (kwargs & Hrun).
      destruct (Subscription_create_result env (stripe_calls w) kwargs);
        [rewrite Hrun | destruct Hrun as [[m ->]|[sb ->]]];
        simpl; [auto | auto |].
      split; [auto|]. split; [auto|]. right. exists sb. reflexivity.
    + unfold api_subscriptions.POST_create. rewrite Hb. simpl. auto.
  - unfold api_subscriptions.GET_subscription. run_route. auto.
  - unfold api_subscriptions.POST_cancel. run_route. auto.
  - unfold api_subscriptions.GET_list, api_subscriptions.list_subscriptions,
      subscription_service.get_subscriptions.
    destruct (Query_int 1 (Some 1) None page);
      [destruct (Query_int DEFAULT_PAGE_SIZE (Some 1) (Some MAX_PAGE_SIZE)
                   per_page)|];
      run_route; auto.
Qed.

(** X3.  In every state the application can reach, each of the three
    stores holds every record under the record's own id, and no id twice:
    looking up the id of any listed record gives that record back. *)
Theorem reachable_stores_keyed env w :
  reachable env w ->
  keyed_by PaymentResponse.id (_payments w) /\
  keyed_by RefundResponse.id (_refunds w) /\
  keyed_by SubscriptionResponse.id (_subscriptions w) /\
  (forall p, In p (PyDict.values (_payments w)) ->
     PyDict.get (_payments w) (PaymentResponse.id p) = Some p) /\
  (forall r, In r (PyDict.values (_refunds w)) ->
     PyDict.get (_refunds w) (RefundResponse.id r) = Some r) /\
  (forall s, In s (PyDict.values (_subscriptions w)) ->
     PyDict.get (_subscriptions w) (SubscriptionResponse.id s) = Some s).
Proof.
  intros Hreach.
  assert (H : keyed_by PaymentResponse.id (_payments w) /\
              keyed_by RefundResponse.id (_refunds w) /\
              keyed_by SubscriptionResponse.id (_subscriptions w)).
  { induction Hreach as [|w r Hr (Hp & Hf & Hs)].
    - split; [|split]; apply keyed_by_empty.
    - destruct (app_stores_step r env w) as (Sp & Sf & Ss).
      split; [|split]; eapply store_step_keyed; eauto. }
  destruct H as (Hp & Hf & Hs).
  split; [exact Hp|]. split; [exact Hf|]. split; [exact Hs|].
  split; [|split].
  - intros p Hin. apply in_map_iff in Hin. destruct Hin as ([k v] & <- & Hin).
    simpl. rewrite (proj2 Hp k v Hin). now apply (keyed_by_get _ _ _ _ Hp).
  - intros p Hin. apply in_map_iff in Hin. destruct Hin as ([k v] & <- & Hin).
    simpl. rewrite (proj2 Hf k v Hin). now apply (keyed_by_get _ _ _ _ Hf).
  - intros p Hin. apply in_map_iff in Hin. destruct Hin as ([k v] & <- & Hin).
    simpl. rewrite (proj2 Hs k v Hin). now apply (keyed_by_get _ _ _ _ Hs).
Qed.

Lemma reachable_stores_keyed_witness :
  let req := examples.payment_request examples.amount_20_00 (Some "cus_A") in
  let w := snd (app (POST_refunds_create
                       (Some (RefundCreateRequest.mk "pi_3Nabc" None None)))
                  examples.env
                  (snd (app (POST_payments_create (Some req) q_absent)
                          examples.env initial_world))) in
  PyDict.keys (_payments w) = ["uuid-"] /\
  PyDict.keys (_refunds w) = ["re_1"] /\
  keyed_by PaymentResponse.id (_payments w) /\
  keyed_by RefundResponse.id (_refunds w).
Proof.
  intros req w. split; [reflexivity|]. split; [reflexivity|].
  assert (Hr : reachable examples.env w).
  { apply reachable_request, reachable_request, reachable_initial. }
  destruct (reachable_stores_keyed examples.env w Hr) as (Hp & Hf & _).
  split; assumption.
Defined.

(** ** Paging through a listing *)

Lemma firstn_plus_skipn {A} (a b : nat) (l : list A) :
  firstn (a + b) l = (firstn a l ++ firstn b (skipn a l))%list.
Proof.
  revert l. induction a as [|a IH]; intros l; simpl; [reflexivity|].
  destruct l as [|x l]; simpl.
  - now rewrite firstn_nil.
  - now rewrite IH.
Qed.

Lemma pages_concat {A} (s n : nat) (l : list A) :
  List.concat (map (fun k => firstn s (skipn (k * s) l)) (seq 0 n))
  = firstn (n * s) l.
Proof.
  induction n as [|n IH]; [reflexivity|].
  rewrite seq_S, map_app, concat_app, IH. simpl.
  rewrite app_nil_r. replace (s + n * s)%nat with (n * s + s)%nat by lia.
  now rewrite firstn_plus_skipn.
Qed.

Lemma py_slice_nil {A} (start stop : Z) : py_slice (@nil A) start stop = [].
Proof.
  unfold py_slice. destruct (_ <? _); [|reflexivity].
  now rewrite skipn_nil, firstn_nil.
Qed.

Lemma filter_none {A} (f : A -> bool) (l : list A) :
  (forall x, In x l -> f x = false) -> filter f l = [].
Proof.
  induction l as [|x l IH]; simpl; [reflexivity|].
  intros H. rewrite (H x) by auto. auto.
Qed.

(** X4.  Pages tile the sorted sequence: for a page size of at least 1
    and a filter that is absent or not empty, pages 1 to [n] of
    [get_payments], one after the other, are the first [n * per_page]
    records of the matching records sorted newest first; once that covers
    the sequence, every matching record has been listed exactly once, and
    a page that starts past the end is empty. *)
Theorem get_payments_pages_cover env w c per_page n :
  1 <= per_page -> c <> Some "" ->
  let matching := filter (matches_customer c) (PyDict.values (_payments w)) in
  let sorted := sort_desc PaymentResponse.created_at matching in
  let pages :=
    List.concat (map (fun k =>
                   returned (fst (payment_service.get_payments c
                                    (Z.of_nat k + 1) per_page env w)))
                (seq 0 n)) in
  pages = firstn (n * Z.to_nat per_page) sorted /\
  ((List.length matching <= n * Z.to_nat per_page)%nat ->
   pages = sorted /\ Permutation pages matching) /\
  (forall page,
     1 <= page ->
     Z.of_nat (List.length matching) <= (page - 1) * per_page ->
     payment_service.get_payments c page per_page env w = (inr [], w)).
Proof.
  intros Hpp Hc matching sorted pages.
  assert (Hpages : pages = firstn (n * Z.to_nat per_page) sorted).
  { unfold pages. rewrite <- pages_concat. f_equal.
    apply map_ext. intros k.
    rewrite get_payments_run by (auto; lia). simpl.
    fold matching. fold sorted. do 2 f_equal. nia. }
  assert (Hlen : List.length sorted = List.length matching)
    by apply Permutation_length, sort_desc_perm.
  split; [exact Hpages|]. split.
  - intros Hcover. rewrite Hpages.
    rewrite firstn_all2 by lia.
    split; [reflexivity | apply sort_desc_perm].
  - intros page Hp Hpast.
    rewrite get_payments_run by auto.
    fold matching. fold sorted.
    rewrite skipn_all2 by lia. now rewrite firstn_nil.
Qed.

Lemma get_payments_pages_cover_witness :
  let w := examples.five_payments in
  List.concat (map (fun k =>
                 returned (fst (payment_service.get_payments None
                                  (Z.of_nat k + 1) 2 examples.env w)))
              (seq 0 3))
  = firstn (3 * Z.to_nat 2)
      (sort_desc PaymentResponse.created_at
         (filter (matches_customer None) (PyDict.values (_payments w)))).
Proof.
  intros w.
  assert (H1 : 1 <= 2) by lia.
  assert (H2 : @None string <> Some "") by discriminate.
  exact (proj1 (get_payments_pages_cover examples.env w None 2 3 H1 H2)).
Defined.

(** X5.  A customer filter that no stored record matches gives the empty
    listing, for every [page] and [per_page] whatever their sign, and
    through the route a 200 with an empty list (the total still counts
    the whole store). *)
Theorem get_payments_no_match env w c :
  truthy_str c = true ->
  (forall p, In p (PyDict.values (_payments w)) ->
             opt_str_eqb (PaymentResponse.customer_id p) c = false) ->
  (forall page per_page,
     payment_service.get_payments c page per_page env w = (inr [], w)) /\
  (forall page per_page,
     1 <= page -> 1 <= per_page <= 100 ->
     api_payments.GET_list c (q_value page) (q_value per_page) env w
     = (mkResponse 200
          (PaymentList (PaymentListResponse.mk []
                          (PyDict.len (_payments w)) page per_page)), w)).
Proof.
  intros Ht Hnone.
  assert (Hrun : forall page per_page,
             payment_service.get_payments c page per_page env w
             = (inr [], w)).
  { intros page per_page.
    unfold payment_service.get_payments, bind, get_world, ret.
    cbv beta iota zeta. rewrite Ht, filter_none by exact Hnone.
    change (sort_desc PaymentResponse.created_at [])
      with (@nil PaymentResponse.t).
    now rewrite py_slice_nil. }
  split; [exact Hrun|].
  intros page per_page Hp [Hpp Hmax].
  unfold api_payments.GET_list, Query_int, MAX_PAGE_SIZE.
  apply Z.leb_le in Hp, Hpp, Hmax. rewrite Hp, Hpp, Hmax. simpl.
  unfold main.dispatch, main.serve, main.returning, api_payments.list_payments, try_except,
    bind at 1 2.
  rewrite Hrun. reflexivity.
Qed.

Lemma get_payments_no_match_witness :
  payment_service.get_payments (Some "cus_Z") (-3) 0 examples.env
    examples.two_payments = (inr [], examples.two_payments) /\
  api_payments.GET_list (Some "cus_Z") (q_value 1) (q_value 10) examples.env
    examples.two_payments
  = (mkResponse 200 (PaymentList (PaymentListResponse.mk [] 2 1 10)),
     examples.two_payments).
Proof.
  assert (H1 : truthy_str (Some "cus_Z") = true) by reflexivity.
  assert (H2 : forall p,
             In p (PyDict.values (_payments examples.two_payments)) ->
             opt_str_eqb (PaymentResponse.customer_id p) (Some "cus_Z")
             = false)
    by (intros p [<-|[<-|[]]]; reflexivity).
  destruct (get_payments_no_match examples.env examples.two_payments
              (Some "cus_Z") H1 H2) as [Hs Hr].
  split; [apply Hs | apply Hr; lia].
Defined.

Lemma in_firstn_skipn {A} (n m : nat) (l : list A) (x : A) :
  In x (firstn n (skipn m l)) -> In x l.
Proof.
  intros H.
  assert (Hs : In x (skipn m l)).
  { rewrite <- (firstn_skipn n (skipn m l)). apply in_or_app. now left. }
  rewrite <- (firstn_skipn m l). apply in_or_app. now right.
Qed.

(** [get_subscriptions], as [get_payments_run]. *)
Lemma get_subscriptions_run env w c page per_page :
  1 <= page -> 1 <= per_page -> c <> Some "" ->
  subscription_service.get_subscriptions c page per_page env w =
  (inr (firstn (Z.to_nat per_page)
          (skipn (Z.to_nat ((page - 1) * per_page))
             (sort_desc SubscriptionResponse.created_at
                (filter (matches_subscription_customer c)
                        (PyDict.values (_subscriptions w)))))), w).
Proof.
  intros Hp Hpp Hc.
  unfold subscription_service.get_subscriptions, bind, get_world, ret.
  cbv beta iota. rewrite py_slice_offset by nia.
  do 3 f_equal.
  destruct c as [s|]; simpl.
  - destruct (String.eqb s "") eqn:E.
    + apply String.eqb_eq in E. congruence.
    + reflexivity.
  - now rewrite filter_all.
Qed.

(** X6.  [get_subscriptions] pages in the same way as [get_payments]: for
    [page] and [per_page] of at least 1 and a filter that is absent or
    not empty, the result is a page of the subscriptions of that customer
    sorted by creation time, newest first, of at most [per_page] records,
    and the state is unchanged. *)
Theorem get_subscriptions_page env w c page per_page :
  1 <= page -> 1 <= per_page -> c <> Some "" ->
  let matching := filter (matches_subscription_customer c)
                    (PyDict.values (_subscriptions w)) in
  let sorted := sort_desc SubscriptionResponse.created_at matching in
  let result := firstn (Z.to_nat per_page)
                  (skipn (Z.to_nat ((page - 1) * per_page)) sorted) in
  Permutation sorted matching /\
  StronglySorted (desc SubscriptionResponse.created_at) sorted /\
  subscription_service.get_subscriptions c page per_page env w
    = (inr result, w) /\
  Z.of_nat (List.length result) <= per_page /\
  (forall s, In s result ->
     In s (PyDict.values (_subscriptions w)) /\
     matches_subscription_customer c s = true).
Proof.
  intros Hp Hpp Hc matching sorted result.
  split; [apply sort_desc_perm|].
  split; [apply sort_desc_sorted|].
  split; [now apply get_subscriptions_run|].
  split.
  - pose proof (length_firstn_skipn_le (Z.to_nat per_page)
                  (Z.to_nat ((page - 1) * per_page)) sorted) as [_ H].
    fold result in H. lia.
  - intros s Hin. unfold result in Hin.
    apply in_firstn_skipn in Hin.
    apply (Permutation_in _ (sort_desc_perm _ _)) in Hin.
    unfold matching in Hin. now apply filter_In in Hin.
Qed.

Lemma get_subscriptions_page_witness :
  subscription_service.get_subscriptions (Some "cus_B") 1 10 examples.env
    examples.two_subscriptions
  = (inr [examples.subscription_record "s2" "cus_B" 2],
     examples.two_subscriptions).
Proof.
  assert (H1 : 1 <= 1) by lia.
  assert (H2 : 1 <= 10) by lia.
  assert (H3 : Some "cus_B" <> Some "") by discriminate.
  exact (proj1 (proj2 (proj2
           (get_subscriptions_page examples.env examples.two_subscriptions
              (Some "cus_B") 1 10 H1 H2 H3)))).
Defined.

(** ** Refunds *)

(** The call [create_refund] sends and what it returns, in one equation:
    the amount travels only when its minor-unit value is not zero. *)
Lemma create_refund_run env w pid amount reason :
  let cents :=
    match amount with
    | Some a => if Decimal.truthy a
                then Some (Decimal.to_int (Decimal.mul_int a 100)) else None
    | None => None
    end in
  let kwargs : PyDict.t PyVal :=
    if truthy_int cents
    then [("payment_intent", VStr pid); ("amount", stripe_service.opt_int cents)]
    else [("payment_intent", VStr pid)] in
  refund_service.create_refund pid amount reason env w =
  match Refund_create_result env (stripe_calls w) kwargs with
  | inl e =>
      (inl e, with_stripe_calls w
                (stripe_calls w ++ [stripe.Refund_create kwargs]))
  | inr sr =>
      let r := RefundResponse.mk (stripe.re_id sr) (stripe.re_payment_intent sr)
                 (Decimal.of_cents (stripe.re_amount sr))
                 (stripe.re_currency sr) (stripe.re_status sr) reason
                 (stripe.re_created sr) in
      (inr r,
       mkWorld (_payments w)
               (PyDict.set (_refunds w) (stripe.re_id sr) r)
               (_subscriptions w)
               (stripe_calls w ++ [stripe.Refund_create kwargs])
               (uuids_drawn w) (clock_reads w))
  end.
Proof.
  intros cents kwargs.
  unfold refund_service.create_refund, stripe_service.create_refund,
    stripe_service.send, bind.
  fold cents. unfold kwargs.
  destruct (truthy_int cents); simpl;
    match goal with
    | |- context [Refund_create_result env ?h ?k] =>
        destruct (Refund_create_result env h k); reflexivity
    end.
Qed.

(** X7.  A positive refund amount below one minor unit passes the
    request validation, but [int(amount * 100)] is 0 and a zero amount is
    not sent: the refund runs exactly as if the amount had been omitted,
    so the provider is asked for a full refund. *)
Theorem create_refund_subcent_amount env w pid a reason :
  Decimal.gt0 a = true ->
  Decimal.to_int (Decimal.mul_int a 100) = 0 ->
  api_refunds.validate_body
    (Some (RefundCreateRequest.mk pid (Some a) reason))
    = Some (RefundCreateRequest.mk pid (Some a) reason) /\
  refund_service.create_refund pid (Some a) reason env w
    = refund_service.create_refund pid None reason env w /\
  api_refunds.POST_create
    (Some (RefundCreateRequest.mk pid (Some a) reason)) env w
    = api_refunds.POST_create
        (Some (RefundCreateRequest.mk pid None reason)) env w /\
  stripe_calls
    (snd (refund_service.create_refund pid (Some a) reason env w))
    = (stripe_calls w
       ++ [stripe.Refund_create [("payment_intent", VStr pid)]])%list.
Proof.
  intros Hpos Hzero.
  assert (Hrun : refund_service.create_refund pid (Some a) reason env w
                 = refund_service.create_refund pid None reason env w).
  { rewrite !create_refund_run. cbv zeta.
    destruct (Decimal.truthy a); [rewrite Hzero|]; reflexivity. }
  split.
  { unfold api_refunds.validate_body. simpl. now rewrite Hpos. }
  split; [exact Hrun|]. split.
  - unfold api_refunds.POST_create, api_refunds.validate_body. simpl.
    rewrite Hpos. simpl option_map.
    unfold main.dispatch, main.serve, main.returning, api_refunds.create_refund, try_except,
      bind.
    cbn [RefundCreateRequest.payment_intent_id RefundCreateRequest.amount
         RefundCreateRequest.reason].
    now rewrite Hrun.
  - rewrite Hrun, create_refund_run. cbv zeta. simpl truthy_int. cbv iota.
    destruct (Refund_create_result env (stripe_calls w)
                [("payment_intent", VStr pid)]); reflexivity.
Qed.

Lemma create_refund_subcent_amount_witness :
  refund_service.create_refund "pi_3Nabc" (Some examples.amount_0_005) None
    examples.env initial_world
  = refund_service.create_refund "pi_3Nabc" None None
      examples.env initial_world /\
  stripe_calls
    (snd (refund_service.create_refund "pi_3Nabc"
            (Some examples.amount_0_005) None examples.env initial_world))
  = ([] ++ [stripe.Refund_create [("payment_intent", VStr "pi_3Nabc")]])%list.
Proof.
  assert (H1 : Decimal.gt0 examples.amount_0_005 = true) by reflexivity.
  assert (H2 : Decimal.to_int (Decimal.mul_int examples.amount_0_005 100) = 0)
    by reflexivity.
  destruct (create_refund_subcent_amount examples.env initial_world "pi_3Nabc"
              examples.amount_0_005 None H1 H2) as (_ & Hrun & _ & Hcalls).
  split; [exact Hrun | exact Hcalls].
Defined.


(** X9.  A refund that the provider accepts is recorded from the
    provider's answer: id, payment intent, amount (minor units turned
    back into a decimal), currency, status and creation time are the
    provider's, only the reason is the caller's.  The record is stored
    under the provider's id, replacing a record that already has it, and
    [get_refund] with that id returns it; payments and subscriptions are
    untouched. *)
Theorem create_refund_records_provider_answer env w pid amount reason r w' :
  refund_service.create_refund pid amount reason env w = (inr r, w') ->
  exists kwargs sr,
    Refund_create_result env (stripe_calls w) kwargs = inr sr /\
    RefundResponse.id r = stripe.re_id sr /\
    RefundResponse.payment_intent_id r = stripe.re_payment_intent sr /\
    RefundResponse.amount r = Decimal.of_cents (stripe.re_amount sr) /\
    RefundResponse.currency r = stripe.re_currency sr /\
    RefundResponse.status r = stripe.re_status sr /\
    RefundResponse.created_at r = stripe.re_created sr /\
    RefundResponse.reason r = reason /\
    _refunds w' = PyDict.set (_refunds w) (RefundResponse.id r) r /\
    refund_service.get_refund (RefundResponse.id r) env w'
      = (inr (Some r), w') /\
    PyDict.len (_refunds w')
      = PyDict.len (_refunds w)
        + (if PyDict.contains (_refunds w) (RefundResponse.id r)
           then 0 else 1) /\
    _payments w' = _payments w /\
    _subscriptions w' = _subscriptions w.
Proof.
  rewrite create_refund_run. cbv zeta.
  match goal with
  | |- context [Refund_create_result env ?h ?k] =>
      destruct (Refund_create_result env h k) as [e|sr] eqn:E;
      [discriminate|]; intros H; injection H as <- <-; exists k, sr
  end.
  split; [exact E|].
  do 7 (split; [reflexivity|]).
  split; [reflexivity|]. split.
  - unfold refund_service.get_refund, bind, get_world, ret. cbv beta iota.
    do 2 f_equal. apply get_set_same.
  - split; [apply len_set|]. split; reflexivity.
Qed.

Lemma create_refund_records_provider_answer_witness :
  let run := refund_service.create_refund "pi_other" None
               (Some REQUESTED_BY_CUSTOMER) examples.env
               examples.three_refunds in
  exists r,
    fst run = inr r /\
    RefundResponse.payment_intent_id r = "pi_3Nabc" /\
    RefundResponse.amount r = Decimal.mk 20 0 /\
    RefundResponse.reason r = Some REQUESTED_BY_CUSTOMER /\
    PyDict.len (_refunds (snd run)) = 3.
Proof.
  intros run. eexists. split; [cbv; reflexivity|].
  destruct (create_refund_records_provider_answer examples.env
              examples.three_refunds "pi_other" None
              (Some REQUESTED_BY_CUSTOMER) _ (snd run) eq_refl)
    as (kwargs & sr & Hsr & _ & Hpi & Ham & _ & _ & _ & Hre & _ & _ & Hlen & _).
  injection Hsr as <-.
  split; [exact Hpi|]. split; [exact Ham|]. split; [exact Hre|exact Hlen].
Defined.


Lemma fix_prec_small (c e : Z) :
  Z.abs c < 10 ^ Decimal.prec ->
  Decimal.fix_prec (Decimal.mk c e) = Decimal.mk c e.
Proof.
  intros H. unfold Decimal.fix_prec. simpl Decimal.coeff.
  apply Z.ltb_lt in H. now rewrite H.
Qed.

(** X10.  Minor units survive the trip through the record: for an
    amount of fewer than 27 digits, [Decimal(n) / 100] denotes exactly
    [n / 100], and converting it back with [int(d * 100)] gives [n]
    again. *)
Theorem of_cents_round_trip (n : Z) :
  Z.abs n < 10 ^ 26 ->
  (Decimal.value (Decimal.of_cents n) == n # 100)%Q /\
  Decimal.to_int (Decimal.mul_int (Decimal.of_cents n) 100) = n.
Proof.
  intros Hn.
  assert (H28 : 10 ^ Decimal.prec = 100 * 10 ^ 26) by reflexivity.
  unfold Decimal.of_cents.
  destruct (n mod 100 =? 0) eqn:E100.
  - apply Z.eqb_eq in E100.
    pose proof (Z.div_mod n 100 ltac:(lia)) as Hd.
    rewrite fix_prec_small by (rewrite H28; lia).
    split.
    + unfold Decimal.value, Qeq. simpl. lia.
    + rewrite mul_int_exact by (simpl Decimal.coeff; rewrite H28; lia).
      unfold Decimal.to_int. simpl. lia.
  - destruct (n mod 10 =? 0) eqn:E10.
    + apply Z.eqb_eq in E10.
      pose proof (Z.div_mod n 10 ltac:(lia)) as Hd.
      rewrite fix_prec_small by (rewrite H28; lia).
      split.
      * unfold Decimal.value, Qeq. simpl. lia.
      * rewrite mul_int_exact by (simpl Decimal.coeff; rewrite H28; lia).
        unfold Decimal.to_int. simpl.
        change (Z.pow_pos 10 1) with 10.
        replace (n / 10 * 100) with (n * 10) by lia.
        apply Z.quot_mul. lia.
    + rewrite fix_prec_small by (rewrite H28; lia).
      split.
      * unfold Decimal.value, Qeq. simpl. reflexivity.
      * rewrite mul_int_exact by (simpl Decimal.coeff; rewrite H28; lia).
        unfold Decimal.to_int. simpl.
        change (Z.pow_pos 10 2) with 100.
        apply Z.quot_mul. lia.
Qed.

Lemma of_cents_round_trip_witness :
  (Decimal.value (Decimal.of_cents 1050) == 1050 # 100)%Q /\
  Decimal.to_int (Decimal.mul_int (Decimal.of_cents 1050) 100) = 1050.
Proof.
  apply (of_cents_round_trip 1050). simpl. lia.
Defined.

(** A slice from the start: [l[:limit]]. *)
Lemma py_slice_prefix {A} (l : list A) (limit : Z) :
  py_slice l 0 limit =
  if 0 <=? limit
  then firstn (Z.to_nat limit) l
  else firstn (List.length l - Z.to_nat (- limit)) l.
Proof.
  destruct (0 <=? limit) eqn:E.
  - apply Z.leb_le in E.
    rewrite <- (Z.add_0_l limit) at 1.
    now rewrite py_slice_offset by lia.
  - apply Z.leb_gt in E. unfold py_slice, slice_index.
    set (n := Z.of_nat (List.length l)).
    assert (Hn : 0 <= n) by (unfold n; lia).
    change (0 <? 0) with false. cbv iota.
    assert (El : (limit <? 0) = true) by (apply Z.ltb_lt; lia).
    rewrite El, Z.min_l by lia.
    destruct (0 <? Z.max (limit + n) 0) eqn:E2.
    + simpl skipn. f_equal. unfold n. lia.
    + apply Z.ltb_ge in E2.
      replace (List.length l - Z.to_nat (- limit))%nat with 0%nat
        by (unfold n in *; lia).
      reflexivity.
Qed.

(** [list_refunds] for a filter that is absent or not empty. *)
Lemma list_refunds_run env w pid limit :
  pid <> Some "" ->
  refund_service.list_refunds pid limit env w =
    (inr (let sorted := sort_desc RefundResponse.created_at
                          (filter (matches_payment_intent pid)
                                  (PyDict.values (_refunds w))) in
          if 0 <=? limit
          then firstn (Z.to_nat limit) sorted
          else firstn (List.length sorted - Z.to_nat (- limit)) sorted), w).
Proof.
  intros Hp.
  unfold refund_service.list_refunds, bind, get_world, ret.
  cbv beta iota zeta. rewrite py_slice_prefix.
  assert (Hs : sort_desc RefundResponse.created_at
                 (if truthy_str pid
                  then filter (fun r => opt_str_eqb
                                 (Some (RefundResponse.payment_intent_id r)) pid)
                              (PyDict.values (_refunds w))
                  else PyDict.values (_refunds w))
               = sort_desc RefundResponse.created_at
                   (filter (matches_payment_intent pid)
                           (PyDict.values (_refunds w)))).
  { f_equal. destruct pid as [s|]; simpl.
    - destruct (String.eqb s "") eqn:E.
      + apply String.eqb_eq in E. congruence.
      + reflexivity.
    - now rewrite filter_all. }
  now rewrite Hs.
Qed.

(** X11.  [list_refunds] with a filter that is absent or not empty
    returns a prefix of the matching refunds sorted newest first: the
    first [limit] of them for a limit of 0 or more, and all but the last
    [-limit] of them for a negative limit. *)
Theorem list_refunds_limit env w pid limit :
  pid <> Some "" ->
  let matching := filter (matches_payment_intent pid)
                    (PyDict.values (_refunds w)) in
  let sorted := sort_desc RefundResponse.created_at matching in
  Permutation sorted matching /\
  StronglySorted (desc RefundResponse.created_at) sorted /\
  refund_service.list_refunds pid limit env w =
    (inr (if 0 <=? limit
          then firstn (Z.to_nat limit) sorted
          else firstn (List.length sorted - Z.to_nat (- limit)) sorted), w).
Proof.
  intros Hp matching sorted.
  split; [apply sort_desc_perm|]. split; [apply sort_desc_sorted|].
  now apply list_refunds_run.
Qed.

Lemma list_refunds_limit_witness :
  refund_service.list_refunds (Some "pi_3Nabc") (-1) examples.env
    examples.three_refunds
  = (inr [ examples.refund_record "re_3" "pi_3Nabc" 3;
           examples.refund_record "re_2" "pi_3Nabc" 2 ],
     examples.three_refunds).
Proof.
  assert (H : Some "pi_3Nabc" <> Some "") by discriminate.
  exact (proj2 (proj2 (list_refunds_limit examples.env examples.three_refunds
                         (Some "pi_3Nabc") (-1) H))).
Defined.

(** X12.  [GET /refunds/] accepts every limit up to 100, negative ones
    included, and answers 200; its [total] is the number of refunds in
    the answer, not the number of matching refunds: the smaller of the
    limit and the number of matches for a limit of 0 or more. *)
Theorem refund_list_total env w pid limit :
  pid <> Some "" -> limit <= 100 ->
  let matching := filter (matches_payment_intent pid)
                    (PyDict.values (_refunds w)) in
  exists refunds,
    refund_service.list_refunds pid limit env w = (inr refunds, w) /\
    api_refunds.GET_list pid (q_value limit) env w
    = (mkResponse 200
         (RefundList (RefundListResponse.mk refunds
                        (Z.of_nat (List.length refunds)) false)), w) /\
    (0 <= limit ->
     Z.of_nat (List.length refunds)
     = Z.min limit (Z.of_nat (List.length matching))) /\
    (limit < 0 ->
     Z.of_nat (List.length refunds)
     = Z.max (Z.of_nat (List.length matching) + limit) 0).
Proof.
  intros Hp Hmax matching.
  pose proof (list_refunds_run env w pid limit Hp) as Hrun.
  cbv zeta in Hrun. fold matching in Hrun.
  pose proof (Permutation_length
                (sort_desc_perm RefundResponse.created_at matching)) as Hperm.
  eexists. split; [exact Hrun|]. split.
  - unfold api_refunds.GET_list, Query_int.
    apply Z.leb_le in Hmax. simpl. rewrite Hmax. simpl.
    unfold main.dispatch, main.serve, main.returning, api_refunds.list_refunds, try_except,
      bind at 1.
    rewrite Hrun. reflexivity.
  - split; intros Hl.
    + apply Z.leb_le in Hl. rewrite Hl, length_firstn. lia.
    + apply Z.leb_gt in Hl. rewrite Hl, length_firstn. lia.
Qed.

Lemma refund_list_total_witness :
  exists refunds,
    api_refunds.GET_list (Some "pi_3Nabc") (q_value 2) examples.env
      examples.three_refunds
    = (mkResponse 200
         (RefundList (RefundListResponse.mk refunds 2 false)),
       examples.three_refunds) /\
    List.length
      (filter (matches_payment_intent (Some "pi_3Nabc"))
              (PyDict.values (_refunds examples.three_refunds))) = 3%nat.
Proof.
  assert (H1 : Some "pi_3Nabc" <> Some "") by discriminate.
  assert (H2 : 2 <= 100) by lia.
  destruct (refund_list_total examples.env examples.three_refunds
              (Some "pi_3Nabc") 2 H1 H2) as (refunds & Hs & Hr & _).
  exists refunds. split; [|reflexivity].
  injection Hs as <-. exact Hr.
Defined.

(** ** Looking a record up through its route *)

(** X13.  [GET /refunds/{id}] answers 200 with the stored record when
    the id is a key of the store.  [GET /payments/{id}] does not: its
    function is declared to return a dict and returns the stored model,
    which fails the validation of the response, so every stored id is
    answered with the application's 500 page.  Both answer an unknown id
    with 404 and the body of the application's own not-found handler,
    which replaces the detail message of the route; neither changes the
    state. *)
Theorem GET_record_by_id env w i :
  api_payments.GET_payment i env w =
    (match PyDict.get (_payments w) i with
     | Some p => mkResponse 500
                   (ErrorBody "Internal Server Error"
                              "An unexpected error occurred"
                              ("/api/v1/payments/" ++ i))
     | None => mkResponse 404
                 (ErrorBody "Not Found" "The requested resource was not found"
                            ("/api/v1/payments/" ++ i))
     end, w) /\
  api_refunds.GET_refund i env w =
    (match PyDict.get (_refunds w) i with
     | Some r => mkResponse 200 (RefundBody r)
     | None => mkResponse 404
                 (ErrorBody "Not Found" "The requested resource was not found"
                            ("/api/v1/refunds/" ++ i))
     end, w).
Proof.
  unfold api_payments.GET_payment, api_payments.get_payment,
    payment_service.get_payment, api_refunds.GET_refund,
    api_refunds.get_refund, refund_service.get_refund.
  run_route.
  destruct (PyDict.get (_payments w) i);
    destruct (PyDict.get (_refunds w) i); split; reflexivity.
Qed.

(** ** What reaches the provider when a payment is created *)


(** ** When the provider refuses *)





(** ** Subscriptions *)

(** X17.  The requested quantity plays no part in [create_subscription]:
    it is neither sent to the provider nor kept in the record, so two
    requests that differ only in the quantity run identically.  The one
    call names the customer and a single item with the price; the trial
    length travels only when it is not zero. *)
Theorem create_subscription_ignores_quantity env w req :
  (forall q,
     subscription_service.create_subscription (with_quantity req q) env w
     = subscription_service.create_subscription req env w) /\
  exists call,
    stripe_calls (snd (subscription_service.create_subscription req env w))
      = (stripe_calls w ++ [call])%list /\
    kwarg call "quantity" = None /\
    kwarg call "customer"
      = Some (VStr (SubscriptionCreateRequest.customer_id req)) /\
    kwarg call "items"
      = Some (VList [VDict [("price",
                 VStr (SubscriptionCreateRequest.price_id req))]]) /\
    kwarg call "trial_period_days"
      = (if truthy_int (SubscriptionCreateRequest.trial_period_days req)
         then option_map VInt (SubscriptionCreateRequest.trial_period_days req)
         else None).
Proof.
  split; [intros q; destruct req; reflexivity|].
  unfold subscription_service.create_subscription,
    stripe_service.create_subscription, stripe_service.send, bind, uuid4,
    utcnow, get_world, put_world, ret.
  destruct req as [cid price q trial md].
  cbn [SubscriptionCreateRequest.customer_id
       SubscriptionCreateRequest.price_id
       SubscriptionCreateRequest.trial_period_days
       SubscriptionCreateRequest.metadata].
  destruct trial as [t|]; cbn [truthy_int option_map];
    try destruct (t =? 0); cbn [negb];
    destruct md as [[|m md]|]; cbn [truthy_dict];
    cbv beta iota zeta;
    match goal with
    | |- context [Subscription_create_result env ?h ?k] =>
        exists (stripe.Subscription_create k);
        (split; [|repeat split; reflexivity]);
        destruct (Subscription_create_result env h k);
        [reflexivity|];
        do 5 (convert_timestamp; [|reflexivity]);
        reflexivity
    end.
Qed.

Lemma set_set {V : Type} (d : PyDict.t V) (k : string) (v1 v2 : V) :
  PyDict.set (PyDict.set d k v1) k v2 = PyDict.set d k v2.
Proof.
  induction d as [|[k' v'] d IH]; simpl.
  - now rewrite String.eqb_refl.
  - destruct (String.eqb k k') eqn:E; simpl; rewrite E; [reflexivity|].
    now rewrite IH.
Qed.

(** The outcomes of [cancel_subscription]. *)
Lemma cancel_subscription_run env w subscription_id :
  subscription_service.cancel_subscription subscription_id env w =
  match PyDict.get (_subscriptions w) subscription_id with
  | None => (inr None, w)
  | Some s =>
      let kwargs : PyDict.t PyVal := [("cancel_at_period_end", VBool true)] in
      let call := stripe.Subscription_modify
                    (SubscriptionResponse.stripe_subscription_id s) kwargs in
      match Subscription_modify_result env (stripe_calls w)
              (SubscriptionResponse.stripe_subscription_id s) kwargs with
      | inl e => (inl e, with_stripe_calls w (stripe_calls w ++ [call]))
      | inr sub =>
          let s1 := subscription_service.mark_canceled s
                      (stripe.sub_cancel_at_period_end sub) in
          match fst (subscription_service.opt_fromtimestamp
                       (stripe.sub_canceled_at sub) env w) with
          | inl e =>
              (inl e,
               mkWorld (_payments w) (_refunds w)
                       (PyDict.set (_subscriptions w) subscription_id s1)
                       (stripe_calls w ++ [call])
                       (uuids_drawn w) (clock_reads w))
          | inr canceled_at =>
              let s2 := subscription_service.stamp_canceled s1 canceled_at
                          (time_of env (clock_reads w)) in
              (inr (Some s2),
               mkWorld (_payments w) (_refunds w)
                       (PyDict.set (_subscriptions w) subscription_id s2)
                       (stripe_calls w ++ [call])
                       (uuids_drawn w) (S (clock_reads w)))
          end
      end
  end.
Proof.
  unfold subscription_service.cancel_subscription,
    stripe_service.cancel_subscription, stripe_service.send, bind, utcnow,
    get_world, put_world, ret.
  cbv beta iota zeta.
  destruct (PyDict.get (_subscriptions w) subscription_id) as [s|];
    [|reflexivity].
  destruct (Subscription_modify_result env (stripe_calls w)
              (SubscriptionResponse.stripe_subscription_id s)
              [("cancel_at_period_end", VBool true)]) as [e|sub];
    [reflexivity|].
  cbv beta iota zeta.
  assert (Hsame : forall w1,
    subscription_service.opt_fromtimestamp (stripe.sub_canceled_at sub) env w1
    = (fst (subscription_service.opt_fromtimestamp
              (stripe.sub_canceled_at sub) env w), w1)).
  { intros w1.
    unfold subscription_service.opt_fromtimestamp, fromtimestamp, bind, ret.
    destruct (stripe.sub_canceled_at sub) as [seconds|]; [|reflexivity].
    destruct (truthy_int (Some seconds)); [|reflexivity].
    destruct (fromtimestamp_result env seconds); reflexivity. }
  match goal with
  | |- context [subscription_service.opt_fromtimestamp ?x env ?w1] =>
      rewrite (Hsame w1)
  end.
  destruct (fst (subscription_service.opt_fromtimestamp
                   (stripe.sub_canceled_at sub) env w)) as [e|c];
    cbv beta iota zeta; [reflexivity|].
  simpl. now rewrite set_set.
Qed.

(** What every run of [cancel_subscription] on a stored subscription
    has in common. *)
Lemma cancel_subscription_stored env w subscription_id s :
  PyDict.get (_subscriptions w) subscription_id = Some s ->
  let run := subscription_service.cancel_subscription subscription_id env w in
  stripe_calls (snd run)
    = (stripe_calls w
       ++ [stripe.Subscription_modify
             (SubscriptionResponse.stripe_subscription_id s)
             [("cancel_at_period_end", VBool true)]])%list /\
  PyDict.keys (_subscriptions (snd run)) = PyDict.keys (_subscriptions w) /\
  (forall k, k <> subscription_id ->
     PyDict.get (_subscriptions (snd run)) k
     = PyDict.get (_subscriptions w) k) /\
  _payments (snd run) = _payments w /\
  _refunds (snd run) = _refunds w /\
  forall r, fst run = inr r ->
    exists s',
      r = Some s' /\
      PyDict.get (_subscriptions (snd run)) subscription_id = Some s' /\
      SubscriptionResponse.status s' = CANCELED /\
      SubscriptionResponse.id s' = SubscriptionResponse.id s /\
      SubscriptionResponse.created_at s' = SubscriptionResponse.created_at s /\
      SubscriptionResponse.stripe_subscription_id s'
        = SubscriptionResponse.stripe_subscription_id s.
Proof.
  intros Hget run. unfold run. rewrite cancel_subscription_run, Hget.
  cbv zeta.
  destruct (Subscription_modify_result env (stripe_calls w)
              (SubscriptionResponse.stripe_subscription_id s)
              [("cancel_at_period_end", VBool true)]) as [e|sub].
  - simpl. repeat split; auto. intros r Hr. discriminate.
  - destruct (fst (subscription_service.opt_fromtimestamp
                     (stripe.sub_canceled_at sub) env w)) as [e|c]; simpl.
    + split; [reflexivity|].
      split; [eapply keys_set_existing; exact Hget|].
      split; [intros k Hk; apply get_set_other; congruence|].
      repeat split; auto. intros r Hr. discriminate.
    + split; [reflexivity|].
      split; [eapply keys_set_existing; exact Hget|].
      split; [intros k Hk; apply get_set_other; congruence|].
      split; [reflexivity|]. split; [reflexivity|].
      intros r Hr. injection Hr as <-. eexists.
      split; [reflexivity|]. split; [apply get_set_same|].
      repeat split; reflexivity.
Qed.


(** X19.  Cancelling twice: after a cancellation that succeeded, the
    subscription is still stored, so a second [cancel_subscription] never
    reports it as unknown; it sends the provider the same call again,
    and when that succeeds the record is still canceled, under the same
    id, in the same place. *)
Theorem cancel_subscription_twice env w subscription_id s1 w1 :
  subscription_service.cancel_subscription subscription_id env w
    = (inr (Some s1), w1) ->
  let call := stripe.Subscription_modify
                (SubscriptionResponse.stripe_subscription_id s1)
                [("cancel_at_period_end", VBool true)] in
  PyDict.get (_subscriptions w1) subscription_id = Some s1 /\
  stripe_calls
    (snd (subscription_service.cancel_subscription subscription_id env w1))
    = (stripe_calls w ++ [call; call])%list /\
  forall r,
    fst (subscription_service.cancel_subscription subscription_id env w1)
      = inr r ->
    exists s2,
      r = Some s2 /\
      SubscriptionResponse.status s2 = CANCELED /\
      SubscriptionResponse.id s2 = SubscriptionResponse.id s1 /\
      SubscriptionResponse.created_at s2 = SubscriptionResponse.created_at s1 /\
      PyDict.keys
        (_subscriptions
           (snd (subscription_service.cancel_subscription subscription_id
                   env w1)))
      = PyDict.keys (_subscriptions w).
Proof.
  intros Hrun call.
  destruct (PyDict.get (_subscriptions w) subscription_id) as [s|] eqn:E.
  2: { rewrite cancel_subscription_run, E in Hrun. discriminate. }
  destruct (cancel_subscription_stored env w subscription_id s E)
    as (Hcalls & Hkeys & _ & _ & _ & Hok).
  rewrite Hrun in Hcalls, Hkeys, Hok. simpl in Hcalls, Hkeys, Hok.
  destruct (Hok (Some s1) eq_refl) as (s' & Hs' & Hget & _ & _ & _ & Hsid).
  injection Hs' as <-.
  destruct (cancel_subscription_stored env w1 subscription_id s1 Hget)
    as (Hcalls2 & Hkeys2 & _ & _ & _ & Hok2).
  split; [exact Hget|]. split.
  - rewrite Hcalls2, Hcalls, <- app_assoc. unfold call. rewrite Hsid.
    reflexivity.
  - intros r Hr. destruct (Hok2 r Hr) as (s2 & -> & _ & Hst & Hid & Hcr & _).
    exists s2. split; [reflexivity|]. split; [exact Hst|].
    split; [exact Hid|]. split; [exact Hcr|].
    now rewrite Hkeys2, Hkeys.
Qed.

Lemma cancel_subscription_twice_witness :
  let w := examples.two_subscriptions in
  let run1 := subscription_service.cancel_subscription "s1" examples.env w in
  let run2 := subscription_service.cancel_subscription "s1" examples.env
                (snd run1) in
  List.length (stripe_calls (snd run2)) = 2%nat /\
  option_map SubscriptionResponse.status
    (PyDict.get (_subscriptions (snd run2)) "s1") = Some CANCELED /\
  PyDict.keys (_subscriptions (snd run2)) = ["s1"; "s2"].
Proof.
  intros w run1 run2.
  assert (H1 : exists s1, run1 = (inr (Some s1), snd run1))
    by (eexists; cbv; reflexivity).
  destruct H1 as [s1 H1].
  destruct (cancel_subscription_twice examples.env w "s1" s1 (snd run1) H1)
    as (_ & Hcalls & _).
  fold run2 in Hcalls. rewrite Hcalls.
  repeat split; reflexivity.
Defined.

(** ** The status route *)

(** X20.  The status lookup is read-only and reports the provider's
    status, not the stored one: for every outcome the state is what it
    was.  An unknown id raises 404; a record without a payment-intent id
    raises 400 before the provider is asked; a provider error becomes a
    500 with the error text after the fixed prefix; otherwise the result
    pairs the id with the status the provider returned. *)
Theorem get_payment_status_outcomes retrieve env w payment_id :
  snd (payment_status.get_payment_status retrieve payment_id env w) = w /\
  fst (payment_status.get_payment_status retrieve payment_id env w) =
  match PyDict.get (_payments w) payment_id with
  | None => inl (HTTPException 404 "Payment not found")
  | Some p =>
      if truthy_str (PaymentResponse.stripe_payment_intent_id p) then
        match retrieve (PaymentResponse.stripe_payment_intent_id p) with
        | inr pi => inr [ ("payment_id", VStr payment_id);
                          ("status", VStr (stripe.pi_status pi)) ]
        | inl (HTTPException c d) => inl (HTTPException c d)
        | inl e => inl (HTTPException 500
                          ("Failed to get payment status: " ++ exc_str e))
        end
      else inl (HTTPException 400 "Payment has no Stripe Payment Intent ID")
  end.
Proof.
  unfold payment_status.get_payment_status,
    payment_status.get_payment_intent_status, payment_service.get_payment,
    try_except, bind, get_world, ret, raise.
  cbv beta iota.
  destruct (PyDict.get (_payments w) payment_id) as [p|];
    [|split; reflexivity].
  destruct (truthy_str (PaymentResponse.stripe_payment_intent_id p));
    simpl; [|split; reflexivity].
  destruct (retrieve (PaymentResponse.stripe_payment_intent_id p))
    as [[n|c d|m|m|]|pi]; split; reflexivity.
Qed.

(** ** The OAuth callback *)

(** X21.  The OAuth callback never fails and never changes the state.
    It reports success whenever [refresh] is ["true"] or a [code] is
    present, also when an [error] came with it; it reports an error
    only when there is an [error], no [code] and no refresh; the code is
    echoed as [account_id] only outside the refresh case. *)
Theorem oauth_callback_priority params env w :
  exists body,
    api_auth.oauth_callback params env w = (inr body, w) /\
    (PyDict.get params "refresh" = Some "true" ->
     PyDict.get body "status" = Some (VStr "success") /\
     PyDict.get body "account_id" = None) /\
    (forall c,
       PyDict.get params "code" = Some c ->
       PyDict.get body "status" = Some (VStr "success") /\
       (PyDict.get params "refresh" <> Some "true" ->
        PyDict.get body "account_id" = Some (VStr c))) /\
    (PyDict.get body "status" = Some (VStr "error") <->
     PyDict.get params "refresh" <> Some "true" /\
     PyDict.get params "code" = None /\
     PyDict.get params "error" <> None).
Proof.
  unfold api_auth.oauth_callback, try_except, ret, PyDict.contains.
  destruct (PyDict.get params "refresh") as [r|] eqn:Er; simpl.
  - destruct (String.eqb r "true") eqn:E.
    + apply String.eqb_eq in E. subst r.
      eexists. split; [reflexivity|]. simpl.
      split; [auto|]. split.
      * intros c _. split; [reflexivity | congruence].
      * split; [discriminate | intros (H & _); congruence].
    + apply String.eqb_neq in E.
      destruct (PyDict.get params "code") as [c|] eqn:Ec.
      * eexists. split; [reflexivity|]. simpl.
        split; [intros H; congruence|]. split.
        -- intros c' H. injection H as <-. auto.
        -- split; [discriminate | intros (_ & H & _); discriminate].
      * destruct (PyDict.get params "error") as [er|] eqn:Ee.
        -- eexists. split; [reflexivity|]. simpl.
           split; [intros H; congruence|]. split; [discriminate|].
           split; [intros _; repeat split; congruence | reflexivity].
        -- eexists. split; [reflexivity|]. simpl.
           split; [intros H; congruence|]. split; [discriminate|].
           split; [discriminate | intros (_ & _ & H); congruence].
  - destruct (PyDict.get params "code") as [c|] eqn:Ec.
    + eexists. split; [reflexivity|]. simpl.
      split; [discriminate|]. split.
      * intros c' H. injection H as <-. auto.
      * split; [discriminate | intros (_ & H & _); discriminate].
    + destruct (PyDict.get params "error") as [er|] eqn:Ee.
      * eexists. split; [reflexivity|]. simpl.
        split; [discriminate|]. split; [discriminate|].
        split; [intros _; repeat split; congruence | reflexivity].
      * eexists. split; [reflexivity|]. simpl.
        split; [discriminate|]. split; [discriminate|].
        split; [discriminate | intros (_ & _ & H); congruence].
Qed.

(** ** Webhook events *)

Section KeyedFind.
Context {V : Type} (ident : V -> string).

Lemma keyed_by_tail (k : string) (v : V) (d : PyDict.t V) :
  keyed_by ident ((k, v) :: d) ->
  ident v = k /\ ~ In k (PyDict.keys d) /\ keyed_by ident d.
Proof.
  intros [Hnd Hid]. inversion Hnd as [|? ? Hnotin Hnd']; subst.
  split; [apply Hid; now left|]. split; [exact Hnotin|].
  split; [exact Hnd' | intros k' v' Hin; apply Hid; now right].
Qed.

Lemma keyed_by_value_key (d : PyDict.t V) (v : V) :
  keyed_by ident d -> In v (PyDict.values d) -> In (ident v, v) d.
Proof.
  intros [_ Hid] Hin. apply in_map_iff in Hin.
  destruct Hin as ([k v0] & Hv & Hin). simpl in Hv. subst v0.
  now rewrite (Hid k v Hin).
Qed.

Lemma keyed_by_same_id (d : PyDict.t V) (v1 v2 : V) :
  keyed_by ident d ->
  In v1 (PyDict.values d) -> In v2 (PyDict.values d) ->
  ident v1 = ident v2 -> v1 = v2.
Proof.
  intros Hk H1 H2 Hid.
  apply (keyed_by_value_key _ _ Hk) in H1, H2.
  apply (keyed_by_get _ _ _ _ Hk) in H1, H2.
  rewrite Hid in H1. congruence.
Qed.

(** Replacing the first record a search finds by one with the same id
    that the search also accepts: the search finds the new record. *)
Lemma find_values_set (f : V -> bool) (d : PyDict.t V) (v v' : V) :
  keyed_by ident d ->
  find f (PyDict.values d) = Some v ->
  ident v' = ident v -> f v' = true ->
  find f (PyDict.values (PyDict.set d (ident v) v')) = Some v'.
Proof.
  intros Hk Hfind Hid Hf.
  induction d as [|[k0 v0] d IH]; simpl in *; [discriminate|].
  destruct (keyed_by_tail _ _ _ Hk) as (Hk0 & Hnotin & Hk').
  destruct (f v0) eqn:E0.
  - injection Hfind as ->.
    assert (E : String.eqb (ident v) k0 = true)
      by (apply String.eqb_eq; exact Hk0).
    rewrite E. simpl. now rewrite Hf.
  - assert (Hin : In v (PyDict.values d))
      by (apply find_some in Hfind; tauto).
    assert (Hne : String.eqb (ident v) k0 = false).
    { apply String.eqb_neq. intros Heq. rewrite <- Hk0 in *. apply Hnotin.
      apply (keyed_by_value_key _ _ Hk') in Hin.
      apply (in_map fst) in Hin. simpl in Hin. rewrite Heq in Hin.
      exact Hin. }
    rewrite Hne. simpl. rewrite E0. now apply IH.
Qed.
End KeyedFind.

(** What a status update does to the state, whatever the id. *)
Lemma update_payment_status_run env w i st :
  payment_service.update_payment_status i st env w =
  match PyDict.get (_payments w) i with
  | None => (inr None, w)
  | Some p =>
      let p' := payment_service.set_status p st (time_of env (clock_reads w)) in
      (inr (Some p'),
       mkWorld (PyDict.set (_payments w) i p') (_refunds w) (_subscriptions w)
               (stripe_calls w) (uuids_drawn w) (S (clock_reads w)))
  end.
Proof.
  unfold payment_service.update_payment_status, bind, get_world, put_world,
    utcnow, ret.
  cbv beta iota.
  destruct (PyDict.get (_payments w) i); reflexivity.
Qed.

(** The two handlers differ in the status only. *)
Lemma handle_payment_event_run st obj env w :
  (st = SUCCEEDED \/ st = FAILED) ->
  (if match st with SUCCEEDED => true | _ => false end
   then payment_webhook._handle_payment_succeeded obj env w
   else payment_webhook._handle_payment_failed obj env w) =
  match payment_webhook.subscript obj "id" with
  | inl e => (inl e, w)
  | inr v =>
      match find (fun p => payment_webhook.intent_id_eqb
                             (PaymentResponse.stripe_payment_intent_id p) v)
                 (PyDict.values (_payments w)) with
      | None => (inr tt, w)
      | Some p =>
          (inr tt,
           snd (payment_service.update_payment_status
                  (PaymentResponse.id p) st env w))
      end
  end.
Proof.
  intros [-> | ->]; cbv iota;
    unfold payment_webhook._handle_payment_succeeded,
      payment_webhook._handle_payment_failed, payment_webhook.call;
    (destruct (payment_webhook.subscript obj "id") as [e|v]; [reflexivity|]);
    (destruct (find _ _) as [p|]; [|reflexivity]);
    rewrite update_payment_status_run;
    destruct (PyDict.get (_payments w) (PaymentResponse.id p)); reflexivity.
Qed.

(** How [process_webhook] routes an event of one of the two types. *)
Lemma process_webhook_run ev st env w :
  (PyDict.get ev "type" = Some (VStr "payment_intent.succeeded")
   /\ st = SUCCEEDED) \/
  (PyDict.get ev "type" = Some (VStr "payment_intent.payment_failed")
   /\ st = FAILED) ->
  payment_webhook.process_webhook ev env w =
  match payment_webhook.subscript (VDict ev) "data" with
  | inl e => (inl e, w)
  | inr data =>
      match payment_webhook.subscript data "object" with
      | inl e => (inl e, w)
      | inr obj =>
          match payment_webhook.subscript obj "id" with
          | inl e => (inl e, w)
          | inr v =>
              match find (fun p => payment_webhook.intent_id_eqb
                              (PaymentResponse.stripe_payment_intent_id p) v)
                         (PyDict.values (_payments w)) with
              | None => (inr tt, w)
              | Some p =>
                  (inr tt,
                   snd (payment_service.update_payment_status
                          (PaymentResponse.id p) st env w))
              end
          end
      end
  end.
Proof.
  intros [[Ht ->] | [Ht ->]]; unfold payment_webhook.process_webhook;
    rewrite Ht; simpl payment_webhook.val_is; cbv iota;
    (destruct (payment_webhook.subscript (VDict ev) "data") as [e|data];
     [reflexivity|]);
    (destruct (payment_webhook.subscript data "object") as [e|obj];
     [reflexivity|]).
  - exact (handle_payment_event_run SUCCEEDED obj env w (or_introl eq_refl)).
  - exact (handle_payment_event_run FAILED obj env w (or_intror eq_refl)).
Qed.

(** An event of any other type, or without a type, is ignored. *)
Lemma process_webhook_ignored ev env w :
  PyDict.get ev "type" <> Some (VStr "payment_intent.succeeded") ->
  PyDict.get ev "type" <> Some (VStr "payment_intent.payment_failed") ->
  payment_webhook.process_webhook ev env w = (inr tt, w).
Proof.
  intros H1 H2. unfold payment_webhook.process_webhook.
  assert (E1 : payment_webhook.val_is (PyDict.get ev "type")
                 "payment_intent.succeeded" = false).
  { destruct (PyDict.get ev "type") as [[| | |s| |]|]; try reflexivity.
    simpl. apply String.eqb_neq. congruence. }
  assert (E2 : payment_webhook.val_is (PyDict.get ev "type")
                 "payment_intent.payment_failed" = false).
  { destruct (PyDict.get ev "type") as [[| | |s| |]|]; try reflexivity.
    simpl. apply String.eqb_neq. congruence. }
  now rewrite E1, E2.
Qed.

Lemma event_type_cases (ev : PyDict.t PyVal) :
  PyDict.get ev "type" = Some (VStr "payment_intent.succeeded") \/
  PyDict.get ev "type" = Some (VStr "payment_intent.payment_failed") \/
  (PyDict.get ev "type" <> Some (VStr "payment_intent.succeeded") /\
   PyDict.get ev "type" <> Some (VStr "payment_intent.payment_failed")).
Proof.
  destruct (PyDict.get ev "type") as [[| | |s| |]|];
    try (right; right; split; discriminate).
  destruct (String.eqb s "payment_intent.succeeded") eqn:E1.
  - apply String.eqb_eq in E1. subst. now left.
  - destruct (String.eqb s "payment_intent.payment_failed") eqn:E2.
    + apply String.eqb_eq in E2. subst. right. now left.
    + apply String.eqb_neq in E1, E2. right. right.
      split; congruence.
Qed.

Lemma subscript_error v k e :
  payment_webhook.subscript v k = inl e ->
  e = payment_webhook.TypeError \/ e = payment_webhook.KeyError k.
Proof.
  unfold payment_webhook.subscript.
  destruct v as [| | | |items|]; try (intros H; injection H as <-; now left).
  destruct (PyDict.get items k); [discriminate|].
  intros H; injection H as <-. now right.
Qed.

(** X22.  [process_webhook] fails only on an event of one of its two
    types whose [data.object.id] cannot be read, with the [KeyError] of
    the missing key or a [TypeError], and then it has changed nothing:
    no event leaves a half-applied update, and the status update inside
    it never raises. *)
Theorem process_webhook_failure env w ev e w' :
  payment_webhook.process_webhook ev env w = (inl e, w') ->
  w' = w /\
  (PyDict.get ev "type" = Some (VStr "payment_intent.succeeded") \/
   PyDict.get ev "type" = Some (VStr "payment_intent.payment_failed")) /\
  (e = payment_webhook.TypeError \/
   e = payment_webhook.KeyError "data" \/
   e = payment_webhook.KeyError "object" \/
   e = payment_webhook.KeyError "id").
Proof.
  intros Hrun.
  assert (Hcase : forall st,
    (PyDict.get ev "type" = Some (VStr "payment_intent.succeeded")
     /\ st = SUCCEEDED) \/
    (PyDict.get ev "type" = Some (VStr "payment_intent.payment_failed")
     /\ st = FAILED) ->
    w' = w /\
    (e = payment_webhook.TypeError \/
     e = payment_webhook.KeyError "data" \/
     e = payment_webhook.KeyError "object" \/
     e = payment_webhook.KeyError "id")).
  { intros st Hst. rewrite (process_webhook_run ev st env w Hst) in Hrun.
    destruct (payment_webhook.subscript (VDict ev) "data") as [e1|data] eqn:E1.
    { injection Hrun as <- <-. split; [reflexivity|].
      destruct (subscript_error _ _ _ E1) as [->| ->]; auto. }
    destruct (payment_webhook.subscript data "object") as [e2|obj] eqn:E2.
    { injection Hrun as <- <-. split; [reflexivity|].
      destruct (subscript_error _ _ _ E2) as [->| ->]; auto. }
    destruct (payment_webhook.subscript obj "id") as [e3|v] eqn:E3.
    { injection Hrun as <- <-. split; [reflexivity|].
      destruct (subscript_error _ _ _ E3) as [->| ->]; auto. }
    destruct (find _ _); discriminate. }
  destruct (event_type_cases ev) as [H|[H|[H1 H2]]].
  - destruct (Hcase SUCCEEDED (or_introl (conj H eq_refl))) as [Hw He]. auto.
  - destruct (Hcase FAILED (or_intror (conj H eq_refl))) as [Hw He]. auto.
  - rewrite process_webhook_ignored in Hrun by assumption. discriminate.
Qed.

Lemma process_webhook_failure_witness :
  let ev : PyDict.t PyVal := [("type", VStr "payment_intent.succeeded")] in
  payment_webhook.process_webhook ev examples.env examples.three_intents
    = (inl (payment_webhook.KeyError "data"), examples.three_intents) /\
  (payment_webhook.KeyError "data" = payment_webhook.TypeError \/
   payment_webhook.KeyError "data" = payment_webhook.KeyError "data" \/
   payment_webhook.KeyError "data" = payment_webhook.KeyError "object" \/
   payment_webhook.KeyError "data" = payment_webhook.KeyError "id").
Proof.
  intros ev. split; [reflexivity|].
  exact (proj2 (proj2 (process_webhook_failure examples.env
                         examples.three_intents ev
                         (payment_webhook.KeyError "data")
                         examples.three_intents eq_refl))).
Defined.

(** An event whose payment intent is found: the first payment that
    carries it gets the status of the event. *)
Lemma process_webhook_found env w ev st data obj v p :
  keyed_by PaymentResponse.id (_payments w) ->
  (PyDict.get ev "type" = Some (VStr "payment_intent.succeeded")
   /\ st = SUCCEEDED) \/
  (PyDict.get ev "type" = Some (VStr "payment_intent.payment_failed")
   /\ st = FAILED) ->
  PyDict.get ev "data" = Some (VDict data) ->
  PyDict.get data "object" = Some (VDict obj) ->
  PyDict.get obj "id" = Some v ->
  find (fun q => payment_webhook.intent_id_eqb
                   (PaymentResponse.stripe_payment_intent_id q) v)
       (PyDict.values (_payments w)) = Some p ->
  payment_webhook.process_webhook ev env w =
  (inr tt,
   mkWorld (PyDict.set (_payments w) (PaymentResponse.id p)
              (payment_service.set_status p st (time_of env (clock_reads w))))
           (_refunds w) (_subscriptions w) (stripe_calls w)
           (uuids_drawn w) (S (clock_reads w))).
Proof.
  intros Hk Hst Hd Ho Hi Hfind.
  rewrite (process_webhook_run ev st env w Hst).
  unfold payment_webhook.subscript. rewrite Hd, Ho, Hi, Hfind.
  rewrite update_payment_status_run.
  assert (Hget : PyDict.get (_payments w) (PaymentResponse.id p) = Some p).
  { apply (keyed_by_get _ _ _ _ Hk), (keyed_by_value_key _ _ _ Hk).
    apply find_some in Hfind. tauto. }
  now rewrite Hget.
Qed.

(** X23.  Whatever the event, [process_webhook] neither adds nor removes
    a payment and touches no other store, no call goes to the provider
    and no id is drawn; a stored payment is either left as it was or is
    the old record with status succeeded or failed and a new
    [updated_at]. *)
Theorem process_webhook_only_status env w ev :
  let w' := snd (payment_webhook.process_webhook ev env w) in
  PyDict.keys (_payments w') = PyDict.keys (_payments w) /\
  _refunds w' = _refunds w /\
  _subscriptions w' = _subscriptions w /\
  stripe_calls w' = stripe_calls w /\
  uuids_drawn w' = uuids_drawn w /\
  forall k p',
    PyDict.get (_payments w') k = Some p' ->
    exists p,
      PyDict.get (_payments w) k = Some p /\
      (p' = p \/
       exists st now,
         (st = SUCCEEDED \/ st = FAILED) /\
         p' = payment_service.set_status p st now).
Proof.
  assert (Hsame : forall w0, w0 = w ->
    PyDict.keys (_payments w0) = PyDict.keys (_payments w) /\
    _refunds w0 = _refunds w /\ _subscriptions w0 = _subscriptions w /\
    stripe_calls w0 = stripe_calls w /\ uuids_drawn w0 = uuids_drawn w /\
    forall k p', PyDict.get (_payments w0) k = Some p' ->
      exists p, PyDict.get (_payments w) k = Some p /\
        (p' = p \/ exists st now, (st = SUCCEEDED \/ st = FAILED) /\
                     p' = payment_service.set_status p st now)).
  { intros w0 ->. repeat split; auto. intros k p' H. exists p'. auto. }
  assert (Hcase : forall st,
    (PyDict.get ev "type" = Some (VStr "payment_intent.succeeded")
     /\ st = SUCCEEDED) \/
    (PyDict.get ev "type" = Some (VStr "payment_intent.payment_failed")
     /\ st = FAILED) ->
    let w' := snd (payment_webhook.process_webhook ev env w) in
    PyDict.keys (_payments w') = PyDict.keys (_payments w) /\
    _refunds w' = _refunds w /\ _subscriptions w' = _subscriptions w /\
    stripe_calls w' = stripe_calls w /\ uuids_drawn w' = uuids_drawn w /\
    forall k p', PyDict.get (_payments w') k = Some p' ->
      exists p, PyDict.get (_payments w) k = Some p /\
        (p' = p \/ exists st now, (st = SUCCEEDED \/ st = FAILED) /\
                     p' = payment_service.set_status p st now)).
  { intros st Hst. cbv zeta.
    rewrite (process_webhook_run ev st env w Hst).
    destruct (payment_webhook.subscript (VDict ev) "data") as [e1|data];
      [now apply Hsame|].
    destruct (payment_webhook.subscript data "object") as [e2|obj];
      [now apply Hsame|].
    destruct (payment_webhook.subscript obj "id") as [e3|v];
      [now apply Hsame|].
    destruct (find _ _) as [p0|]; [|now apply Hsame].
    rewrite update_payment_status_run.
    destruct (PyDict.get (_payments w) (PaymentResponse.id p0)) as [q|] eqn:E;
      [|now apply Hsame].
    simpl. split; [eapply keys_set_existing; exact E|].
    do 4 (split; [reflexivity|]).
    intros k p' Hget.
    destruct (String.eqb (PaymentResponse.id p0) k) eqn:Ek.
    - apply String.eqb_eq in Ek. subst k. rewrite get_set_same in Hget.
      injection Hget as <-. exists q. split; [exact E|]. right.
      exists st, (time_of env (clock_reads w)). split; [|reflexivity].
      destruct Hst as [[_ ->]|[_ ->]]; auto.
    - apply String.eqb_neq in Ek. rewrite get_set_other in Hget by exact Ek.
      exists p'. auto. }
  destruct (event_type_cases ev) as [H|[H|[H1 H2]]].
  - exact (Hcase SUCCEEDED (or_introl (conj H eq_refl))).
  - exact (Hcase FAILED (or_intror (conj H eq_refl))).
  - cbv zeta. rewrite process_webhook_ignored by assumption.
    now apply Hsame.
Qed.

(** X24.  In a store keyed by record id, a well-formed event of one of
    the two types updates the first payment, in order of insertion, that
    carries the event's payment intent, and no other: that payment gets
    the event's status and a new [updated_at], every other payment, also
    a later one with the same payment intent, is as before.  When no
    payment carries it, nothing changes. *)
Theorem process_webhook_marks_first env w ev st data obj v :
  keyed_by PaymentResponse.id (_payments w) ->
  (PyDict.get ev "type" = Some (VStr "payment_intent.succeeded")
   /\ st = SUCCEEDED) \/
  (PyDict.get ev "type" = Some (VStr "payment_intent.payment_failed")
   /\ st = FAILED) ->
  PyDict.get ev "data" = Some (VDict data) ->
  PyDict.get data "object" = Some (VDict obj) ->
  PyDict.get obj "id" = Some v ->
  let run := payment_webhook.process_webhook ev env w in
  match find (fun q => payment_webhook.intent_id_eqb
                         (PaymentResponse.stripe_payment_intent_id q) v)
             (PyDict.values (_payments w)) with
  | None => run = (inr tt, w)
  | Some p =>
      fst run = inr tt /\
      PyDict.get (_payments (snd run)) (PaymentResponse.id p)
        = Some (payment_service.set_status p st
                  (time_of env (clock_reads w))) /\
      (forall q, In q (PyDict.values (_payments w)) -> q <> p ->
         PyDict.get (_payments (snd run)) (PaymentResponse.id q) = Some q) /\
      keyed_by PaymentResponse.id (_payments (snd run))
  end.
Proof.
  intros Hk Hst Hd Ho Hi run.
  destruct (find _ _) as [p|] eqn:Hfind.
  - unfold run.
    rewrite (process_webhook_found env w ev st data obj v p
               Hk Hst Hd Ho Hi Hfind).
    simpl. split; [reflexivity|]. split; [apply get_set_same|].
    assert (Hp : In p (PyDict.values (_payments w)))
      by (apply find_some in Hfind; tauto).
    split.
    + intros q Hq Hne. rewrite get_set_other.
      * apply (keyed_by_get _ _ _ _ Hk), (keyed_by_value_key _ _ _ Hk), Hq.
      * intros Heq. apply Hne. symmetry.
        now apply (keyed_by_same_id _ _ _ _ Hk Hp Hq).
    + apply (keyed_by_set PaymentResponse.id (_payments w)
               (payment_service.set_status p st
                  (time_of env (clock_reads w))) Hk).
  - unfold run. rewrite (process_webhook_run ev st env w Hst).
    unfold payment_webhook.subscript. now rewrite Hd, Ho, Hi, Hfind.
Qed.

Lemma process_webhook_marks_first_witness :
  let w := examples.three_intents in
  let run := payment_webhook.process_webhook
               (examples.event "payment_intent.succeeded" "pi_B")
               examples.env w in
  map (fun p => (PaymentResponse.id p, PaymentResponse.status p))
      (PyDict.values (_payments (snd run)))
  = [("p1", PENDING); ("p2", SUCCEEDED); ("p3", PENDING)] /\
  PyDict.get (_payments (snd run)) "p3"
  = Some (examples.payment_of_intent "p3" "pi_B" 3).
Proof.
  intros w run. split; [reflexivity|].
  assert (Hk : keyed_by PaymentResponse.id (_payments w)).
  { split.
    - repeat constructor; simpl; intuition discriminate.
    - intros k p [H|[H|[H|[]]]]; injection H as <- <-; reflexivity. }
  pose proof (process_webhook_marks_first examples.env w
                (examples.event "payment_intent.succeeded" "pi_B") SUCCEEDED
                [("object", VDict [("id", VStr "pi_B");
                                   ("object", VStr "payment_intent")])]
                [("id", VStr "pi_B"); ("object", VStr "payment_intent")]
                (VStr "pi_B") Hk (or_introl (conj eq_refl eq_refl))
                eq_refl eq_refl eq_refl) as H.
  simpl find in H. destruct H as (_ & _ & Hothers & _).
  apply (Hothers (examples.payment_of_intent "p3" "pi_B" 3)).
  - simpl. auto.
  - discriminate.
Defined.

(** X25.  Status updates are not guarded: in a store keyed by record id,
    a succeeded event followed by a failed event for the same payment
    intent leaves the payment failed; the later event wins, and the
    store keeps its keys. *)
Theorem webhook_last_event_wins env w pi p :
  keyed_by PaymentResponse.id (_payments w) ->
  find (fun q => payment_webhook.intent_id_eqb
                   (PaymentResponse.stripe_payment_intent_id q) (VStr pi))
       (PyDict.values (_payments w)) = Some p ->
  let w1 := snd (payment_webhook.process_webhook
                   (examples.event "payment_intent.succeeded" pi) env w) in
  let w2 := snd (payment_webhook.process_webhook
                   (examples.event "payment_intent.payment_failed" pi)
                   env w1) in
  option_map PaymentResponse.status
    (PyDict.get (_payments w1) (PaymentResponse.id p)) = Some SUCCEEDED /\
  option_map PaymentResponse.status
    (PyDict.get (_payments w2) (PaymentResponse.id p)) = Some FAILED /\
  PyDict.keys (_payments w2) = PyDict.keys (_payments w).
Proof.
  intros Hk Hfind w1 w2.
  assert (Hget : PyDict.get (_payments w) (PaymentResponse.id p) = Some p).
  { apply (keyed_by_get _ _ _ _ Hk), (keyed_by_value_key _ _ _ Hk).
    apply find_some in Hfind. tauto. }
  set (p1 := payment_service.set_status p SUCCEEDED
               (time_of env (clock_reads w))).
  assert (Hw1 : w1 =
    mkWorld (PyDict.set (_payments w) (PaymentResponse.id p) p1)
            (_refunds w) (_subscriptions w) (stripe_calls w)
            (uuids_drawn w) (S (clock_reads w))).
  { unfold w1.
    rewrite (process_webhook_found env w
               (examples.event "payment_intent.succeeded" pi) SUCCEEDED
               _ _ (VStr pi) p Hk (or_introl (conj eq_refl eq_refl))
               eq_refl eq_refl eq_refl Hfind).
    reflexivity. }
  assert (Hk1 : keyed_by PaymentResponse.id (_payments w1)).
  { rewrite Hw1. simpl.
    exact (keyed_by_set PaymentResponse.id (_payments w) p1 Hk). }
  assert (Hfind1 :
    find (fun q => payment_webhook.intent_id_eqb
                     (PaymentResponse.stripe_payment_intent_id q) (VStr pi))
         (PyDict.values (_payments w1)) = Some p1).
  { rewrite Hw1. simpl _payments.
    apply (find_values_set PaymentResponse.id _ (_payments w) p p1 Hk Hfind).
    - reflexivity.
    - apply find_some in Hfind. exact (proj2 Hfind). }
  assert (Hw2 : w2 =
    mkWorld (PyDict.set (_payments w1) (PaymentResponse.id p1)
               (payment_service.set_status p1 FAILED
                  (time_of env (clock_reads w1))))
            (_refunds w1) (_subscriptions w1) (stripe_calls w1)
            (uuids_drawn w1) (S (clock_reads w1))).
  { unfold w2.
    rewrite (process_webhook_found env w1
               (examples.event "payment_intent.payment_failed" pi) FAILED
               _ _ (VStr pi) p1 Hk1 (or_intror (conj eq_refl eq_refl))
               eq_refl eq_refl eq_refl Hfind1).
    reflexivity. }
  split; [|split].
  - rewrite Hw1. simpl _payments. now rewrite get_set_same.
  - rewrite Hw2. simpl _payments.
    change (PaymentResponse.id p1) with (PaymentResponse.id p).
    now rewrite get_set_same.
  - rewrite Hw2. simpl _payments.
    change (PaymentResponse.id p1) with (PaymentResponse.id p).
    erewrite keys_set_existing.
    + rewrite Hw1. simpl _payments. eapply keys_set_existing. exact Hget.
    + rewrite Hw1. simpl _payments. apply get_set_same.
Qed.

Lemma webhook_last_event_wins_witness :
  let w := examples.three_intents in
  let w1 := snd (payment_webhook.process_webhook
                   (examples.event "payment_intent.succeeded" "pi_B")
                   examples.env w) in
  let w2 := snd (payment_webhook.process_webhook
                   (examples.event "payment_intent.payment_failed" "pi_B")
                   examples.env w1) in
  option_map PaymentResponse.status (PyDict.get (_payments w1) "p2")
    = Some SUCCEEDED /\
  option_map PaymentResponse.status (PyDict.get (_payments w2) "p2")
    = Some FAILED /\
  PyDict.keys (_payments w2) = ["p1"; "p2"; "p3"].
Proof.
  intros w w1 w2.
  assert (Hk : keyed_by PaymentResponse.id (_payments w)).
  { split.
    - repeat constructor; simpl; intuition discriminate.
    - intros k p [H|[H|[H|[]]]]; injection H as <- <-; reflexivity. }
  exact (webhook_last_event_wins examples.env w "pi_B"
           (examples.payment_of_intent "p2" "pi_B" 2) Hk eq_refl).
Defined.

(** ** A subscription that is not created *)

(** X26.  Whenever [create_subscription] fails, exactly one call went to
    the provider, nothing is stored, and the route answers 500 with the
    error text after the fixed prefix.  The failure has one of two
    causes.  Either the provider refused that call: then the error is
    the provider's, no id is drawn and the clock is not read.  Or the
    provider accepted and a timestamp of its answer could not be
    converted: then the error is that of the conversion, raised after
    one id was drawn and the clock read once. *)
Theorem create_subscription_provider_failure env w req e w' :
  subscription_service.create_subscription req env w = (inl e, w') ->
  _subscriptions w' = _subscriptions w /\
  _payments w' = _payments w /\
  _refunds w' = _refunds w /\
  (exists kwargs,
     stripe_calls w'
       = (stripe_calls w ++ [stripe.Subscription_create kwargs])%list /\
     match Subscription_create_result env (stripe_calls w) kwargs with
     | inl refusal =>
         e = refusal /\
         uuids_drawn w' = uuids_drawn w /\
         clock_reads w' = clock_reads w
     | inr sub =>
         (exists message, e = ValueError message) /\
         uuids_drawn w' = S (uuids_drawn w) /\
         clock_reads w' = S (clock_reads w)
     end) /\
  (forall body,
     api_subscriptions.validate_body body = Some req ->
     api_subscriptions.POST_create body env w
     = (mkResponse 500
          (Detail ("Failed to create subscription: " ++ exc_str e)), w')).
Proof.
  intros Hrun.
  assert (Hroute : forall body,
     api_subscriptions.validate_body body = Some req ->
     api_subscriptions.POST_create body env w
     = (mkResponse 500
          (Detail ("Failed to create subscription: " ++ exc_str e)), w')).
  { intros body Hb. unfold api_subscriptions.POST_create. rewrite Hb.
    simpl option_map.
    unfold main.dispatch, main.serve, main.returning,
      api_subscriptions.create_subscription, try_except, bind.
    rewrite Hrun. reflexivity. }
  destruct (create_subscription_run env w req) as (kwargs & Hk).
  destruct (Subscription_create_result env (stripe_calls w) kwargs)
    as [refusal|sub] eqn:Hprov.
  - rewrite Hrun in Hk. injection Hk as -> ->.
    do 3 (split; [reflexivity|]). split; [|exact Hroute].
    exists kwargs. split; [reflexivity|]. rewrite Hprov.
    repeat split; reflexivity.
  - destruct Hk as [[m Hm]|(s & Hs & _)].
    + rewrite Hrun in Hm. injection Hm as -> ->.
      do 3 (split; [reflexivity|]). split; [|exact Hroute].
      exists kwargs. split; [reflexivity|]. rewrite Hprov.
      split; [exists m; reflexivity|]. split; reflexivity.
    + rewrite Hrun in Hs. discriminate.
Qed.

Lemma create_subscription_provider_failure_witness :
  let req := examples.subscription_request (Some 7) in
  let refused := snd (subscription_service.create_subscription req
                        examples.failing_env examples.two_subscriptions) in
  let unconverted := snd (subscription_service.create_subscription req
                            examples.bounded_env examples.two_subscriptions) in
  (_subscriptions refused = _subscriptions examples.two_subscriptions /\
   api_subscriptions.POST_create (Some req) examples.failing_env
     examples.two_subscriptions
   = (mkResponse 500
        (Detail "Failed to create subscription: resource_missing"),
      refused)) /\
  (_subscriptions unconverted = _subscriptions examples.two_subscriptions /\
   api_subscriptions.POST_create (Some req) examples.bounded_env
     examples.two_subscriptions
   = (mkResponse 500
        (Detail "Failed to create subscription: year 3170843 is out of range"),
      unconverted)).
Proof.
  intros req refused unconverted. split.
  - destruct (create_subscription_provider_failure examples.failing_env
                examples.two_subscriptions req
                (StripeError "resource_missing") refused eq_refl)
      as (Hs & _ & _ & _ & Hroute).
    split; [exact Hs|]. apply Hroute. reflexivity.
  - destruct (create_subscription_provider_failure examples.bounded_env
                examples.two_subscriptions req
                (ValueError "year 3170843 is out of range") unconverted
                eq_refl)
      as (Hs & _ & _ & _ & Hroute).
    split; [exact Hs|]. apply Hroute. reflexivity.
Defined.
